(* ===== verification/_CoqProject ===== *)
-Q . S2P
Prelude.v
Dtmf.v
AsciiDigits.v
Tone.v
Pcm.v
WaveWriter.v
Encoder.v
Session.v
LayerSpec.v
ZipChallenge.v
Console.v
Challenge.v
