(* ===== verification/Prelude.v ===== *)
(** * A verification library for the Salaar puzzle application

    The repository is a three-layer puzzle web application.  Its parts:

    - [src/create_dtmf_wav_fixed.py] and [src/create_dtmf_wav.py]: two
      versions of the layer-3 artifact generator.  Each maps a text
      message to the decimal digits of its code points
      ([text_to_ascii_digits]), synthesises one dual-tone (DTMF) burst per
      digit from [DTMF_TABLE] ([generate_dtmf_tone]), appends a silence
      gap after every burst, and writes a mono 16-bit PCM WAV file
      ([create_dtmf_wav]).  The "fixed" version quantises every sample
      itself and packs it with [struct.pack('<h')]; the numpy version
      normalises each burst, normalises the whole buffer once more and
      casts to [int16].
    - [src/app.py]: the Flask application.  A per-browser session (a
      dictionary of [layer_k_unlocked] flags) gates the three layers; the
      submit handlers compare a stripped answer with a secret and set the
      next flag; the download routes serve the ZIP and the WAV artifact.
    - [src/create_zip_challenge.py]: the layer-2 generator, which splits a
      flag into 14 chunks ([split_flag]) and writes one ZIP per chunk into
      a master ZIP.

    Interaction: the generators run offline and produce the files that the
    application's download routes serve; a solver decodes them and submits
    what they recover to the submit handlers.

    ** Files of this development (in dependency order)

    - [Prelude] (this file): the Python-exception result monad
      [pyresult] with its notation in [py_scope], truncation of rationals
      toward zero ([qtrunc], Python's [int(x)] and numpy's [astype]),
      peak absolute value ([max_abs], numpy's [np.max(np.abs(a))]), the
      16-bit range, generic list lemmas and the hint database [salaar].
    - [Dtmf]: the two [DTMF_TABLE] dictionaries and their lookup; that they
      define the same function, its injectivity and its 4x3 grid.
    - [AsciiDigits]: [text_to_ascii_digits] over Python strings (lists of
      code points), the solver's greedy regrouping, the round trip on
      printable ASCII and the ambiguity of the encoding in general.
    - [Tone]: the oscillator interface ([Oscillator], standing for
      [math.sin]/[np.sin] at the sample instants) and both versions of
      [generate_dtmf_tone]: lengths, 16-bit bounds, per-burst peak.
    - [Pcm]: [struct.pack('<h')] of samples and the WAV container the
      [wave] module writes (in one step); their parsers and round trips.
    - [WaveWriter]: the [wave.Wave_write] object as a state machine (its
      fields, the setters' guards, the header written on the first
      [writeframes] and patched on [close]); the generators' [with] block
      refines [Pcm.Wave.write] (through the state [written] the writer
      reaches after its [writeframes]).
    - [Encoder]: both versions of [create_dtmf_wav] as functions from a
      message to the bytes of the file; sample counts, failure-freedom of
      the fixed version, the error of the numpy version on the empty
      message, and that its second normalisation is a no-op.
    - [Session]: the routes of [app.py] as handlers on a session store
      ([gmap string bool]) and a request, their composition into traces,
      the gating invariants and the monotonicity of the unlock flags.
    - [LayerSpec]: an abstract specification of the layer gates (three
      flags, four events, an inductive step relation with stutters), the
      refinement mapping from sessions and requests, and the spec's own
      five-state machine for comparison.
    - [ZipChallenge]: [split_flag] with Python slicing, and [main] as a
      function on a file system ([gmap string fsentry], a text file, a
      ZIP archive with its members in order, or a directory):
      [os.makedirs(..., exist_ok=True)] with its recursion on
      [os.path.dirname], [open(p, 'w')] and [ZipFile(p, 'w')] with their
      parent-directory checks, the part files, the part archives and the
      master archive [challenges/flag_parts.zip]; and [create_small_zip]
      with [str.replace] and [os.path.basename].
    - [Console]: what the scripts print, threaded through the runs with a
      writer over the exception result: both [create_dtmf_wav] and the
      ZIP script's [main] with their prints.
    - [Challenge]: the generators' [main] (their messages, output paths
      and instructions), the deployment on one file system (the ZIP
      script, the fixed generator's directory and WAV file, the
      application's start-up directories), and end-to-end facts that
      connect them with the application's secrets and download routes.

    ** What the theorems show (claims C1-C37)

    - Encoding (C1, C16-C18, C22, C28, C29): the fixed generator always
      succeeds below the 32-bit RIFF size and its file decodes to the
      bursts and gaps of the message's digits; every sample of either
      version lies in [[-32767, 32767]]; the exact file size for the
      default durations; the only error paths ([struct.error] past the
      RIFF size; in the numpy version, [ValueError] exactly on the empty
      message when bursts have samples);
      the second numpy normalisation is a no-op (and, as a lemma, every
      numpy burst has peak 1).
    - Transcoding and the table (C3, C24-C27): the digit stream regroups to
      the text for code points in [20, 199] (exactly those), every symbol
      is a table key, the table is injective, a 4x3 grid with 12 keys, the
      same in both versions (and, as a lemma, the transcoding is not
      injective in general).
    - Containers (C8-C10): [struct.pack('<h')] and the [wave] container
      round-trip; the three setters, [writeframes] and [close] of
      [Wave_write], as the generators' [with] block calls them, compute
      the one-step model on every input, errors included.
    - Application (C4, C5, C21, C31, C36, C37): every served file is
      gated; outside [/reset] no request removes a key; in every
      session reachable from the empty one layer 3 implies layer 2, and
      reaching layer 3 needs a correct layer-2 submission with no
      [/reset] after it (proved by induction over the request sequence from
      the one-step characterisation [session_effect]); answers are
      compared after [str.strip()], so a padded secret is accepted; a
      non-string answer is a server error.
    - Abstract specification (C11-C14): every request sequence is a run of
      a three-flag specification (a refinement mapping: [abs] on states,
      [event_of] on requests, stutters for the rest); reachable sessions
      are well formed and determined by their flags; from any session the
      three answers reach the final flag; the spec's one-step machine is
      not what the code implements.
    - Layer 2 (C6, C7, C15, C23, C30): [split_flag] returns [parts]
      chunks that lose and repeat nothing, and their lengths; [main], on a file system where
      its directories are directories or absent and none of its outputs is
      a directory, leaves a master archive that spells [FLAG] and no part
      text file; a file in the way of [os.makedirs] makes it raise;
      [create_small_zip] ignores its password.
    - What the scripts print (C34, C35): the runs with their prints compute
      the pure models; the numpy generator reports a file size without
      the header; the ZIP script announces 4-character parts.
    - End to end (C2, C19, C20, C32, C33): the fixed generator's [main] tells
      the solver an answer that the decoder recovers and the application
      accepts; the numpy generator's message is rejected; what a solver
      extracts from the master ZIP is the layer-2 answer; the layer-1
      secret is not the constant term of the published quadratic; the
      deployment (the ZIP script, the fixed generator and the
      application's start-up, run on one file system) leaves at every
      path a download route serves the artifact it promises.

    ** Bounds and recursion

    Every recursive definition is structural (on the list or on a [nat]
    count of iterations), so every function is total.  The one bounded
    scan, [py_replace_go] ([str.replace]), takes the string's length as
    its bound, which is enough ([py_replace_go_fuel_gen]: any larger
    bound gives the same string).
    The 32-bit RIFF limit ([2^32 - 36] bytes of frames) is the only size
    bound; it is a hypothesis of C1 and the condition of C22.  The range
    lemma of the greedy regrouping is proved by checking the 180 code
    points of [20, 199] by evaluation ([shape_ok], [forallb]).  Witnesses
    run on short messages (one character, 0.01 s bursts) because the full
    default run writes 22 050 bytes per digit.

    ** Modelling choices

    Floating-point numbers are modelled by exact rationals [Q]; [int()] of a
    float is truncation toward zero ([qtrunc]).  For the default durations
    (0.2 s, 0.05 s at 44100 Hz) the float products [0.2*44100] and
    [0.05*44100] are exactly 8820.0 and 2205.0, so the sample counts agree
    with the code.  The sine values are not computed: a type class
    [Oscillator] supplies them with the only law the code relies on
    ([|sin x| <= 1]); every theorem about tones holds for every instance.
    Spectral properties of the tones are not modelled.  Python strings are
    lists of code points ([list N]) in the generators and [String.string]
    (ASCII) in the web application, whose secrets are ASCII.  The [wave]
    module and [struct] are library code, modelled from their documented
    byte layout; the unpacking and parsing side, the solver's decoder and
    the ZIP extraction are modelled from the documented formats.
    [WaveWriter] follows the methods of [wave.Wave_write] on a
    little-endian host; when [close] runs while an exception unwinds the
    [with] block it raises an exception of the same class, so the model
    reports the first one.  Floats
    other than the default durations may round differently from [Q]; numpy
    produces [nan] on a zero peak, modelled as an error value.

    ** Not modelled

    The decimal rendering of printed floats (a printed float is the
    rational it approximates); the size of a compressed ZIP file (a
    parameter); Flask's template rendering (a template is its name), cookie signing
    and request concurrency (a session is one browser's sequence of
    requests); MD5 ([get_hashes] takes the hash function as a parameter);
    ZIP compression and CRCs (an archive is its list of members); the
    spectral content of the tones.  Of the code itself, only lines with
    no effect a theorem could observe are left out: the Flask object and
    its random [secret_key] ([src/app.py] lines 7-8: [secrets.token_hex]
    draws from the operating system and serves only to sign the session
    cookie, which is not modelled), [app.run] (line 147, the server loop),
    the imports and docstrings, and the [if __name__ == '__main__']
    guards of the scripts (their [main] is what the guard calls).  The two
    [os.makedirs] calls of [src/app.py] (lines 145-146) are modelled in
    [Challenge]. *)

From Stdlib Require Import ZArith QArith Qabs Lqa List Lia Morphisms.
From Stdlib Require Strings.String Ascii.
Import ListNotations.

(** ** Python exceptions as values *)

Inductive pyexc : Type :=
  | ValueError          (** e.g. [np.max] of an empty array *)
  | InvalidValue        (** numpy's [0/0]: a nan sample (RuntimeWarning) *)
  | StructError         (** [struct.pack] of an out-of-range integer *)
  | ZeroDivisionError
  | AttributeError      (** a method called on [None] or on a non-string *)
  | WaveError           (** [wave.Error]: a bad channel count, width or rate *)
  | FileNotFoundError
  | FileExistsError     (** [os.mkdir] of a path that exists *)
  | IsADirectoryError   (** [open(p, 'w')] or [os.remove(p)] of a directory *)
  | NotADirectoryError  (** a path whose parent is not a directory *)
  | KeyError.

Inductive pyresult (A : Type) : Type :=
  | Ok (a : A)
  | Raise (e : pyexc).
Arguments Ok {A} a.
Arguments Raise {A} e.

Lemma Ok_inj {A} (a b : A) : Ok a = Ok b -> a = b.
Proof. intros H. injection H. auto. Qed.

Lemma Raise_inj {A} (e e' : pyexc) : @Raise A e = Raise e' -> e = e'.
Proof. intros H. injection H. auto. Qed.

Definition pybind {A B} (m : pyresult A) (k : A -> pyresult B) : pyresult B :=
  match m with
  | Ok a => k a
  | Raise e => Raise e
  end.

Declare Scope py_scope.
Delimit Scope py_scope with py.
Notation "x <- m ;; k" := (pybind m (fun x => k))
  (at level 100, m at next level, right associativity) : py_scope.

Lemma pybind_Ok {A B} (m : pyresult A) (k : A -> pyresult B) b :
  pybind m k = Ok b <-> exists a, m = Ok a /\ k a = Ok b.
Proof.
  destruct m as [a|e]; simpl; split.
  - intros H; exists a; auto.
  - intros [a' [H1 H2]]; congruence.
  - discriminate.
  - intros [a' [H1 _]]; discriminate.
Qed.

(** [sequence]: run a list of fallible computations, first error wins. *)
Fixpoint pysequence {A} (l : list (pyresult A)) : pyresult (list A) :=
  match l with
  | [] => Ok []
  | r :: rs => pybind r (fun a => pybind (pysequence rs) (fun t => Ok (a :: t)))
  end.

Lemma pysequence_map_Ok {A B} (f : A -> pyresult B) (g : A -> B) (l : list A) :
  (forall x, In x l -> f x = Ok (g x)) -> pysequence (map f l) = Ok (map g l).
Proof.
  induction l as [|x l IH]; intros H; simpl; [reflexivity|].
  rewrite H by (left; reflexivity). simpl.
  rewrite IH by (intros; apply H; right; assumption). reflexivity.
Qed.

(** ** Truncation toward zero: Python's [int(x)] on a float *)

Definition qtrunc (q : Q) : Z := Z.quot (Qnum q) (Zpos (Qden q)).

Lemma quot_pos_div a b : (0 < b)%Z ->
  Z.quot a b = if (0 <=? a)%Z then (a / b)%Z else (- ((- a) / b))%Z.
Proof.
  intros Hb. destruct (Z.leb_spec 0 a).
  - apply Z.quot_div_nonneg; lia.
  - rewrite <- (Z.opp_involutive a) at 1. rewrite Z.quot_opp_l by lia.
    rewrite Z.quot_div_nonneg by lia. reflexivity.
Qed.

#[export] Instance qtrunc_proper : Proper (Qeq ==> eq) qtrunc.
Proof.
  intros [a b] [c d] H. unfold Qeq in H; simpl in H. unfold qtrunc; simpl.
  rewrite !quot_pos_div by lia.
  destruct (Z.leb_spec 0 a), (Z.leb_spec 0 c); try nia.
  - rewrite <- (Z.div_mul_cancel_r a (Zpos b) (Zpos d)) by lia.
    rewrite H, (Z.mul_comm c), Z.div_mul_cancel_l by lia. reflexivity.
  - f_equal.
    rewrite <- (Z.div_mul_cancel_r (- a) (Zpos b) (Zpos d)) by lia.
    replace (- a * Zpos d)%Z with (Zpos b * - c)%Z by lia.
    rewrite Z.div_mul_cancel_l by lia. reflexivity.
Qed.

(** Truncation of a rational bounded by an integer [k] stays within [k]. *)
Lemma qtrunc_bound (q : Q) (k : Z) :
  (- inject_Z k <= q <= inject_Z k)%Q -> (- k <= qtrunc q <= k)%Z.
Proof.
  destruct q as [a b]. unfold qtrunc, Qle, inject_Z; simpl. intros [H1 H2].
  rewrite quot_pos_div by lia.
  destruct (Z.leb_spec 0 a).
  - split; [apply Z.le_trans with 0%Z; [nia|apply Z.div_pos; lia]|].
    apply Z.div_le_upper_bound; lia.
  - split; [|apply Z.le_trans with 0%Z; [|nia]]; [|
      rewrite <- Z.opp_0; apply Z.opp_le_mono; rewrite !Z.opp_involutive;
      apply Z.div_pos; lia].
    apply Z.opp_le_mono; rewrite Z.opp_involutive.
    apply Z.div_le_upper_bound; lia.
Qed.

Lemma qtrunc_inject_Z (z : Z) : qtrunc (inject_Z z) = z.
Proof. unfold qtrunc; simpl. apply Z.quot_1_r. Qed.

(** ** Peak absolute value: numpy's [np.max(np.abs(a))] *)

Definition qmax (a b : Q) : Q := if Qle_bool a b then b else a.

Fixpoint max_abs (l : list Q) : Q :=
  match l with
  | [] => 0
  | x :: xs => qmax (Qabs x) (max_abs xs)
  end.

(** [np.max] raises [ValueError] on an empty array. *)
Definition np_max_abs (l : list Q) : pyresult Q :=
  match l with
  | [] => Raise ValueError
  | _ => Ok (max_abs l)
  end.

Lemma qmax_spec a b : (a <= qmax a b /\ b <= qmax a b)%Q /\
  (qmax a b == a \/ qmax a b == b)%Q.
Proof.
  unfold qmax. destruct (Qle_bool a b) eqn:E.
  - apply Qle_bool_iff in E. split; [split; lra| right; lra].
  - assert (~ (a <= b)%Q) by (rewrite <- Qle_bool_iff; congruence).
    split; [split; lra| left; lra].
Qed.

Lemma qmax_l a b : (b < a)%Q -> qmax a b = a.
Proof.
  intros H. unfold qmax. destruct (Qle_bool a b) eqn:E; [|reflexivity].
  apply Qle_bool_iff in E. lra.
Qed.

Lemma qmax_r a b : (a <= b)%Q -> qmax a b = b.
Proof. intros H. unfold qmax. apply Qle_bool_iff in H. rewrite H. reflexivity. Qed.

Ltac qmax_cases a b :=
  destruct (Qlt_le_dec b a);
  [rewrite (qmax_l a b) by assumption | rewrite (qmax_r a b) by assumption].

#[export] Instance qmax_proper : Proper (Qeq ==> Qeq ==> Qeq) qmax.
Proof. intros a a' Ha b b' Hb. qmax_cases a b; qmax_cases a' b'; lra. Qed.

(** Division by a positive constant commutes with the maximum. *)
Lemma qmax_div a b c : (0 < c)%Q -> (qmax (a / c) (b / c) == qmax a b / c)%Q.
Proof.
  intros Hc. pose proof (Qinv_lt_0_compat c Hc). unfold Qdiv.
  qmax_cases a b; qmax_cases (a * / c) (b * / c); try reflexivity.
  - apply Qmult_le_r in q0; lra.
  - apply Qmult_lt_r in q0; lra.
Qed.

Lemma max_abs_nonneg l : (0 <= max_abs l)%Q.
Proof.
  induction l as [|x l IH]; simpl; [lra|].
  destruct (qmax_spec (Qabs x) (max_abs l)) as [[_ H] _]. lra.
Qed.

Lemma max_abs_ge l x : In x l -> (Qabs x <= max_abs l)%Q.
Proof.
  induction l as [|y l IH]; simpl; [tauto|].
  destruct (qmax_spec (Qabs y) (max_abs l)) as [[H1 H2] _].
  intros [<-|Hin]; [assumption|]. specialize (IH Hin). lra.
Qed.

Lemma max_abs_le l c : (0 <= c)%Q -> (forall x, In x l -> Qabs x <= c)%Q ->
  (max_abs l <= c)%Q.
Proof.
  induction l as [|y l IH]; simpl; intros Hc H; [assumption|].
  destruct (qmax_spec (Qabs y) (max_abs l)) as [_ [E|E]]; rewrite E; auto.
Qed.

(** The peak is attained: a nonempty list has an element of peak size. *)
Lemma max_abs_attained l : l <> [] -> exists x, In x l /\ (Qabs x == max_abs l)%Q.
Proof.
  induction l as [|y l IH]; [congruence|]. intros _. simpl.
  destruct (qmax_spec (Qabs y) (max_abs l)) as [_ [E|E]].
  - exists y. split; [left; reflexivity|]. symmetry; exact E.
  - destruct l as [|z l'].
    + exists y. split; [left; reflexivity|]. simpl in *.
      destruct (qmax_spec (Qabs y) 0) as [[H1 _] _]. pose proof (Qabs_nonneg y).
      lra.
    + destruct IH as [x [Hin Hx]]; [discriminate|].
      exists x. split; [right; exact Hin|]. rewrite E. exact Hx.
Qed.

Lemma max_abs_app l1 l2 :
  (max_abs (l1 ++ l2) == qmax (max_abs l1) (max_abs l2))%Q.
Proof.
  apply Qle_antisym.
  - destruct (qmax_spec (max_abs l1) (max_abs l2)) as [[H1 H2] _].
    apply max_abs_le; [pose proof (max_abs_nonneg l1); lra|].
    intros x Hx. apply in_app_or in Hx as [Hx|Hx];
      apply max_abs_ge in Hx; lra.
  - destruct (qmax_spec (max_abs l1) (max_abs l2)) as [_ [E|E]]; rewrite E;
      apply max_abs_le; try apply max_abs_nonneg; intros x Hx;
      apply max_abs_ge; apply in_or_app; auto.
Qed.

(** ** Machine integers *)

Definition int16_min : Z := -32768.
Definition int16_max : Z := 32767.
Definition in_int16 (z : Z) : bool := (int16_min <=? z)%Z && (z <=? int16_max)%Z.

Lemma in_int16_iff z : in_int16 z = true <-> (-32768 <= z <= 32767)%Z.
Proof. unfold in_int16, int16_min, int16_max. rewrite andb_true_iff, !Z.leb_le. tauto. Qed.

(** ** Lists *)

(** Python's [[0] * k]: a negative count gives the empty list. *)
Definition py_repeat {A} (x : A) (k : Z) : list A := repeat x (Z.to_nat k).

Lemma length_flat_map_const {A B} (f : A -> list B) (k : nat) (l : list A) :
  (forall x, In x l -> length (f x) = k) -> length (flat_map f l) = (length l * k)%nat.
Proof.
  induction l as [|x l IH]; simpl; intros H; [reflexivity|].
  rewrite length_app, H, IH by auto. lia.
Qed.

(** Python strings of the application and the ZIP script are
    [String.string]; their characters are [list_ascii_of_string]. *)
Lemma list_ascii_of_string_app s t :
  Stdlib.Strings.String.list_ascii_of_string (Stdlib.Strings.String.append s t) =
  Stdlib.Strings.String.list_ascii_of_string s ++ Stdlib.Strings.String.list_ascii_of_string t.
Proof. induction s as [|c s IH]; [reflexivity|]. simpl. f_equal. exact IH. Qed.

Lemma string_of_list_ascii_app l1 l2 :
  Stdlib.Strings.String.string_of_list_ascii (l1 ++ l2) =
  Stdlib.Strings.String.append (Stdlib.Strings.String.string_of_list_ascii l1)
    (Stdlib.Strings.String.string_of_list_ascii l2).
Proof. induction l1 as [|c l1 IH]; [reflexivity|]. simpl. f_equal. exact IH. Qed.

Create HintDb salaar.
Create Rewrite HintDb salaar_rw.
#[export] Hint Resolve max_abs_nonneg max_abs_ge Qabs_nonneg : salaar.
#[export] Hint Rewrite length_app repeat_length length_map : salaar_rw.

(** [split_andb]: split every boolean conjunction among the hypotheses. *)
Ltac split_andb :=
  repeat match goal with
  | H : andb _ _ = true |- _ => apply andb_prop in H; destruct H
  end.

(** [py_simpl]: unfold the error monad and simplify what it exposes. *)
Ltac py_simpl :=
  repeat match goal with
  | H : pybind ?m _ = Ok _ |- _ =>
      let a := fresh "a" in let Ha := fresh "Ha" in
      apply pybind_Ok in H as [a [Ha H]]
  | H : Ok _ = Ok _ |- _ => apply Ok_inj in H
  | H : Raise _ = Ok _ |- _ => discriminate H
  end.
