(* ===== verification/Dtmf.v ===== *)
(** * The DTMF frequency table

    Both generators declare a dictionary [DTMF_TABLE] from a one-character
    string to a pair (low frequency, high frequency) in Hz:
    [src/create_dtmf_wav_fixed.py] lines 13-18 and [src/create_dtmf_wav.py]
    lines 12-17, with the same entries written in a different order.  The
    table is modelled as an association list in the order of the literal,
    looked up the way [digit in DTMF_TABLE] and [DTMF_TABLE[digit]] do.

    Theorems: the two literals define the same lookup function; the table
    is injective (no two keys share a pair); its image is exactly the 4x3
    grid of the low and high groups; every decimal digit has an entry, and
    the keys outside the twelve have none. *)

From Stdlib Require Import ZArith List Ascii String Lia ListDec.
From S2P Require Import Prelude.
Import ListNotations.
Open Scope Z_scope.

Module Dtmf.

(** A key of the table is a one-character Python string. *)
Definition table := list (ascii * (Z * Z)).

(** [src/create_dtmf_wav_fixed.py], lines 13-18. *)
Definition DTMF_TABLE_fixed : table :=
  [ ("0"%char, (941, 1336)); ("1"%char, (697, 1209)); ("2"%char, (697, 1336));
    ("3"%char, (697, 1477)); ("4"%char, (770, 1209)); ("5"%char, (770, 1336));
    ("6"%char, (770, 1477)); ("7"%char, (852, 1209)); ("8"%char, (852, 1336));
    ("9"%char, (852, 1477)); ("*"%char, (941, 1209)); ("#"%char, (941, 1477)) ].

(** [src/create_dtmf_wav.py], lines 12-17. *)
Definition DTMF_TABLE_np : table :=
  [ ("1"%char, (697, 1209)); ("2"%char, (697, 1336)); ("3"%char, (697, 1477));
    ("4"%char, (770, 1209)); ("5"%char, (770, 1336)); ("6"%char, (770, 1477));
    ("7"%char, (852, 1209)); ("8"%char, (852, 1336)); ("9"%char, (852, 1477));
    ("*"%char, (941, 1209)); ("0"%char, (941, 1336)); ("#"%char, (941, 1477)) ].

(** Dictionary lookup: [DTMF_TABLE[digit]] when [digit in DTMF_TABLE],
    [None] otherwise. *)
Fixpoint lookup (t : table) (k : ascii) : option (Z * Z) :=
  match t with
  | [] => None
  | (k', v) :: t' => if Ascii.eqb k k' then Some v else lookup t' k
  end.

(** The frequency groups of the telephone keypad. *)
Definition low_group : list Z := [697; 770; 852; 941].
Definition high_group : list Z := [1209; 1336; 1477].

Definition is_decimal_digit (c : ascii) : bool :=
  let n := nat_of_ascii c in (48 <=? n)%nat && (n <=? 57)%nat.

(** ** Generic lemmas on association tables *)

Lemma lookup_In (t : table) k v : lookup t k = Some v -> In (k, v) t.
Proof.
  induction t as [|[k' v'] t IH]; simpl; [discriminate|].
  destruct (Ascii.eqb_spec k k') as [->|]; intros H; [injection H as <-; left; reflexivity|].
  right; auto.
Qed.

Lemma snd_NoDup_unique {A B} (t : list (A * B)) a1 a2 b :
  NoDup (map snd t) -> In (a1, b) t -> In (a2, b) t -> a1 = a2.
Proof.
  induction t as [|[a b'] t IH]; simpl; [tauto|].
  intros Hnd H1 H2. inversion Hnd as [|? ? Hnotin Hnd']; subst.
  destruct H1 as [E1|H1], H2 as [E2|H2].
  - congruence.
  - injection E1 as -> ->. exfalso. apply Hnotin.
    apply (in_map snd) in H2. exact H2.
  - injection E2 as -> ->. exfalso. apply Hnotin.
    apply (in_map snd) in H1. exact H1.
  - auto.
Qed.

Lemma lookup_injective (t : table) k1 k2 v :
  NoDup (map snd t) -> lookup t k1 = Some v -> lookup t k2 = Some v -> k1 = k2.
Proof.
  intros Hnd H1 H2. apply lookup_In in H1, H2.
  exact (snd_NoDup_unique t k1 k2 v Hnd H1 H2).
Qed.

Lemma pair_Z_eq_dec : forall x y : Z * Z, {x = y} + {x <> y}.
Proof. decide equality; apply Z.eq_dec. Defined.

(** Case analysis on a character: its eight bits. *)
Ltac destruct_ascii c := destruct c as [[] [] [] [] [] [] [] []].

(** ** The table *)

Lemma DTMF_TABLE_lookup_same (c : ascii) :
  lookup DTMF_TABLE_fixed c = lookup DTMF_TABLE_np c.
Proof. destruct_ascii c; reflexivity. Qed.

Lemma lookup_decimal_digit (d : ascii) :
  is_decimal_digit d = true -> lookup DTMF_TABLE_fixed d <> None.
Proof. destruct_ascii d; vm_compute; congruence. Qed.

(** C26: the two generators' literals, written in different orders, define
    the same lookup function: both versions map every symbol to the same
    frequency pair, and the same symbols to none. *)
Theorem DTMF_TABLE_versions_agree (c : ascii) :
  lookup DTMF_TABLE_fixed c = lookup DTMF_TABLE_np c.
Proof. apply DTMF_TABLE_lookup_same. Qed.

(** C24: the table is injective: two symbols with the same frequency pair
    are the same symbol, so a decoder can invert it. *)
Theorem DTMF_TABLE_injective (k1 k2 : ascii) (f : Z * Z) :
  lookup DTMF_TABLE_fixed k1 = Some f -> lookup DTMF_TABLE_fixed k2 = Some f -> k1 = k2.
Proof.
  apply lookup_injective.
  destruct (NoDup_dec pair_Z_eq_dec (map snd DTMF_TABLE_fixed)) as [H|H];
    [exact H|vm_compute in H; exfalso; apply H; repeat constructor; simpl; intuition discriminate].
Qed.

Lemma DTMF_TABLE_injective_witness :
  lookup DTMF_TABLE_fixed "7"%char = Some (852, 1209) /\ "7"%char = "7"%char.
Proof.
  split; [reflexivity|].
  apply (DTMF_TABLE_injective "7"%char "7"%char (852, 1209)); reflexivity.
Defined.

(** the image of the table is exactly the 4x3 grid of the low and
    high groups: every pair of the table is a grid point, and every grid
    point is the pair of some symbol. *)
Theorem DTMF_TABLE_grid (lo hi : Z) :
  (exists k, lookup DTMF_TABLE_fixed k = Some (lo, hi)) <->
  In lo low_group /\ In hi high_group.
Proof.
  split.
  - intros [k Hk]. apply lookup_In in Hk. simpl in Hk.
    repeat (destruct Hk as [Hk|Hk]; [injection Hk as <- <- <-; simpl; tauto|]).
    destruct Hk.
  - simpl. intros [Hlo Hhi].
    repeat (destruct Hlo as [<-|Hlo]); [..|destruct Hlo];
    repeat (destruct Hhi as [<-|Hhi]); try destruct Hhi;
    first [ exists "1"%char; reflexivity | exists "2"%char; reflexivity
          | exists "3"%char; reflexivity | exists "4"%char; reflexivity
          | exists "5"%char; reflexivity | exists "6"%char; reflexivity
          | exists "7"%char; reflexivity | exists "8"%char; reflexivity
          | exists "9"%char; reflexivity | exists "*"%char; reflexivity
          | exists "0"%char; reflexivity | exists "#"%char; reflexivity ].
Qed.

(** C25: the symbols with an entry are exactly the ten decimal digits,
    [*] and [#]: twelve symbols, not the sixteen of the spec (the keypad's
    fourth column, A to D, is absent). *)
Theorem DTMF_TABLE_domain (c : ascii) :
  lookup DTMF_TABLE_fixed c <> None <->
  is_decimal_digit c = true \/ c = "*"%char \/ c = "#"%char.
Proof.
  destruct_ascii c; vm_compute; intuition (discriminate || congruence).
Qed.

End Dtmf.
