(* ===== verification/AsciiDigits.v ===== *)
(** * Transcoding a message into DTMF symbols

    [text_to_ascii_digits] ([src/create_dtmf_wav_fixed.py] lines 39-41) and
    its copy [text_to_ascii_digits_np] ([src/create_dtmf_wav.py] lines
    36-38, the same body, called by the numpy generator) join the
    decimal representations [str(ord(c))] of the characters of the text.
    A Python string is modelled as the list of its code points ([pystr]);
    [str] of a non-negative integer is the Standard Library's decimal
    printer ([DecimalString]), which writes no leading zero.

    The solver's side is [greedy_regroup]: a digit ['1'] starts a
    three-digit code point, any other digit a two-digit one.  Theorems:
    every symbol produced is a key of the DTMF table (so no burst is
    silent); the greedy regrouping inverts the transcoding exactly on texts
    whose code points lie in [20, 199] (printable ASCII included); the
    transcoding is not injective in general. *)

From Stdlib Require Import Wf_nat Bool NArith List Ascii String DecimalString DecimalN Lia.
From S2P Require Import Prelude Dtmf.
Import ListNotations.
Open Scope bool_scope.

Module AsciiDigits.

(** A Python [str]: the sequence of its code points. *)
Definition pystr := list N.

(** [str(n)] for a non-negative integer [n], as a sequence of characters. *)
Definition str_of_N (n : N) : list ascii :=
  list_ascii_of_string (NilEmpty.string_of_uint (N.to_uint n)).

(** [''.join(str(ord(c)) for c in text)]; [ord] is the code point. *)
Definition text_to_ascii_digits (text : pystr) : list ascii :=
  flat_map str_of_N text.

(** The numpy generator's own copy, with the same body; the numpy
    encoder calls this one. *)
Definition text_to_ascii_digits_np (text : pystr) : list ascii :=
  flat_map str_of_N text.

(** ** The solver's decoder *)

Definition digit_val (c : ascii) : option N :=
  let n := N_of_ascii c in
  if (48 <=? n)%N && (n <=? 57)%N then Some (n - 48)%N else None.

(** The code point written by two digits, and by ['1'] and two digits. *)
Definition code2 (v1 v2 : N) : N := (10 * v1 + v2)%N.
Definition code3 (v2 v3 : N) : N := (100 + 10 * v2 + v3)%N.
Arguments code2 : simpl never.
Arguments code3 : simpl never.

(** Greedy regrouping of a digit stream into code points. *)
Fixpoint greedy_regroup (ds : list ascii) : option pystr :=
  match ds with
  | [] => Some []
  | d1 :: tl =>
    if Ascii.eqb d1 "1"%char then
      match tl with
      | d2 :: d3 :: rest =>
          match digit_val d2, digit_val d3, greedy_regroup rest with
          | Some v2, Some v3, Some cs => Some (code3 v2 v3 :: cs)
          | _, _, _ => None
          end
      | _ => None
      end
    else
      match tl with
      | d2 :: rest =>
          match digit_val d1, digit_val d2, greedy_regroup rest with
          | Some v1, Some v2, Some cs => Some (code2 v1 v2 :: cs)
          | _, _, _ => None
          end
      | _ => None
      end
  end.

(** The code points whose decimal form the greedy rule delimits. *)
Definition greedy_range (c : N) : Prop := (20 <= c <= 199)%N.

(** ** Lemmas *)

Lemma string_of_uint_digits (u : Decimal.uint) :
  Forall (fun d => Dtmf.is_decimal_digit d = true)
         (list_ascii_of_string (NilEmpty.string_of_uint u)).
Proof. induction u; simpl; constructor; auto. Qed.

Lemma str_of_N_digits (n : N) :
  Forall (fun d => Dtmf.is_decimal_digit d = true) (str_of_N n).
Proof. apply string_of_uint_digits. Qed.

(** [str(n)] has at least one digit. *)
Lemma str_of_N_nonempty (n : N) : str_of_N n <> [].
Proof.
  unfold str_of_N. destruct (N.to_uint n) eqn:E; cbn; try discriminate.
  assert (Hn : n = 0%N) by (rewrite <- (DecimalN.Unsigned.of_to n), E; reflexivity).
  subst n. discriminate E.
Qed.

(** The shape the greedy rule expects, as a boolean check. *)
Definition shape_ok (c : N) : bool :=
  match str_of_N c with
  | [d1; d2] =>
      negb (Ascii.eqb d1 "1"%char) &&
      match digit_val d1, digit_val d2 with
      | Some v1, Some v2 => N.eqb (code2 v1 v2) c
      | _, _ => false
      end
  | [d1; d2; d3] =>
      Ascii.eqb d1 "1"%char &&
      match digit_val d2, digit_val d3 with
      | Some v2, Some v3 => N.eqb (code3 v2 v3) c
      | _, _ => false
      end
  | _ => false
  end.

Lemma shape_ok_range (c : N) : greedy_range c -> shape_ok c = true.
Proof.
  unfold greedy_range. intros H.
  assert (Hall : forallb shape_ok (map N.of_nat (seq 20 180)) = true)
    by (vm_compute; reflexivity).
  rewrite forallb_forall in Hall. apply Hall.
  rewrite <- (N2Nat.id c). apply in_map, in_seq. lia.
Qed.

Lemma greedy_regroup_step (c : N) (rest : list ascii) :
  shape_ok c = true ->
  greedy_regroup (str_of_N c ++ rest) = option_map (cons c) (greedy_regroup rest).
Proof.
  unfold shape_ok. destruct (str_of_N c) as [|d1 [|d2 [|d3 [|d4 ds]]]];
    try discriminate; simpl; rewrite andb_true_iff; intros [Hd1 Hv].
  - rewrite negb_true_iff in Hd1. rewrite Hd1.
    destruct (digit_val d1), (digit_val d2); try discriminate.
    apply N.eqb_eq in Hv. subst c. destruct (greedy_regroup rest); reflexivity.
  - rewrite Hd1.
    destruct (digit_val d2), (digit_val d3); try discriminate.
    apply N.eqb_eq in Hv. subst c. destruct (greedy_regroup rest); reflexivity.
Qed.

Lemma digit_val_bound (d : ascii) v : digit_val d = Some v -> (v <= 9)%N.
Proof.
  unfold digit_val. destruct ((48 <=? N_of_ascii d)%N && (N_of_ascii d <=? 57)%N) eqn:E;
    [|discriminate]. apply andb_true_iff in E as [_ E]. apply N.leb_le in E.
  intros H; injection H as <-. lia.
Qed.

(** Every code point the greedy rule produces is below 200. *)
Lemma greedy_regroup_lt200 (ds : list ascii) (cs : pystr) :
  greedy_regroup ds = Some cs -> Forall (fun c => (c < 200)%N) cs.
Proof.
  remember (List.length ds) as n eqn:Hn. revert ds cs Hn.
  induction n as [n IH] using (well_founded_induction Wf_nat.lt_wf).
  intros [|d1 tl] cs Hn; cbn [greedy_regroup];
    [intros H; injection H as <-; constructor|].
  destruct (Ascii.eqb d1 "1"%char);
    [destruct tl as [|d2 [|d3 rest]] | destruct tl as [|d2 rest]]; try discriminate.
  - destruct (digit_val d2) eqn:E2, (digit_val d3) eqn:E3,
      (greedy_regroup rest) eqn:Er; try discriminate.
    intros H; injection H as <-. apply digit_val_bound in E2, E3.
    constructor; [cbv beta; unfold code3; lia|].
    apply (IH (List.length rest)) in Er; auto. simpl in Hn. lia.
  - destruct (digit_val d1) eqn:E1, (digit_val d2) eqn:E2,
      (greedy_regroup rest) eqn:Er; try discriminate.
    intros H; injection H as <-. apply digit_val_bound in E1, E2.
    constructor; [cbv beta; unfold code2; lia|].
    apply (IH (List.length rest)) in Er; auto. simpl in Hn. lia.
Qed.

(** ** Theorems *)

(** C27: every symbol of the transcoded message is a decimal digit and so
    a key of [DTMF_TABLE]: [generate_dtmf_tone] never takes its
    silent branch on a transcoded message. *)
Theorem text_to_ascii_digits_in_table (text : pystr) (d : ascii) :
  In d (text_to_ascii_digits text) -> Dtmf.lookup Dtmf.DTMF_TABLE_fixed d <> None.
Proof.
  unfold text_to_ascii_digits. rewrite in_flat_map. intros [c [_ Hd]].
  apply Dtmf.lookup_decimal_digit.
  exact (proj1 (Forall_forall _ _) (str_of_N_digits c) d Hd).
Qed.

(** The code points of the layer-3 message [CTF{CRYPTOGRAPHY}]. *)
Definition CTF_CRYPTOGRAPHY : pystr :=
  [67; 84; 70; 123; 67; 82; 89; 80; 84; 79; 71; 82; 65; 80; 72; 89; 125]%N.

Lemma text_to_ascii_digits_in_table_witness :
  In "7"%char (text_to_ascii_digits CTF_CRYPTOGRAPHY) /\
  Dtmf.lookup Dtmf.DTMF_TABLE_fixed "7"%char <> None.
Proof.
  split; [vm_compute; tauto|].
  apply (text_to_ascii_digits_in_table CTF_CRYPTOGRAPHY). vm_compute; tauto.
Defined.

(** C3: round trip: on a text whose code points all lie in [20, 199]
    (printable ASCII among them), the solver's greedy regrouping of the
    digit stream gives back the text. *)
Theorem greedy_regroup_text_to_ascii_digits (text : pystr) :
  Forall greedy_range text -> greedy_regroup (text_to_ascii_digits text) = Some text.
Proof.
  induction text as [|c text IH]; intros H; [reflexivity|].
  inversion H as [|? ? Hc Ht]; subst. unfold text_to_ascii_digits; simpl.
  rewrite greedy_regroup_step by (apply shape_ok_range; exact Hc).
  fold (text_to_ascii_digits text). rewrite IH by exact Ht. reflexivity.
Qed.

Lemma greedy_regroup_text_to_ascii_digits_witness :
  Forall greedy_range CTF_CRYPTOGRAPHY /\
  greedy_regroup (text_to_ascii_digits CTF_CRYPTOGRAPHY) = Some CTF_CRYPTOGRAPHY.
Proof.
  assert (H : Forall greedy_range CTF_CRYPTOGRAPHY)
    by (repeat constructor; unfold greedy_range; lia).
  split; [exact H|]. apply greedy_regroup_text_to_ascii_digits. exact H.
Defined.

(** the range is exact: a single code point survives the round trip
    if and only if it lies in [20, 199]. *)
Theorem greedy_regroup_single_iff (c : N) :
  greedy_regroup (str_of_N c) = Some [c] <-> greedy_range c.
Proof.
  split.
  - intros H. unfold greedy_range.
    destruct (N.lt_ge_cases c 20) as [Hlt|Hge].
    + exfalso. assert (Hall : forallb (fun c => match greedy_regroup (str_of_N c) with
                                                 | None => true | Some _ => false end)
                                      (map N.of_nat (seq 0 20)) = true)
        by (vm_compute; reflexivity).
      rewrite forallb_forall in Hall.
      specialize (Hall c). rewrite H in Hall. discriminate Hall.
      rewrite <- (N2Nat.id c). apply in_map, in_seq. lia.
    + apply greedy_regroup_lt200 in H. inversion H. lia.
  - intros Hc. rewrite <- (app_nil_r (str_of_N c)).
    rewrite greedy_regroup_step by (apply shape_ok_range; exact Hc). reflexivity.
Qed.

(** the transcoding is not injective: two different texts can give
    the same digit stream (code points 1, 23 and 12, 3 both give "123"),
    so the message is recoverable only under a range assumption. *)
Theorem text_to_ascii_digits_not_injective :
  ~ (forall a b : pystr, text_to_ascii_digits a = text_to_ascii_digits b -> a = b).
Proof.
  intros Hinj. specialize (Hinj [1; 23]%N [12; 3]%N).
  discriminate (Hinj ltac:(vm_compute; reflexivity)).
Qed.

End AsciiDigits.
