(* ===== verification/Tone.v ===== *)
(** * Synthesis of one DTMF burst

    [generate_dtmf_tone] exists in two versions:
    - [src/create_dtmf_wav_fixed.py] lines 20-37: for a key of the table,
      sample [i] (for [i] in [range(int(sample_rate * duration))]) is
      [int(((sin(2 pi f_lo t) + sin(2 pi f_hi t)) / 2.0) * 32767)] with
      [t = i / sample_rate]; for any other symbol, [[0] * int(duration *
      sample_rate)].
    - [src/create_dtmf_wav.py] lines 19-34: the instants are
      [np.linspace(0, duration, n, False)], the burst is the sum of the two
      sines divided by its peak absolute value; any other symbol gives
      [np.zeros(n)].

    The sine values at the sample instants come from the type class
    [Oscillator]: [osc f t] stands for [sin(2 pi f t)], with the law
    [-1 <= osc f t <= 1].  [triangle] is an instance used by the
    witnesses.  Theorems: the length of a burst, the 16-bit bound of the
    fixed version's samples, the exact unit peak of the numpy version, and
    its [ValueError] on an empty burst. *)

From Stdlib Require Import ZArith QArith Qabs Qround Lqa List Ascii Lia.
From S2P Require Import Prelude Dtmf.
Import ListNotations.
Open Scope Q_scope.

(** The sine primitive at the sample instants. *)
Class Oscillator := {
  osc : Z -> Q -> Q;
  osc_bound : forall f t, (-1 <= osc f t <= 1)%Q
}.

(** A triangle wave of frequency [f]: a rational oscillator with the same
    period and range as the sine, used to evaluate bursts on concrete
    inputs. *)
Definition triangle_wave (f : Z) (t : Q) : Q :=
  let x := inject_Z f * t in
  let p := x - inject_Z (Qfloor x) in
  if Qlt_le_dec p (1 # 4) then 4 * p
  else if Qlt_le_dec p (3 # 4) then 2 - 4 * p
  else 4 * p - 4.

Lemma triangle_wave_bound f t : (-1 <= triangle_wave f t <= 1)%Q.
Proof.
  unfold triangle_wave; cbv zeta.
  set (x := inject_Z f * t).
  pose proof (Qfloor_le x) as H1. pose proof (Qlt_floor x) as H2.
  rewrite inject_Z_plus in H2. change (inject_Z 1) with 1 in H2.
  destruct (Qlt_le_dec _ (1 # 4)); [|destruct (Qlt_le_dec _ (3 # 4))]; lra.
Qed.

#[export] Instance triangle : Oscillator :=
  {| osc := triangle_wave; osc_bound := triangle_wave_bound |}.

Module Tone.

(** [range(n)] as integers; empty when [n <= 0]. *)
Definition range (n : Z) : list Z := map Z.of_nat (seq 0 (Z.to_nat n)).

Lemma length_range n : length (range n) = Z.to_nat n.
Proof. unfold range. rewrite length_map, length_seq. reflexivity. Qed.

Section WithOscillator.
Context `{Oscillator}.

(** ** The fixed version *)

(** One quantised sample: [int((sample / 2.0) * 32767)]. *)
Definition fixed_sample (lo hi : Z) (t : Q) : Z :=
  qtrunc (((osc lo t + osc hi t) / 2) * 32767).

(** [src/create_dtmf_wav_fixed.py], lines 20-37. *)
Definition generate_dtmf_tone_fixed (digit : ascii) (duration : Q) (sample_rate : Z)
    : list Z :=
  match Dtmf.lookup Dtmf.DTMF_TABLE_fixed digit with
  | None => py_repeat 0%Z (qtrunc (duration * inject_Z sample_rate))
  | Some (low_freq, high_freq) =>
      map (fun i => fixed_sample low_freq high_freq (inject_Z i / inject_Z sample_rate))
          (range (qtrunc (inject_Z sample_rate * duration)))
  end.

Lemma fixed_sample_bound lo hi t : (-32767 <= fixed_sample lo hi t <= 32767)%Z.
Proof.
  unfold fixed_sample. apply (qtrunc_bound _ 32767).
  pose proof (osc_bound lo t). pose proof (osc_bound hi t).
  setoid_replace ((osc lo t + osc hi t) / 2 * 32767)
    with ((osc lo t + osc hi t) * (32767 # 2)) by field.
  unfold inject_Z. split; lra.
Qed.

(** ** The numpy version *)

(** [np.linspace(0, duration, n, False)]: [n] instants [i * (duration/n)]. *)
Definition linspace_open (duration : Q) (n : Z) : list Q :=
  map (fun i => inject_Z i * (duration / inject_Z n)) (range n).

(** [tone / np.max(np.abs(tone))]; numpy raises on an empty array and
    produces nan samples when the peak is 0. *)
Definition np_normalize (a : list Q) : pyresult (list Q) :=
  pybind (np_max_abs a) (fun m =>
  if Qeq_bool m 0 then Raise InvalidValue else Ok (map (fun x => x / m) a)).

(** [src/create_dtmf_wav.py], lines 19-34.  [np.zeros] and [np.linspace]
    raise [ValueError] on a negative count. *)
Definition generate_dtmf_tone_np (digit : ascii) (duration : Q) (sample_rate : Z)
    : pyresult (list Q) :=
  let n := qtrunc (inject_Z sample_rate * duration) in
  if (n <? 0)%Z then Raise ValueError else
  match Dtmf.lookup Dtmf.DTMF_TABLE_np digit with
  | None => Ok (repeat 0%Q (Z.to_nat n))
  | Some (low_freq, high_freq) =>
      np_normalize (map (fun t => osc low_freq t + osc high_freq t)
                        (linspace_open duration n))
  end.

(** ** Lemmas on normalisation *)

Lemma max_abs_scale (l : list Q) (c : Q) : (0 < c)%Q ->
  (max_abs (map (fun x => x / c) l) == max_abs l / c)%Q.
Proof.
  intros Hc. induction l as [|x l IH]; simpl; [field; lra|].
  assert (Hac : (Qabs (x / c) == Qabs x / c)%Q).
  { unfold Qdiv. rewrite Qabs_Qmult, Qabs_Qinv, (Qabs_pos c) by lra. reflexivity. }
  rewrite Hac, IH. apply qmax_div. exact Hc.
Qed.

(** Dividing by its own positive peak gives a list of peak exactly 1. *)
Lemma max_abs_normalized (a : list Q) :
  (0 < max_abs a)%Q -> (max_abs (map (fun x => x / max_abs a) a) == 1)%Q.
Proof. intros Hm. rewrite max_abs_scale by exact Hm. field. lra. Qed.

Lemma np_normalize_Ok (a : list Q) b :
  np_normalize a = Ok b ->
  a <> [] /\ ~ (max_abs a == 0)%Q /\ b = map (fun x => x / max_abs a) a.
Proof.
  unfold np_normalize, np_max_abs. destruct a as [|x a']; [discriminate|].
  unfold pybind. destruct (Qeq_bool (max_abs (x :: a')) 0) eqn:E; [discriminate|].
  intros Hb; injection Hb as <-. split; [discriminate|]. split; [|reflexivity].
  intros Heq. apply Qeq_bool_iff in Heq. congruence.
Qed.

(** ** Theorems *)

(** The length of a burst of the fixed version: [int(duration *
    sample_rate)] samples (none when that is negative), on the key branch
    and on the silent branch alike. *)
Lemma length_generate_dtmf_tone_fixed (digit : ascii) (duration : Q) (sample_rate : Z) :
  length (generate_dtmf_tone_fixed digit duration sample_rate) =
  Z.to_nat (qtrunc (duration * inject_Z sample_rate)).
Proof.
  unfold generate_dtmf_tone_fixed, py_repeat.
  destruct (Dtmf.lookup _ digit) as [[lo hi]|].
  - rewrite length_map, length_range, Qmult_comm. reflexivity.
  - apply repeat_length.
Qed.

Lemma generate_dtmf_tone_fixed_in_int16 (digit : ascii) (duration : Q) (sample_rate : Z) :
  Forall (fun s => in_int16 s = true) (generate_dtmf_tone_fixed digit duration sample_rate).
Proof.
  unfold generate_dtmf_tone_fixed, py_repeat.
  destruct (Dtmf.lookup _ digit) as [[lo hi]|].
  - apply Forall_map, Forall_forall. intros i _. apply in_int16_iff.
    pose proof (fixed_sample_bound lo hi (inject_Z i / inject_Z sample_rate)). lia.
  - apply Forall_forall. intros x Hx. apply repeat_spec in Hx. subst. reflexivity.
Qed.

(** A successful normalisation yields peak exactly 1 and samples in [[-1, 1]]. *)
Lemma np_normalize_peak (a b : list Q) :
  np_normalize a = Ok b -> (max_abs b == 1)%Q /\ Forall (fun x => -1 <= x <= 1)%Q b.
Proof.
  intros Hn. apply np_normalize_Ok in Hn as [Hne [Hz ->]].
  assert (Hpos : (0 < max_abs a)%Q) by (pose proof (max_abs_nonneg a); lra).
  pose proof (max_abs_normalized _ Hpos) as Hpeak.
  split; [exact Hpeak|]. apply Forall_forall. intros x Hx.
  apply max_abs_ge in Hx. rewrite Hpeak in Hx. apply Qabs_Qle_condition in Hx. exact Hx.
Qed.

(** C16: every sample of a burst of the fixed version lies in
    [[-32767, 32767]], inside the signed 16-bit range that
    [struct.pack('<h')] accepts. *)
Theorem generate_dtmf_tone_fixed_bounded (digit : ascii) (duration : Q) (sample_rate : Z) :
  Forall (fun s => (-32767 <= s <= 32767)%Z)
         (generate_dtmf_tone_fixed digit duration sample_rate).
Proof.
  unfold generate_dtmf_tone_fixed, py_repeat.
  destruct (Dtmf.lookup _ digit) as [[lo hi]|].
  - apply Forall_map, Forall_forall. intros i _. apply fixed_sample_bound.
  - apply Forall_forall. intros x Hx. apply repeat_spec in Hx. lia.
Qed.

(** A burst of the numpy version, when it is produced, has peak
    absolute value exactly 1 and all its samples in [[-1, 1]]. *)
Theorem generate_dtmf_tone_np_peak (digit : ascii) (duration : Q) (sample_rate : Z)
    (tone : list Q) :
  Dtmf.lookup Dtmf.DTMF_TABLE_np digit <> None ->
  generate_dtmf_tone_np digit duration sample_rate = Ok tone ->
  (max_abs tone == 1)%Q /\ Forall (fun x => -1 <= x <= 1)%Q tone.
Proof.
  unfold generate_dtmf_tone_np. destruct (_ <? 0)%Z; [discriminate|].
  destruct (Dtmf.lookup _ digit) as [[lo hi]|]; [intros _|congruence].
  apply np_normalize_peak.
Qed.

(** The numpy version raises [ValueError] on a burst of zero
    samples ([np.max] of an empty array), where the fixed version returns
    an empty burst. *)
Theorem generate_dtmf_tone_np_empty (digit : ascii) (duration : Q) (sample_rate : Z) :
  Dtmf.lookup Dtmf.DTMF_TABLE_np digit <> None ->
  qtrunc (inject_Z sample_rate * duration) = 0%Z ->
  generate_dtmf_tone_np digit duration sample_rate = Raise ValueError /\
  generate_dtmf_tone_fixed digit duration sample_rate = [].
Proof.
  intros Hd Hn. unfold generate_dtmf_tone_np, generate_dtmf_tone_fixed.
  rewrite Hn. simpl Z.ltb. cbv zeta.
  rewrite <- Dtmf.DTMF_TABLE_lookup_same in *.
  destruct (Dtmf.lookup Dtmf.DTMF_TABLE_fixed digit) as [[lo hi]|]; [|congruence].
  split; reflexivity.
Qed.

End WithOscillator.

Lemma generate_dtmf_tone_np_peak_witness :
  exists tone, Dtmf.lookup Dtmf.DTMF_TABLE_np "1"%char <> None /\
    generate_dtmf_tone_np "1"%char (1 # 10) 100 = Ok tone /\
    (max_abs tone == 1)%Q /\ Forall (fun x => -1 <= x <= 1)%Q tone.
Proof.
  eexists. split; [vm_compute; congruence|]. split; [vm_compute; reflexivity|].
  apply (generate_dtmf_tone_np_peak "1"%char (1 # 10) 100);
    [vm_compute; congruence|vm_compute; reflexivity].
Defined.

Lemma generate_dtmf_tone_np_empty_witness :
  generate_dtmf_tone_np "5"%char 0 44100 = Raise ValueError /\
  generate_dtmf_tone_fixed "5"%char 0 44100 = [].
Proof. apply generate_dtmf_tone_np_empty; [vm_compute; congruence|reflexivity]. Defined.

End Tone.
