(* ===== verification/Pcm.v ===== *)
(** * 16-bit PCM samples and the WAV container

    Module [Struct] models [struct.pack('<' + 'h' * n, *samples)]
    ([src/create_dtmf_wav_fixed.py] line 76): every sample becomes two
    bytes, little-endian two's complement, and an integer outside the
    signed 16-bit range raises [struct.error].  numpy's
    [astype(np.int16).tobytes()] ([src/create_dtmf_wav.py] lines 69, 76)
    lays the bytes out the same way on a little-endian machine.

    Module [Wave] models what the standard library's [wave] module writes
    for [setnchannels], [setsampwidth], [setframerate] and one
    [writeframes] call (both generators, lines 70-77 and 72-76): a 44-byte
    RIFF header, then the frames.  [wave] is library code, modelled from
    its documented layout: fields packed with [struct.pack('<L4s4sLHHLLHH4s')]
    and [struct.pack('<L')], which raise [struct.error] when the RIFF size
    does not fit 32 bits.  [WaveWriter] models the method calls one by
    one and proves that they compute [write].

    A byte is an integer of [[0, 255]].  Theorems: byte ranges, the
    round trips pack/unpack and write/parse, the header's size and fields. *)

From Stdlib Require Import Bool ZArith List Ascii String Lia.
From S2P Require Import Prelude.
Import ListNotations.
Open Scope Z_scope.
Open Scope bool_scope.

Module Struct.

(** The [n] low bytes of [z], least significant first. *)
Fixpoint le_bytes (n : nat) (z : Z) : list Z :=
  match n with
  | O => []
  | S n' => Z.land z 255 :: le_bytes n' (Z.shiftr z 8)
  end.

(** The unsigned value of a little-endian byte string. *)
Fixpoint le_value (l : list Z) : Z :=
  match l with
  | [] => 0
  | b :: t => b + 256 * le_value t
  end.

(** [struct.pack('<h', s)]. *)
Definition pack_h (s : Z) : pyresult (list Z) :=
  if in_int16 s then Ok (le_bytes 2 s) else Raise StructError.

(** [struct.pack('<' + 'h' * len(samples), *samples)]. *)
Definition pack_samples (samples : list Z) : pyresult (list Z) :=
  pybind (pysequence (map pack_h samples)) (fun chunks => Ok (List.concat chunks)).

(** The signed value of a 16-bit pattern. *)
Definition signed16 (u : Z) : Z := if u <? 32768 then u else u - 65536.

(** The sample that two little-endian bytes encode. *)
Definition sample_of_bytes (b0 b1 : Z) : Z := signed16 (b0 + 256 * b1).
Arguments sample_of_bytes : simpl never.

(** [struct.unpack('<' + 'h' * (len(b) // 2), b)]: the reader's side. *)
Fixpoint unpack_samples (b : list Z) : option (list Z) :=
  match b with
  | [] => Some []
  | b0 :: b1 :: t =>
      match unpack_samples t with
      | Some ss => Some (sample_of_bytes b0 b1 :: ss)
      | None => None
      end
  | _ => None
  end.

Definition is_byte (b : Z) : Prop := 0 <= b < 256.

(** ** Lemmas *)

Lemma land_255 z : Z.land z 255 = z mod 256.
Proof. change 255 with (Z.ones 8). rewrite Z.land_ones by lia. reflexivity. Qed.

Lemma shiftr_8 z : Z.shiftr z 8 = z / 256.
Proof. rewrite Z.shiftr_div_pow2 by lia. reflexivity. Qed.

Lemma le_bytes_length n z : List.length (le_bytes n z) = n.
Proof. revert z; induction n; simpl; auto. Qed.

Lemma le_bytes_bytes n z : Forall is_byte (le_bytes n z).
Proof.
  revert z; induction n as [|n IH]; intros z; simpl; constructor; auto.
  unfold is_byte. rewrite land_255. apply Z.mod_pos_bound. lia.
Qed.

Lemma le_value_le_bytes n z : le_value (le_bytes n z) = z mod 2 ^ (8 * Z.of_nat n).
Proof.
  revert z; induction n as [|n IH]; intros z; simpl le_bytes; simpl le_value.
  - rewrite Z.mod_1_r. reflexivity.
  - rewrite IH, land_255, shiftr_8.
    replace (8 * Z.of_nat (S n)) with (8 + 8 * Z.of_nat n) by lia.
    rewrite Z.pow_add_r by lia. change (2 ^ 8) with 256.
    rewrite Z.rem_mul_r by (try apply Z.pow_pos_nonneg; lia). reflexivity.
Qed.

Lemma unpack_pack_h s : in_int16 s = true -> signed16 (le_value (le_bytes 2 s)) = s.
Proof.
  rewrite in_int16_iff. intros Hs. rewrite le_value_le_bytes. simpl Z.of_nat.
  change (2 ^ (8 * 2)) with 65536. unfold signed16.
  pose proof (Z.mod_pos_bound s 65536). pose proof (Z.div_mod s 65536).
  destruct (Z.ltb_spec (s mod 65536) 32768); lia.
Qed.

Lemma pack_samples_Ok (samples : list Z) :
  Forall (fun s => in_int16 s = true) samples ->
  pack_samples samples = Ok (flat_map (le_bytes 2) samples).
Proof.
  intros H. unfold pack_samples.
  rewrite (pysequence_map_Ok pack_h (le_bytes 2)).
  - simpl. rewrite flat_map_concat_map. reflexivity.
  - intros s Hs. unfold pack_h. rewrite (proj1 (Forall_forall _ _) H s Hs). reflexivity.
Qed.

Lemma pack_samples_cons x xs :
  pack_samples (x :: xs) =
  pybind (pack_h x) (fun a => pybind (pack_samples xs) (fun t => Ok (a ++ t))).
Proof.
  unfold pack_samples. simpl. destruct (pack_h x); simpl; [|reflexivity].
  destruct (pysequence (map pack_h xs)); reflexivity.
Qed.

Lemma pack_h_Ok x a : pack_h x = Ok a -> in_int16 x = true /\ a = le_bytes 2 x.
Proof.
  unfold pack_h. destruct (in_int16 x); [|discriminate].
  intros H. apply Ok_inj in H. auto.
Qed.

Lemma signed16_le_bytes x : in_int16 x = true ->
  sample_of_bytes (Z.land x 255) (Z.land (Z.shiftr x 8) 255) = x.
Proof.
  intros H. unfold sample_of_bytes. pose proof (unpack_pack_h x H) as E. simpl le_bytes in E.
  simpl le_value in E. rewrite ?Z.mul_0_r, ?Z.add_0_r in E. exact E.
Qed.

Lemma unpack_samples_cons x rest : in_int16 x = true ->
  unpack_samples (le_bytes 2 x ++ rest) = option_map (cons x) (unpack_samples rest).
Proof.
  intros Hx. cbn [le_bytes app unpack_samples].
  destruct (unpack_samples rest); simpl; rewrite ?signed16_le_bytes by exact Hx; reflexivity.
Qed.

Lemma unpack_le_bytes_samples (samples : list Z) :
  Forall (fun s => in_int16 s = true) samples ->
  unpack_samples (flat_map (le_bytes 2) samples) = Some samples.
Proof.
  induction samples as [|x xs IH]; intros H; [reflexivity|].
  inversion H as [|? ? Hx Hxs]; subst.
  change (flat_map (le_bytes 2) (x :: xs)) with (le_bytes 2 x ++ flat_map (le_bytes 2) xs).
  rewrite unpack_samples_cons, IH by assumption. reflexivity.
Qed.

(** ** Theorems *)

(** C9: round trip of the sample encoding: the bytes that
    [struct.pack('<h'...)] produces unpack to the samples packed. *)
Theorem unpack_pack_samples (samples bytes : list Z) :
  pack_samples samples = Ok bytes -> unpack_samples bytes = Some samples.
Proof.
  revert bytes. induction samples as [|x xs IH]; intros bytes H.
  - unfold pack_samples in H. simpl in H. apply Ok_inj in H. subst. reflexivity.
  - rewrite pack_samples_cons in H. py_simpl. subst bytes.
    apply pack_h_Ok in Ha as [Hx ->]. simpl.
    rewrite (IH a0 Ha0), signed16_le_bytes by exact Hx. reflexivity.
Qed.

Lemma unpack_pack_samples_witness :
  pack_samples [0; -1; 32767; -32768] = Ok [0; 0; 255; 255; 255; 127; 0; 128] /\
  unpack_samples [0; 0; 255; 255; 255; 127; 0; 128] = Some [0; -1; 32767; -32768].
Proof.
  split; [reflexivity|]. apply unpack_pack_samples. reflexivity.
Defined.

End Struct.

Module Wave.
Import Struct.

(** The bytes of an ASCII tag such as [b'RIFF']. *)
Definition tag (s : string) : list Z :=
  map (fun c => Z.of_N (N_of_ascii c)) (list_ascii_of_string s).

Definition WAVE_FORMAT_PCM : Z := 1.

(** What [setnchannels], [setsampwidth] and [setframerate] record. *)
Record params := mk_params { nchannels : Z; sampwidth : Z; framerate : Z }.

(** [Wave_write._write_header]: [b'RIFF'] then
    [struct.pack('<L4s4sLHHLLHH4s', 36 + datalength, b'WAVE', b'fmt ', 16,
    WAVE_FORMAT_PCM, nchannels, framerate, nchannels * framerate *
    sampwidth, nchannels * sampwidth, sampwidth * 8, b'data')] then
    [struct.pack('<L', datalength)]. *)
Definition header (p : params) (datalength : Z) : list Z :=
  tag "RIFF" ++ le_bytes 4 (36 + datalength) ++ tag "WAVE" ++ tag "fmt " ++
  le_bytes 4 16 ++ le_bytes 2 WAVE_FORMAT_PCM ++ le_bytes 2 (nchannels p) ++
  le_bytes 4 (framerate p) ++
  le_bytes 4 (nchannels p * framerate p * sampwidth p) ++
  le_bytes 2 (nchannels p * sampwidth p) ++ le_bytes 2 (sampwidth p * 8) ++
  tag "data" ++ le_bytes 4 datalength.

(** The ranges of the ['L'] (32-bit) and ['H'] (16-bit) fields. *)
Definition fits_L (z : Z) : bool := (0 <=? z) && (z <? 2 ^ 32).
Definition fits_H (z : Z) : bool := (0 <=? z) && (z <? 2 ^ 16).

(** The setters' checks: [nchannels < 1], a width outside [1..4] and a
    non-positive rate raise [wave.Error]. *)
Definition params_ok (p : params) : bool :=
  (1 <=? nchannels p) && (1 <=? sampwidth p) && (sampwidth p <=? 4) && (0 <? framerate p).

Definition header_fits (p : params) (datalength : Z) : bool :=
  fits_L (36 + datalength) && fits_H (nchannels p) && fits_L (framerate p) &&
  fits_L (nchannels p * framerate p * sampwidth p) &&
  fits_H (nchannels p * sampwidth p) && fits_L datalength.

(** [with wave.open(f, 'w') as w: w.setnchannels(..); w.setsampwidth(..);
    w.setframerate(..); w.writeframes(frames)]: the bytes of the file.
    The header written before the frames is patched on close to the
    number of bytes written, [len(frames)]. *)
Definition write (p : params) (frames : list Z) : pyresult (list Z) :=
  let n := Z.of_nat (List.length frames) in
  if negb (params_ok p) then Raise WaveError
  else if header_fits p n then Ok (header p n ++ frames)
  else Raise StructError.

(** ** The reader's side *)

Definition read (n : nat) (b : list Z) : option (list Z * list Z) :=
  if Nat.leb n (List.length b) then Some (firstn n b, skipn n b) else None.

Definition obind {A B} (m : option A) (k : A -> option B) : option B :=
  match m with Some a => k a | None => None end.

Declare Scope reader_scope.
Notation "' ( x , y ) <-? m ;; k" := (obind m (fun '(x, y) => k))
  (at level 100, x name, y name, m at next level, right associativity) : reader_scope.
Open Scope reader_scope.

Definition list_Z_eqb (a b : list Z) : bool :=
  if list_eq_dec Z.eq_dec a b then true else false.

(** Parse a mono or multichannel PCM file: the parameters and the frames. *)
Definition parse (b : list Z) : option (params * list Z) :=
  '(riff, b) <-? read 4 b ;; '(size, b) <-? read 4 b ;;
  '(wave, b) <-? read 4 b ;; '(fmt, b) <-? read 4 b ;;
  '(fmtsize, b) <-? read 4 b ;; '(format, b) <-? read 2 b ;;
  '(nch, b) <-? read 2 b ;; '(rate, b) <-? read 4 b ;;
  '(brate, b) <-? read 4 b ;; '(balign, b) <-? read 2 b ;;
  '(bits, b) <-? read 2 b ;; '(data, b) <-? read 4 b ;;
  '(dlen, frames) <-? read 4 b ;;
  let p := mk_params (le_value nch) (le_value bits / 8) (le_value rate) in
  if list_Z_eqb riff (tag "RIFF") && list_Z_eqb wave (tag "WAVE") &&
     list_Z_eqb fmt (tag "fmt ") && list_Z_eqb data (tag "data") &&
     (le_value fmtsize =? 16) && (le_value format =? WAVE_FORMAT_PCM) &&
     (le_value size =? 36 + le_value dlen) &&
     (le_value dlen =? Z.of_nat (List.length frames)) &&
     (le_value brate =? nchannels p * framerate p * sampwidth p) &&
     (le_value balign =? nchannels p * sampwidth p) &&
     (le_value bits =? sampwidth p * 8)
  then Some (p, frames) else None.

(** ** Lemmas *)

Lemma read_app (x y : list Z) : read (List.length x) (x ++ y) = Some (x, y).
Proof.
  unfold read. rewrite length_app, (proj2 (Nat.leb_le _ _)) by lia.
  rewrite firstn_app, skipn_app, Nat.sub_diag, firstn_all, skipn_all, firstn_O, skipn_O,
    app_nil_r. reflexivity.
Qed.

Lemma read_le_bytes n z y : read n (le_bytes n z ++ y) = Some (le_bytes n z, y).
Proof. rewrite <- (le_bytes_length n z) at 1. apply read_app. Qed.

Lemma read_app_len n (x y : list Z) : List.length x = n -> read n (x ++ y) = Some (x, y).
Proof. intros <-. apply read_app. Qed.

Lemma list_Z_eqb_refl a : list_Z_eqb a a = true.
Proof. unfold list_Z_eqb. destruct (list_eq_dec Z.eq_dec a a); congruence. Qed.

Lemma le_value_small n z : 0 <= z < 2 ^ (8 * Z.of_nat n) -> le_value (le_bytes n z) = z.
Proof. intros H. rewrite le_value_le_bytes. apply Z.mod_small. exact H. Qed.

Lemma length_header p n : List.length (header p n) = 44%nat.
Proof. unfold header. rewrite !length_app, !le_bytes_length. reflexivity. Qed.

Lemma fits_L_range z : fits_L z = true -> 0 <= z < 2 ^ (8 * Z.of_nat 4).
Proof. unfold fits_L. rewrite andb_true_iff, Z.leb_le, Z.ltb_lt. tauto. Qed.

Lemma fits_H_range z : fits_H z = true -> 0 <= z < 2 ^ (8 * Z.of_nat 2).
Proof. unfold fits_H. rewrite andb_true_iff, Z.leb_le, Z.ltb_lt. tauto. Qed.

Lemma write_Ok_eq p frames bytes :
  write p frames = Ok bytes ->
  bytes = header p (Z.of_nat (List.length frames)) ++ frames /\
  params_ok p = true /\ header_fits p (Z.of_nat (List.length frames)) = true.
Proof.
  unfold write. destruct (params_ok p); [|discriminate]. simpl negb. cbv iota.
  destruct (header_fits p _) eqn:Hf; [|discriminate].
  intros H. apply Ok_inj in H. subst bytes. auto.
Qed.

(** Reading a header back field by field. *)
Lemma parse_header p n frames :
  params_ok p = true -> header_fits p n = true -> n = Z.of_nat (List.length frames) ->
  parse (header p n ++ frames) = Some (p, frames).
Proof.
  intros Hp Hf Hn. unfold header. rewrite <- !app_assoc.
  unfold parse.
  repeat (rewrite read_app_len by (reflexivity || apply le_bytes_length); cbn [obind]).
  unfold params_ok, header_fits in *. split_andb.
  repeat match goal with H : (_ <=? _) = true |- _ => apply Z.leb_le in H end.
  rewrite !list_Z_eqb_refl, (le_value_small 4 (36 + n)), (le_value_small 4 n),
    (le_value_small 2 (nchannels p)), (le_value_small 4 (framerate p)),
    (le_value_small 4 (nchannels p * framerate p * sampwidth p)),
    (le_value_small 2 (nchannels p * sampwidth p)),
    (le_value_small 2 (sampwidth p * 8)), (le_value_small 4 16),
    (le_value_small 2 WAVE_FORMAT_PCM);
    [|first [apply fits_L_range; assumption | apply fits_H_range; assumption
            | unfold WAVE_FORMAT_PCM; simpl; lia]..].
  rewrite Z.div_mul by lia. cbn [nchannels sampwidth framerate].
  rewrite <- Hn, !Z.eqb_refl. simpl. destruct p. reflexivity.
Qed.

(** ** Theorems *)

(** C8: round trip of the container: a file written by [wave] parses back
    to the parameters set on the writer and the frames written. *)
Theorem write_parse (p : params) (frames bytes : list Z) :
  write p frames = Ok bytes -> parse bytes = Some (p, frames).
Proof.
  intros H. apply write_Ok_eq in H as [-> [Hp Hf]]. apply parse_header; auto.
Qed.

Lemma write_parse_witness :
  write (mk_params 1 2 44100) [0; 0] = Ok (header (mk_params 1 2 44100) 2 ++ [0; 0]) /\
  parse (header (mk_params 1 2 44100) 2 ++ [0; 0]) = Some (mk_params 1 2 44100, [0; 0]).
Proof.
  split; [reflexivity|].
  apply (write_parse (mk_params 1 2 44100) [0; 0]). reflexivity.
Defined.

(** the file is the 44-byte header followed by the frames, and a
    successful write bounds the payload by the 32-bit RIFF size field. *)
Theorem write_layout (p : params) (frames bytes : list Z) :
  write p frames = Ok bytes ->
  bytes = header p (Z.of_nat (List.length frames)) ++ frames /\
  List.length bytes = (44 + List.length frames)%nat /\
  Z.of_nat (List.length frames) < 2 ^ 32 - 36.
Proof.
  intros H. apply write_Ok_eq in H as [-> [_ Hf]]. split; [reflexivity|]. split.
  - rewrite length_app, length_header. reflexivity.
  - unfold header_fits, fits_L in Hf. rewrite !andb_true_iff, ?Z.ltb_lt in Hf. lia.
Qed.

Lemma write_layout_witness :
  exists bytes, write (mk_params 1 2 44100) [] = Ok bytes /\
  bytes = header (mk_params 1 2 44100) 0 ++ [] /\ List.length bytes = 44%nat /\
  0 < 2 ^ 32 - 36.
Proof.
  eexists. split; [reflexivity|].
  apply (write_layout (mk_params 1 2 44100) []). reflexivity.
Defined.

End Wave.
