(* ===== verification/WaveWriter.v ===== *)
(** * The [wave] writer as a state machine

    [Pcm.Wave.write] gives the bytes of a WAV file in one step.  The
    generators reach them through the [Wave_write] object of the standard
    library's [wave] module (lines 70-77 of [src/create_dtmf_wav_fixed.py],
    72-76 of [src/create_dtmf_wav.py]): [setnchannels], [setsampwidth],
    [setframerate], one [writeframes], and [close] on leaving the [with]
    block.  This file models that object from the documented behaviour of
    [wave.py]: its state ([_nchannels], [_sampwidth], [_framerate],
    [_nframes], [_datawritten], [_datalength], [_headerwritten] and the
    bytes of the file), each method with the checks that raise
    [wave.Error], the header written on the first [writeframes] with the
    frame count rounded down to whole frames, and the patch of the two
    size fields (at offsets 4 and 40) when the data written differs from
    the length announced.  The host is little-endian (no byte swap).

    A run that raises leaves a partial file on disk; the model gives the
    exception.  When [close] raises during the unwinding of an exception,
    Python reports the later one; in every case here both are of the same
    class ([wave.Error] or [struct.error]).

    Theorem: the protocol the generators follow computes [Pcm.Wave.write]
    on every input, errors included.  The proof goes through the state
    [written] that the writer reaches after its [writeframes]: the file is
    the header for the bytes written, patched if needed, followed by
    them, and [close] then returns it unchanged. *)

From Stdlib Require Import Bool ZArith List Lia.
From S2P Require Import Prelude Pcm.
Import ListNotations.
Open Scope Z_scope.

Module WaveWriter.
Import Pcm.Struct Pcm.Wave.

(** ** State and methods *)

Record writer := mk_writer {
  w_nchannels : Z; w_sampwidth : Z; w_framerate : Z; w_nframes : Z;
  w_nframeswritten : Z; w_datawritten : Z; w_datalength : Z;
  w_headerwritten : bool; w_file : list Z }.

(** [Wave_write.initfp]: a fresh file. *)
Definition initfp : writer := mk_writer 0 0 0 0 0 0 0 false [].

(** [setnchannels], [setsampwidth], [setframerate]: refused once data has
    been written ("cannot change parameters after starting to write"),
    and refused out of range.  [setframerate] stores [int(round(x))],
    the identity on an integer. *)
Definition setnchannels (w : writer) (n : Z) : pyresult writer :=
  if negb (w_datawritten w =? 0) then Raise WaveError
  else if n <? 1 then Raise WaveError
  else Ok (mk_writer n (w_sampwidth w) (w_framerate w) (w_nframes w) (w_nframeswritten w)
                     (w_datawritten w) (w_datalength w) (w_headerwritten w) (w_file w)).

Definition setsampwidth (w : writer) (sw : Z) : pyresult writer :=
  if negb (w_datawritten w =? 0) then Raise WaveError
  else if (sw <? 1) || (4 <? sw) then Raise WaveError
  else Ok (mk_writer (w_nchannels w) sw (w_framerate w) (w_nframes w) (w_nframeswritten w)
                     (w_datawritten w) (w_datalength w) (w_headerwritten w) (w_file w)).

Definition setframerate (w : writer) (fr : Z) : pyresult writer :=
  if negb (w_datawritten w =? 0) then Raise WaveError
  else if fr <=? 0 then Raise WaveError
  else Ok (mk_writer (w_nchannels w) (w_sampwidth w) fr (w_nframes w) (w_nframeswritten w)
                     (w_datawritten w) (w_datalength w) (w_headerwritten w) (w_file w)).

Definition w_params (w : writer) : params :=
  mk_params (w_nchannels w) (w_sampwidth w) (w_framerate w).

(** [_write_header(initlength)]: the frame count, if not set, is the
    whole frames of [initlength]; the two [struct.pack] calls raise
    [struct.error] on a field out of range. *)
Definition write_header (w : writer) (initlength : Z) : pyresult writer :=
  let nframes := if w_nframes w =? 0
                 then initlength / (w_nchannels w * w_sampwidth w) else w_nframes w in
  let datalength := nframes * w_nchannels w * w_sampwidth w in
  if header_fits (w_params w) datalength then
    Ok (mk_writer (w_nchannels w) (w_sampwidth w) (w_framerate w) nframes (w_nframeswritten w)
                  (w_datawritten w) datalength true
                  (w_file w ++ header (w_params w) datalength))
  else Raise StructError.

(** [_ensure_header_written(datasize)]. *)
Definition ensure_header_written (w : writer) (datasize : Z) : pyresult writer :=
  if w_headerwritten w then Ok w
  else if w_nchannels w =? 0 then Raise WaveError
  else if w_sampwidth w =? 0 then Raise WaveError
  else if w_framerate w =? 0 then Raise WaveError
  else write_header w datasize.

(** [writeframesraw(data)]. *)
Definition writeframesraw (w : writer) (data : list Z) : pyresult writer :=
  pybind (ensure_header_written w (Z.of_nat (length data))) (fun w1 =>
  let n := Z.of_nat (length data) in
  Ok (mk_writer (w_nchannels w1) (w_sampwidth w1) (w_framerate w1) (w_nframes w1)
                (w_nframeswritten w1 + n / (w_sampwidth w1 * w_nchannels w1))
                (w_datawritten w1 + n) (w_datalength w1) (w_headerwritten w1)
                (w_file w1 ++ data))).

(** Overwrite the bytes at [pos] ([file.seek(pos); file.write(b)]). *)
Definition patch (pos : nat) (b file : list Z) : list Z :=
  firstn pos file ++ b ++ skipn (pos + length b) file.

(** [struct.pack('<L', z)]. *)
Definition pack_L (z : Z) : pyresult (list Z) :=
  if fits_L z then Ok (le_bytes 4 z) else Raise StructError.

(** [_patchheader()]: the RIFF size at offset 4 and the data size at
    offset 40 become those of the data written. *)
Definition patchheader (w : writer) : pyresult writer :=
  if w_datawritten w =? w_datalength w then Ok w else
  pybind (pack_L (36 + w_datawritten w)) (fun b1 =>
  pybind (pack_L (w_datawritten w)) (fun b2 =>
  Ok (mk_writer (w_nchannels w) (w_sampwidth w) (w_framerate w) (w_nframes w)
                (w_nframeswritten w) (w_datawritten w) (w_datawritten w) (w_headerwritten w)
                (patch 40 b2 (patch 4 b1 (w_file w)))))).

(** [writeframes(data)]. *)
Definition writeframes (w : writer) (data : list Z) : pyresult writer :=
  pybind (writeframesraw w data) (fun w1 =>
  if negb (w_datalength w1 =? w_datawritten w1) then patchheader w1 else Ok w1).

(** [close()]: the header if none was written, the patch if needed; the
    result is the file. *)
Definition close (w : writer) : pyresult (list Z) :=
  pybind (ensure_header_written w 0) (fun w1 =>
  pybind (if negb (w_datalength w1 =? w_datawritten w1) then patchheader w1 else Ok w1)
    (fun w2 => Ok (w_file w2))).

(** The three setters, in the generators' order. *)
Definition configure (p : params) : pyresult writer :=
  pybind (setnchannels initfp (nchannels p)) (fun w =>
  pybind (setsampwidth w (sampwidth p)) (fun w =>
  setframerate w (framerate p))).

(** The setters and one [writeframes]. *)
Definition configure_and_write (p : params) (data : list Z) : pyresult writer :=
  pybind (configure p) (fun w => writeframes w data).

(** [with wave.open(f, 'w') as w: ...]: the file the generators write. *)
Definition write_seq (p : params) (data : list Z) : pyresult (list Z) :=
  pybind (configure_and_write p data) close.

(** ** The state after the frames *)

(** The writer after the setters: parameters set, nothing written. *)
Definition configured (p : params) : writer :=
  mk_writer (nchannels p) (sampwidth p) (framerate p) 0 0 0 0 false [].

(** The state after a [writeframes] that wrote the header: the file is
    the header for the bytes written so far, whose size fields are up to
    date and fit, followed by those bytes. *)
Definition written (w : writer) (frames : list Z) : Prop :=
  w_headerwritten w = true /\ w_datalength w = w_datawritten w /\
  w_datawritten w = Z.of_nat (length frames) /\
  w_file w = header (w_params w) (w_datawritten w) ++ frames /\
  header_fits (w_params w) (w_datawritten w) = true.

(** ** Lemmas *)

(** Reduce the methods while keeping the header, the byte fields and the
    size checks folded. *)
Ltac wcbn := cbn -[header close patchheader fits_L Z.add patch le_bytes].

(** Case on every integer comparison of the goal, simplifying as it goes. *)
Ltac zcases :=
  repeat match goal with
  | |- context [?x <? ?y] => destruct (Z.ltb_spec x y); cbn -[writeframes]
  | |- context [?x <=? ?y] => destruct (Z.leb_spec x y); cbn -[writeframes]
  | |- context [?x =? ?y] => destruct (Z.eqb_spec x y); cbn -[writeframes]
  end.

Lemma patch_header p dl dl' data :
  patch 40 (le_bytes 4 dl') (patch 4 (le_bytes 4 (36 + dl')) (header p dl ++ data)) =
  header p dl' ++ data.
Proof. reflexivity. Qed.

(** The range checks of the header only get easier for a shorter payload. *)
Lemma header_fits_mono p d d' :
  0 <= d <= d' -> header_fits p d' = true -> header_fits p d = true.
Proof.
  unfold header_fits, fits_L. intros Hd H. split_andb.
  rewrite !andb_true_iff. repeat split; try assumption; rewrite ?Z.leb_le, ?Z.ltb_lt in *; lia.
Qed.

(** The header counts whole frames: at most the bytes given. *)
Lemma whole_frames_le n k : 0 <= n -> 0 < k -> 0 <= n / k * k <= n.
Proof.
  intros Hn Hk. split.
  - apply Z.mul_nonneg_nonneg; [apply Z.div_pos|]; lia.
  - rewrite Z.mul_comm. apply Z.mul_div_le. lia.
Qed.

(** The setters refuse exactly the parameters [Pcm.Wave.params_ok]
    rejects. *)
Lemma configure_bad p :
  params_ok p = false -> configure p = Raise WaveError.
Proof.
  destruct p as [nch sw fr]. unfold params_ok, configure, setnchannels, setsampwidth,
    setframerate. cbn [nchannels sampwidth framerate w_datawritten initfp].
  intros H. zcases; try reflexivity; revert H; zcases; (discriminate || lia).
Qed.

Lemma configure_ok p :
  params_ok p = true -> configure p = Ok (configured p).
Proof.
  destruct p as [nch sw fr]. unfold params_ok, configure, configured, setnchannels, setsampwidth,
    setframerate. cbn [nchannels sampwidth framerate w_datawritten initfp].
  intros H. zcases; try reflexivity; revert H; zcases; (discriminate || lia).
Qed.

(** Once the parameters fit, only the two payload sizes decide. *)
Lemma header_fits_payload p d d' :
  header_fits p d = true -> header_fits p d' = fits_L (36 + d') && fits_L d'.
Proof.
  unfold header_fits. intros H. split_andb.
  repeat match goal with Hx : _ = true |- _ => rewrite Hx; clear Hx end.
  destruct (fits_L (36 + d')), (fits_L d'); reflexivity.
Qed.

(** [close] on a writer whose header is written and up to date gives the
    file as it is. *)
Lemma close_done w :
  w_headerwritten w = true -> w_datalength w = w_datawritten w -> close w = Ok (w_file w).
Proof.
  intros Hh Hd. unfold close, ensure_header_written. rewrite Hh. cbn. rewrite Hd, Z.eqb_refl.
  reflexivity.
Qed.

(** The first [writeframes] on a configured writer: the header is written
    for the whole frames of the data, then patched to its length. *)
Lemma writeframes_fresh p data :
  params_ok p = true ->
  (header_fits p (Z.of_nat (length data)) = true ->
   exists w', writeframes (configured p) data = Ok w' /\ written w' data /\ w_params w' = p) /\
  (header_fits p (Z.of_nat (length data)) = false ->
   writeframes (configured p) data = Raise StructError).
Proof.
  destruct p as [nch sw fr]. unfold params_ok, configured. cbn [nchannels sampwidth framerate].
  intros H. split_andb. rewrite Z.leb_le, ?Z.ltb_lt in *.
  set (n := Z.of_nat (length data)).
  assert (Hdl := whole_frames_le n (nch * sw) (Nat2Z.is_nonneg _) ltac:(lia)).
  rewrite Z.mul_assoc in Hdl. set (dl := n / (nch * sw) * nch * sw) in *.
  unfold writeframes, writeframesraw, ensure_header_written, write_header. wcbn.
  rewrite (proj2 (Z.eqb_neq nch 0)), (proj2 (Z.eqb_neq sw 0)), (proj2 (Z.eqb_neq fr 0))
    by lia. fold n dl. unfold w_params. wcbn. split; intros Hn.
  - rewrite (header_fits_mono _ dl n) by assumption. wcbn. rewrite Z.add_0_l.
    destruct (Z.eqb_spec dl n) as [Heq|Hne]; wcbn.
    + eexists. split; [reflexivity|]. split; [|reflexivity].
      unfold written, w_params. cbn. rewrite Heq. repeat split; assumption.
    + unfold patchheader, pack_L. wcbn. rewrite (proj2 (Z.eqb_neq n dl)) by congruence.
      pose proof Hn as Hn'. rewrite (header_fits_payload _ n n Hn) in Hn'.
      apply andb_prop in Hn' as [-> ->]. wcbn.
      eexists. split; [reflexivity|]. split; [|reflexivity].
      unfold written, w_params. cbn -[header patch le_bytes fits_L Z.add].
      rewrite patch_header. repeat split; assumption.
  - destruct (header_fits _ dl) eqn:Hd; [|reflexivity]. wcbn. rewrite Z.add_0_l.
    destruct (Z.eqb_spec dl n) as [Heq|Hne]; [congruence|]. wcbn.
    unfold patchheader, pack_L. wcbn. rewrite (proj2 (Z.eqb_neq n dl)) by congruence.
    rewrite (header_fits_payload _ dl n Hd) in Hn.
    destruct (fits_L (36 + n)), (fits_L n); cbn in *; congruence.
Qed.

(** [close] once the invariant holds returns the file as it is. *)
Lemma close_written w frames : written w frames -> close w = Ok (w_file w).
Proof. intros (Hh & Hd & _). apply close_done; assumption. Qed.

(** One [writeframes] then [close] on a configured writer. *)
Lemma writeframes_close_fresh p data :
  params_ok p = true ->
  pybind (writeframes (configured p) data) close =
  if header_fits p (Z.of_nat (length data)) then Ok (header p (Z.of_nat (length data)) ++ data)
  else Raise StructError.
Proof.
  intros Hp. destruct (writeframes_fresh p data Hp) as [Hok Hbad].
  destruct (header_fits p _) eqn:Hn; [|rewrite (Hbad eq_refl); reflexivity].
  destruct (Hok eq_refl) as (w' & -> & Hw & Hq). cbn [pybind].
  rewrite (close_written w' data Hw). destruct Hw as (_ & _ & Hdw & Hf & _).
  rewrite Hf, Hdw, Hq. reflexivity.
Qed.

(** ** Theorems *)

(** C10: refinement of the container model: the [with] block of the
    generators (the three setters, one [writeframes] and [close]) writes
    exactly the file [Pcm.Wave.write] describes and raises the same
    exception on every input: [wave.Error] for a bad parameter,
    [struct.error] when a size field overflows, even though the header is
    first written for the whole frames only and then patched. *)
Theorem write_seq_eq (p : params) (data : list Z) : write_seq p data = write p data.
Proof.
  unfold write_seq, configure_and_write, write. destruct (params_ok p) eqn:Hp; cbn [negb].
  - rewrite configure_ok by exact Hp. cbn [pybind]. apply writeframes_close_fresh. exact Hp.
  - rewrite configure_bad by exact Hp. reflexivity.
Qed.

End WaveWriter.
