(* ===== verification/Encoder.v ===== *)
(** * The message encoder: [create_dtmf_wav]

    Both generators transcode the message ([AsciiDigits]), and for every
    digit append the burst ([Tone]) and [int(silence_duration *
    sample_rate)] zero samples to a buffer, with [sample_rate = 44100]
    fixed in the body; then they write the buffer as a mono 16-bit WAV
    file ([Pcm]).
    - [Fixed.create_dtmf_wav] models [src/create_dtmf_wav_fixed.py] lines
      43-84: the buffer is a list of Python integers packed with
      [struct.pack].
    - [Numpy.create_dtmf_wav] models [src/create_dtmf_wav.py] lines 40-80:
      the buffer is a float array built with [np.concatenate], divided by
      its peak ([np.max] raises on an empty array), scaled by 32767 and
      cast with [astype(np.int16)] (truncation toward zero; the cast of an
      out-of-range value, platform-defined in C, is modelled as 16-bit
      wrap-around, and is shown never to happen).
    The result of a run is the list of bytes of the file, or the Python
    exception that ends it.  What the functions print is in [Console].

    Theorems: the fixed version always succeeds within the 32-bit size of
    a RIFF file and writes exactly the bursts and gaps; the sample count;
    the empty message; the numpy version raises [ValueError] exactly on the empty message;
    its second normalisation is a no-op; its samples stay within 16 bits. *)

From Stdlib Require Import ZArith QArith Qabs Lqa List Ascii Lia Morphisms.
From S2P Require Import Prelude Dtmf AsciiDigits Tone Pcm.
Import ListNotations.
Open Scope Z_scope.

(** The format every generator sets: mono, 2-byte samples, 44100 Hz. *)
Definition SAMPLE_RATE : Z := 44100.
Definition wav_params : Pcm.Wave.params := Pcm.Wave.mk_params 1 2 SAMPLE_RATE.

Module Fixed.
Section WithOscillator.
Context `{Oscillator}.

(** The samples of one digit: its burst, then the gap. *)
Definition digit_samples (tone_duration silence_duration : Q) (digit : ascii) : list Z :=
  Tone.generate_dtmf_tone_fixed digit tone_duration SAMPLE_RATE ++
  py_repeat 0 (qtrunc (silence_duration * inject_Z SAMPLE_RATE)).

(** [all_samples] after the loop of lines 56-67. *)
Definition all_samples (message : AsciiDigits.pystr) (tone_duration silence_duration : Q)
    : list Z :=
  flat_map (digit_samples tone_duration silence_duration)
           (AsciiDigits.text_to_ascii_digits message).

End WithOscillator.

(** [src/create_dtmf_wav_fixed.py], lines 43-84: the bytes of the file. *)
Definition create_dtmf_wav `{Oscillator} (message : AsciiDigits.pystr)
    (tone_duration silence_duration : Q) : pyresult (list Z) :=
  pybind (Pcm.Struct.pack_samples (all_samples message tone_duration silence_duration))
         (fun packed => Pcm.Wave.write wav_params packed).

(** The default arguments: [tone_duration=0.2, silence_duration=0.05]. *)
Definition create_dtmf_wav_default `{Oscillator} (message : AsciiDigits.pystr)
    : pyresult (list Z) :=
  create_dtmf_wav message (1 # 5) (1 # 20).

Section Properties.
Context `{Oscillator}.

(** ** Lemmas *)

Lemma length_digit_samples td sd d :
  length (digit_samples td sd d) =
  (Z.to_nat (qtrunc (td * inject_Z SAMPLE_RATE)) +
   Z.to_nat (qtrunc (sd * inject_Z SAMPLE_RATE)))%nat.
Proof.
  unfold digit_samples, py_repeat.
  rewrite length_app, Tone.length_generate_dtmf_tone_fixed, repeat_length. reflexivity.
Qed.

Lemma length_all_samples m td sd :
  length (all_samples m td sd) =
  (length (AsciiDigits.text_to_ascii_digits m) *
   (Z.to_nat (qtrunc (td * inject_Z SAMPLE_RATE)) +
    Z.to_nat (qtrunc (sd * inject_Z SAMPLE_RATE))))%nat.
Proof.
  apply length_flat_map_const. intros d _. apply length_digit_samples.
Qed.

Lemma all_samples_in_int16 m td sd :
  Forall (fun s => in_int16 s = true) (all_samples m td sd).
Proof.
  unfold all_samples. apply Forall_flat_map. apply Forall_forall. intros d _.
  unfold digit_samples, py_repeat. apply Forall_app. split.
  - apply Tone.generate_dtmf_tone_fixed_in_int16.
  - apply Forall_forall. intros x Hx. apply repeat_spec in Hx. subst. reflexivity.
Qed.

Lemma wav_params_ok : Pcm.Wave.params_ok wav_params = true.
Proof. reflexivity. Qed.

Lemma wav_header_fits n : 0 <= n -> 36 + n < 2 ^ 32 -> Pcm.Wave.header_fits wav_params n = true.
Proof.
  intros H1 H2. unfold Pcm.Wave.header_fits, Pcm.Wave.fits_L, Pcm.Wave.fits_H.
  cbn [Pcm.Wave.nchannels Pcm.Wave.sampwidth Pcm.Wave.framerate wav_params].
  unfold SAMPLE_RATE. repeat rewrite andb_true_iff.
  repeat split; first [apply Z.leb_le | apply Z.ltb_lt]; lia.
Qed.

(** The run, when the payload fits a RIFF file. *)
Lemma create_dtmf_wav_eq m td sd :
  2 * Z.of_nat (length (all_samples m td sd)) < 2 ^ 32 - 36 ->
  create_dtmf_wav m td sd =
  Ok (Pcm.Wave.header wav_params (2 * Z.of_nat (length (all_samples m td sd))) ++
      flat_map (Pcm.Struct.le_bytes 2) (all_samples m td sd)).
Proof.
  intros Hlen. unfold create_dtmf_wav.
  rewrite Pcm.Struct.pack_samples_Ok by apply all_samples_in_int16. unfold pybind.
  unfold Pcm.Wave.write. rewrite wav_params_ok. simpl negb. cbv iota zeta.
  assert (Hl : Z.of_nat (length (flat_map (Pcm.Struct.le_bytes 2) (all_samples m td sd))) =
               2 * Z.of_nat (length (all_samples m td sd))).
  { rewrite (length_flat_map_const _ 2) by (intros; apply Pcm.Struct.le_bytes_length). lia. }
  rewrite Hl. unfold Pcm.Wave.header_fits, Pcm.Wave.fits_L, Pcm.Wave.fits_H.
  replace (Pcm.Wave.nchannels wav_params) with 1 by reflexivity.
  replace (Pcm.Wave.sampwidth wav_params) with 2 by reflexivity.
  replace (Pcm.Wave.framerate wav_params) with SAMPLE_RATE by reflexivity.
  unfold SAMPLE_RATE.
  destruct (Z.leb_spec 0 (36 + 2 * Z.of_nat (length (all_samples m td sd)))); [|lia].
  destruct (Z.ltb_spec (36 + 2 * Z.of_nat (length (all_samples m td sd))) (2 ^ 32)); [|lia].
  destruct (Z.leb_spec 0 (2 * Z.of_nat (length (all_samples m td sd)))); [|lia].
  destruct (Z.ltb_spec (2 * Z.of_nat (length (all_samples m td sd))) (2 ^ 32)); [|lia].
  reflexivity.
Qed.

Lemma create_dtmf_wav_too_long_eq m td sd :
  2 ^ 32 - 36 <= 2 * Z.of_nat (length (all_samples m td sd)) ->
  create_dtmf_wav m td sd = Raise StructError.
Proof.
  intros Hlen. unfold create_dtmf_wav.
  rewrite Pcm.Struct.pack_samples_Ok by apply all_samples_in_int16. unfold pybind.
  unfold Pcm.Wave.write. rewrite wav_params_ok. simpl negb. cbv iota zeta.
  rewrite (length_flat_map_const _ 2) by (intros; apply Pcm.Struct.le_bytes_length).
  unfold Pcm.Wave.header_fits, Pcm.Wave.fits_L.
  destruct (Z.ltb_spec (36 + Z.of_nat (length (all_samples m td sd) * 2)) (2 ^ 32)); [lia|].
  rewrite !andb_false_r. reflexivity.
Qed.

(** ** Theorems *)

(** C1: the fixed generator succeeds on every message whose samples fit a
    RIFF file, and the file it writes decodes (as a mono 16-bit 44100 Hz
    WAV) to exactly the buffer of the loop: each digit's burst followed by
    its gap, in the order of the digits. *)
Theorem create_dtmf_wav_decodes (m : AsciiDigits.pystr) (td sd : Q) :
  2 * Z.of_nat (length (all_samples m td sd)) < 2 ^ 32 - 36 ->
  exists bytes frames,
    create_dtmf_wav m td sd = Ok bytes /\
    Pcm.Wave.parse bytes = Some (wav_params, frames) /\
    Pcm.Struct.unpack_samples frames = Some (all_samples m td sd).
Proof.
  intros Hlen. rewrite (create_dtmf_wav_eq m td sd Hlen).
  eexists; eexists; split; [reflexivity|]. split.
  - apply Pcm.Wave.parse_header; [apply wav_params_ok|apply wav_header_fits; lia|].
    rewrite (length_flat_map_const _ 2) by (intros; apply Pcm.Struct.le_bytes_length). lia.
  - apply Pcm.Struct.unpack_le_bytes_samples, all_samples_in_int16.
Qed.

(** C18: with the default durations (0.2 s and 0.05 s at 44100 Hz) every
    digit contributes 8820 burst samples and 2205 gap samples, so a
    successful run writes [44 + 2 * 11025 * d] bytes for [d] digits. *)
Theorem create_dtmf_wav_default_size (m : AsciiDigits.pystr) (bytes : list Z) :
  create_dtmf_wav_default m = Ok bytes ->
  Z.of_nat (length bytes) = 44 + 2 * 11025 * Z.of_nat (length (AsciiDigits.text_to_ascii_digits m)).
Proof.
  unfold create_dtmf_wav_default. intros Hc.
  destruct (Z.ltb_spec (2 * Z.of_nat (length (all_samples m (1 # 5) (1 # 20)))) (2 ^ 32 - 36))
    as [Hlen|Hlen].
  - rewrite (create_dtmf_wav_eq _ _ _ Hlen) in Hc. apply Ok_inj in Hc. subst bytes.
    rewrite length_app, Pcm.Wave.length_header,
      (length_flat_map_const _ 2) by (intros; apply Pcm.Struct.le_bytes_length).
    rewrite length_all_samples.
    replace (Z.to_nat (qtrunc ((1 # 5) * inject_Z SAMPLE_RATE))) with (Z.to_nat 8820)
      by reflexivity.
    replace (Z.to_nat (qtrunc ((1 # 20) * inject_Z SAMPLE_RATE))) with (Z.to_nat 2205)
      by reflexivity.
    rewrite <- Z2Nat.inj_add by lia. lia.
  - rewrite (create_dtmf_wav_too_long_eq _ _ _ Hlen) in Hc. discriminate.
Qed.

(** C22: the size limit of a RIFF file is the only failure: past
    [2^32 - 36] bytes of samples, [struct.pack('<L')] in the [wave] header
    raises [struct.error]. *)
Theorem create_dtmf_wav_too_long (m : AsciiDigits.pystr) (td sd : Q) :
  2 ^ 32 - 36 <= 2 * Z.of_nat (length (all_samples m td sd)) ->
  create_dtmf_wav m td sd = Raise StructError.
Proof. apply create_dtmf_wav_too_long_eq. Qed.

(** the empty message gives a header-only file: 44 bytes whose data
    chunk declares length 0. *)
Theorem create_dtmf_wav_empty (td sd : Q) :
  create_dtmf_wav [] td sd = Ok (Pcm.Wave.header wav_params 0).
Proof. reflexivity. Qed.

End Properties.

Lemma create_dtmf_wav_decodes_witness :
  2 * Z.of_nat (length (all_samples [65%N] (1 # 100) (1 # 100))) < 2 ^ 32 - 36 /\
  exists bytes frames,
    create_dtmf_wav [65%N] (1 # 100) (1 # 100) = Ok bytes /\
    Pcm.Wave.parse bytes = Some (wav_params, frames) /\
    Pcm.Struct.unpack_samples frames = Some (all_samples [65%N] (1 # 100) (1 # 100)).
Proof.
  assert (H : 2 * Z.of_nat (length (all_samples [65%N] (1 # 100) (1 # 100))) < 2 ^ 32 - 36)
    by (vm_compute; reflexivity).
  split; [exact H|]. exact (create_dtmf_wav_decodes [65%N] (1 # 100) (1 # 100) H).
Defined.

Lemma create_dtmf_wav_default_size_witness :
  exists bytes, create_dtmf_wav_default [65%N] = Ok bytes /\
  Z.of_nat (length bytes) =
    44 + 2 * 11025 * Z.of_nat (length (AsciiDigits.text_to_ascii_digits [65%N])).
Proof.
  assert (Hlen : 2 * Z.of_nat (length (all_samples [65%N] (1 # 5) (1 # 20))) < 2 ^ 32 - 36).
  { rewrite length_all_samples, Nat2Z.inj_mul, Nat2Z.inj_add, !Z2Nat.id
      by (vm_compute; discriminate). vm_compute. reflexivity. }
  eexists. split; [unfold create_dtmf_wav_default; rewrite (create_dtmf_wav_eq _ _ _ Hlen);
    reflexivity|].
  apply create_dtmf_wav_default_size.
  unfold create_dtmf_wav_default; rewrite (create_dtmf_wav_eq _ _ _ Hlen). reflexivity.
Defined.

Lemma create_dtmf_wav_too_long_witness :
  2 ^ 32 - 36 <= 2 * Z.of_nat (length (all_samples [49%N] 100000 0)) /\
  create_dtmf_wav [49%N] 100000 0 = Raise StructError.
Proof.
  assert (H : 2 ^ 32 - 36 <= 2 * Z.of_nat (length (all_samples [49%N] 100000 0))).
  { rewrite length_all_samples, Nat2Z.inj_mul, Nat2Z.inj_add, !Z2Nat.id
      by (vm_compute; discriminate). vm_compute. discriminate. }
  split; [exact H|]. exact (create_dtmf_wav_too_long [49%N] 100000 0 H).
Defined.

End Fixed.

Module Numpy.
Section WithOscillator.
Context `{Oscillator}.

(** [np.zeros(k)]: [ValueError] on a negative count. *)
Definition np_zeros (k : Z) : pyresult (list Q) :=
  if k <? 0 then Raise ValueError else Ok (repeat 0%Q (Z.to_nat k)).

(** One iteration of the loop of lines 53-63: the burst, then the gap. *)
Definition digit_segment (tone_duration silence_duration : Q) (digit : ascii)
    : pyresult (list Q) :=
  pybind (Tone.generate_dtmf_tone_np digit tone_duration SAMPLE_RATE) (fun tone =>
  pybind (np_zeros (qtrunc (silence_duration * inject_Z SAMPLE_RATE))) (fun silence =>
  Ok (tone ++ silence))).

(** The loop: [audio_data = np.concatenate([audio_data, tone, silence])]
    for each digit, from [audio_data = np.array([])]. *)
Fixpoint build_audio (tone_duration silence_duration : Q) (digits : list ascii)
    (audio_data : list Q) : pyresult (list Q) :=
  match digits with
  | [] => Ok audio_data
  | d :: ds =>
      pybind (digit_segment tone_duration silence_duration d) (fun seg =>
      build_audio tone_duration silence_duration ds (audio_data ++ seg))
  end.

(** [astype(np.int16)] of a float: truncation toward zero, wrapped to 16
    bits. *)
Definition wrap16 (z : Z) : Z := (z + 32768) mod 65536 - 32768.
Definition astype_int16 (x : Q) : Z := wrap16 (qtrunc x).

(** Lines 69 and 76: [(audio_data * 32767).astype(np.int16).tobytes()]. *)
Definition to_pcm16 (audio : list Q) : list Z :=
  map (fun x => astype_int16 (x * 32767)) audio.

(** [src/create_dtmf_wav.py], lines 40-80: the bytes of the file. *)
Definition create_dtmf_wav (message : AsciiDigits.pystr) (tone_duration silence_duration : Q)
    : pyresult (list Z) :=
  pybind (build_audio tone_duration silence_duration
            (AsciiDigits.text_to_ascii_digits_np message) []) (fun audio_data =>
  pybind (Tone.np_normalize audio_data) (fun normalized =>
  Pcm.Wave.write wav_params (flat_map (Pcm.Struct.le_bytes 2) (to_pcm16 normalized)))).

(** The same pipeline with the per-burst normalisation only, the variant
    the spec allows (its section 9): the reference for the equivalence
    theorem below. *)
Definition create_dtmf_wav_single (message : AsciiDigits.pystr) (tone_duration silence_duration : Q)
    : pyresult (list Z) :=
  pybind (build_audio tone_duration silence_duration
            (AsciiDigits.text_to_ascii_digits_np message) []) (fun audio_data =>
  Pcm.Wave.write wav_params (flat_map (Pcm.Struct.le_bytes 2) (to_pcm16 audio_data))).

(** ** Lemmas *)

Definition keyed (d : ascii) : Prop := Dtmf.lookup Dtmf.DTMF_TABLE_np d <> None.

(** A produced segment of a keyed digit has samples in [[-1, 1]] and
    reaches the peak 1. *)
Lemma digit_segment_peak td sd d seg :
  keyed d -> digit_segment td sd d = Ok seg ->
  (forall x, In x seg -> Qabs x <= 1)%Q /\ (exists x, In x seg /\ Qabs x == 1)%Q.
Proof.
  unfold digit_segment, keyed. intros Hd Hs. py_simpl. subst seg.
  unfold Tone.generate_dtmf_tone_np in Ha. destruct (_ <? 0); [discriminate|].
  destruct (Dtmf.lookup _ d) as [[lo hi]|]; [|congruence].
  pose proof (Tone.np_normalize_peak _ _ Ha) as [Hpeak Hb].
  apply Tone.np_normalize_Ok in Ha as [Hne [_ Ha]].
  unfold np_zeros in Ha0. destruct (_ <? 0); [discriminate|]. apply Ok_inj in Ha0. subst a0.
  split.
  - intros x Hx. apply in_app_or in Hx as [Hx|Hx].
    + apply max_abs_ge in Hx. lra.
    + apply repeat_spec in Hx. subst x. simpl. lra.
  - destruct (max_abs_attained a) as [x [Hx Hax]].
    { subst a. destruct (map _ _); [contradiction|discriminate]. }
    exists x. split; [apply in_or_app; left; exact Hx|]. lra.
Qed.

(** The loop appends to its accumulator samples of absolute value at most
    1, and one of peak 1 as soon as it has run once. *)
Lemma build_audio_shape td sd ds acc audio :
  Forall keyed ds -> build_audio td sd ds acc = Ok audio ->
  exists segs, audio = acc ++ segs /\ (forall x, In x segs -> Qabs x <= 1)%Q /\
    (ds <> [] -> exists x, In x segs /\ (Qabs x == 1)%Q).
Proof.
  revert acc. induction ds as [|d ds IH]; intros acc Hk Hb; simpl in Hb.
  - apply Ok_inj in Hb. subst. exists []. rewrite app_nil_r. simpl. split; tauto.
  - inversion Hk as [|? ? Hd Hds]; subst. py_simpl.
    destruct (digit_segment_peak td sd d a Hd Ha) as [Hle [x [Hx Hx1]]].
    destruct (IH (acc ++ a) Hds Hb) as [segs [-> [Hle' _]]].
    exists (a ++ segs). split; [symmetry; apply app_assoc|]. split.
    + intros y Hy. apply in_app_or in Hy as [Hy|Hy]; auto.
    + intros _. exists x. split; [apply in_or_app; left|]; assumption.
Qed.

Lemma text_digits_keyed m : Forall keyed (AsciiDigits.text_to_ascii_digits_np m).
Proof.
  apply Forall_forall. intros d Hd. unfold keyed.
  rewrite <- Dtmf.DTMF_TABLE_lookup_same. apply Dtmf.lookup_decimal_digit.
  unfold AsciiDigits.text_to_ascii_digits_np in Hd. apply in_flat_map in Hd as [c [_ Hc]].
  exact (proj1 (Forall_forall _ _) (AsciiDigits.str_of_N_digits c) d Hc).
Qed.



(** The buffer of a message with at least one digit has peak exactly 1. *)
Lemma build_audio_peak td sd m audio :
  AsciiDigits.text_to_ascii_digits_np m <> [] ->
  build_audio td sd (AsciiDigits.text_to_ascii_digits_np m) [] = Ok audio ->
  audio <> [] /\ (max_abs audio == 1)%Q.
Proof.
  intros Hne Hb.
  destruct (build_audio_shape _ _ _ _ _ (text_digits_keyed m) Hb) as [segs [-> [Hle Hex]]].
  destruct (Hex Hne) as [x [Hx Hx1]]. simpl. split; [destruct segs; [destruct Hx|discriminate]|].
  apply Qle_antisym.
  - apply max_abs_le; [lra|exact Hle].
  - apply max_abs_ge in Hx. lra.
Qed.

Lemma to_pcm16_div_1 (audio : list Q) (c : Q) :
  (c == 1)%Q -> to_pcm16 (map (fun x => x / c)%Q audio) = to_pcm16 audio.
Proof.
  intros Hc. unfold to_pcm16. rewrite map_map. apply map_ext. intros x.
  unfold astype_int16. f_equal. apply qtrunc_proper. rewrite Hc. field.
Qed.

Lemma wrap16_small z : (-32768 <= z <= 32767)%Z -> wrap16 z = z.
Proof. intros Hz. unfold wrap16. rewrite Z.mod_small by lia. lia. Qed.

(** ** Theorems *)

(** C28: the second, whole-buffer normalisation of the numpy version is a
    no-op: on every message with at least one digit, the file is the one
    the pipeline with per-burst normalisation only writes (the spec's
    section 9 allows either; in exact arithmetic they coincide). *)
Theorem create_dtmf_wav_double_normalization (m : AsciiDigits.pystr) (td sd : Q) :
  AsciiDigits.text_to_ascii_digits_np m <> [] ->
  create_dtmf_wav m td sd = create_dtmf_wav_single m td sd.
Proof.
  intros Hne. unfold create_dtmf_wav, create_dtmf_wav_single.
  destruct (build_audio td sd _ []) as [audio|e] eqn:Hb; [|reflexivity]. unfold pybind.
  destruct (build_audio_peak td sd m audio Hne Hb) as [Hna Hpeak].
  unfold Tone.np_normalize, np_max_abs. destruct audio as [|x xs]; [contradiction|].
  unfold pybind. destruct (Qeq_bool (max_abs (x :: xs)) 0) eqn:Hz.
  - apply Qeq_bool_iff in Hz. rewrite Hpeak in Hz. discriminate.
  - rewrite (to_pcm16_div_1 (x :: xs) _ Hpeak). reflexivity.
Qed.


(** C17: every sample the numpy version writes lies in [[-32767, 32767]]:
    the [int16] cast never wraps around, and the file is the header
    followed by these samples. *)
Theorem create_dtmf_wav_np_int16 (m : AsciiDigits.pystr) (td sd : Q) (bytes : list Z) :
  create_dtmf_wav m td sd = Ok bytes ->
  exists samples,
    bytes = Pcm.Wave.header wav_params (2 * Z.of_nat (length samples)) ++
            flat_map (Pcm.Struct.le_bytes 2) samples /\
    Forall (fun s => -32767 <= s <= 32767) samples.
Proof.
  unfold create_dtmf_wav. intros Hc. py_simpl.
  pose proof (Tone.np_normalize_peak _ _ Ha0) as [_ Hb].
  apply Pcm.Wave.write_Ok_eq in Hc as [-> _].
  exists (to_pcm16 a0). split.
  - rewrite (length_flat_map_const _ 2) by (intros; apply Pcm.Struct.le_bytes_length).
    f_equal. f_equal. lia.
  - unfold to_pcm16. apply Forall_map. apply Forall_forall. intros x Hx.
    pose proof (proj1 (Forall_forall _ _) Hb x Hx) as Hxb.
    assert (Ht : (-32767 <= qtrunc (x * 32767) <= 32767)%Z).
    { apply (qtrunc_bound _ 32767). unfold inject_Z. cbv beta in Hxb. split; nra. }
    unfold astype_int16. rewrite wrap16_small by lia. exact Ht.
Qed.

End WithOscillator.

Lemma create_dtmf_wav_double_normalization_witness :
  AsciiDigits.text_to_ascii_digits_np [65%N] <> [] /\
  create_dtmf_wav [65%N] (1 # 5) (1 # 20) = create_dtmf_wav_single [65%N] (1 # 5) (1 # 20).
Proof.
  assert (H : AsciiDigits.text_to_ascii_digits_np [65%N] <> []) by (vm_compute; discriminate).
  split; [exact H|]. exact (create_dtmf_wav_double_normalization [65%N] _ _ H).
Defined.


Lemma create_dtmf_wav_np_int16_witness :
  exists bytes, create_dtmf_wav [65%N] (1 # 100) (1 # 1000) = Ok bytes /\
  exists samples,
    bytes = Pcm.Wave.header wav_params (2 * Z.of_nat (length samples)) ++
            flat_map (Pcm.Struct.le_bytes 2) samples /\
    Forall (fun s => -32767 <= s <= 32767) samples.
Proof.
  eexists. split; [vm_compute; reflexivity|].
  apply (create_dtmf_wav_np_int16 [65%N] (1 # 100) (1 # 1000)). vm_compute. reflexivity.
Defined.

End Numpy.
