(* ===== verification/Session.v ===== *)
(** * The web application: routes over a session store

    [src/app.py] keeps, per browser, a Flask [session]: a dictionary whose
    keys [layer_1_unlocked], [layer_2_unlocked], [layer_3_unlocked] gate
    the layers.  Each route is a handler from the session and the request
    to the new session and the response; [run] composes handlers over a
    sequence of requests of one browser, which is how the session cookie
    threads state from one request to the next.

    The session is a [gmap string bool] (only key presence is tested).
    A request carries what [request.json] returns: [None] for a body that
    is not JSON, otherwise the JSON value.  An uncaught exception is the
    response [ServerError] (HTTP 500).  Strings are [String.string]: byte
    strings read as Latin-1 code points, which covers the ASCII secrets.
    MD5 ([hashlib.md5]) is a parameter of the one route that uses it;
    templates and files are named, not rendered or read.

    Theorems: the gating of every resource, the invariant that layer 3
    implies layer 2, the monotonicity of the flags outside [/reset], the
    trace property that the WAV artifact is served only after a correct
    layer-2 answer, the acceptance of a secret padded with whitespace
    ([str.strip()]), and the server error on an answer that is not a
    string.  The refinement of an abstract specification and the
    comparison with the spec's state machine are in [LayerSpec]. *)

From stdpp Require Import base gmap strings.
From Stdlib Require Import ZArith Ascii.
From S2P Require Import Prelude.

#[local] Set Warnings "-register-all".

Module Session.

Inductive jvalue : Type :=
  | JStr (s : string)
  | JNum (z : Z)
  | JBool (b : bool)
  | JNull
  | JArr (l : list jvalue)
  | JObj (fields : list (string * jvalue)).

Record request := mk_request { req_json : option jvalue }.

Inductive response : Type :=
  | Template (name : string)
  | Json (status : Z) (body : list (string * jvalue))
  | SendFile (path download_name mimetype : string)
  | ServerError (e : pyexc).

Inductive route : Type :=
  | Index | Layer1 | GetHashes | SubmitLayer1 | Layer2 | DownloadZip
  | SubmitLayer2 | Layer3 | DownloadWav | SubmitLayer3 | Reset.

(** ** Configuration, lines 11-24 *)

Definition LAYER_1_Y_VALUES : list (string * string) :=
  [("y1", "3728197"); ("y2", "3728224"); ("y3", "3728269")].
Definition LAYER_1_SECRET : string := "3728192".
Definition LAYER_1_FLAG : string := "Kh4an54ar_R1s35".
Definition LAYER_2_FLAG : string := "Salaar_devaratha_raisaar".
Definition LAYER_2_UNLOCK : string := "w4rz0n3_D3v4r4th4".
Definition LAYER_3_FLAG : string := "w4rz0n3{Kh4an54ar_3rup3kk3l4}".
Definition LAYER_3_UNLOCK : string := "CTF{CRYPTOGRAPHY}".

(** [f'CTF{{{LAYER_2_FLAG}}}'] (line 93). *)
Definition LAYER_2_ANSWER : string := "CTF{" +:+ LAYER_2_FLAG +:+ "}".

(** [f'layer_{layer_num}_unlocked'] for a one-digit layer number. *)
Definition layer_key (n : nat) : string :=
  "layer_" +:+ String (ascii_of_nat (48 + n)) EmptyString +:+ "_unlocked".

Definition unlocked (s : gmap string bool) (n : nat) : bool :=
  bool_decide (is_Some (s !! layer_key n)).

(** ** Request parsing: [request.json.get('answer', '').strip()] *)

(** [str.isspace] on the Latin-1 range. *)
Definition py_isspace (c : ascii) : bool :=
  let n := nat_of_ascii c in
  bool_decide (9 <= n <= 13) || bool_decide (28 <= n <= 32) ||
  bool_decide (n = 133) || bool_decide (n = 160).

Fixpoint lstrip (s : string) : string :=
  match s with
  | EmptyString => EmptyString
  | String c s' => if py_isspace c then lstrip s' else s
  end.

Definition string_rev (s : string) : string :=
  Stdlib.Strings.String.string_of_list_ascii (rev (Stdlib.Strings.String.list_ascii_of_string s)).

(** [str.strip()]. *)
Definition py_strip (s : string) : string := string_rev (lstrip (string_rev (lstrip s))).

(** A JSON object as Python's [json] decodes it: a later duplicate key
    wins. *)
Definition obj_get (fields : list (string * jvalue)) (k : string) : option jvalue :=
  fold_left (fun acc '(k', v) => if bool_decide (k = k') then Some v else acc) fields None.

(** [data = request.json; answer = data.get('answer', '').strip()]: a body
    that is not a JSON object ([None.get], [list.get]) or an answer that
    is not a string ([int.strip]) raises [AttributeError]. *)
Definition get_answer (req : request) : pyresult string :=
  match req_json req with
  | Some (JObj fields) =>
      match obj_get fields "answer" with
      | None => Ok (py_strip "")
      | Some (JStr a) => Ok (py_strip a)
      | Some _ => Raise AttributeError
      end
  | _ => Raise AttributeError
  end.

(** ** Handlers, one per route *)

Abbreviation session := (gmap string bool).

(** The [check_layer(n)] decorator, lines 26-34. *)
Definition check_layer (n : nat) (handler : session -> session * response)
    (s : session) : session * response :=
  if unlocked s n then handler s
  else (s, Json 403 [("error", JStr "Previous layer not completed")]).

(** [index], lines 36-38. *)
Definition index (s : session) : session * response := (s, Template "index.html").

(** [layer1], lines 40-43: visiting the page sets the first flag. *)
Definition layer1 (s : session) : session * response :=
  (<[layer_key 1 := true]> s, Template "layer1.html").

(** [get_hashes], lines 45-52, for a given MD5 hex digest function. *)
Definition get_hashes (md5_hex : string -> string) (s : session) : session * response :=
  (s, Json 200 [("y1", JStr (md5_hex "3728197")); ("y2", JStr (md5_hex "3728224"));
                ("y3", JStr (md5_hex "3728269")); ("x_values", JArr [JNum 1; JNum 2; JNum 3])]).

(** [submit_layer1], lines 54-71: no gate. *)
Definition submit_layer1 (req : request) (s : session) : session * response :=
  match get_answer req with
  | Raise e => (s, ServerError e)
  | Ok answer =>
      if bool_decide (answer = LAYER_1_SECRET) then
        (<[layer_key 2 := true]> s,
         Json 200 [("success", JBool true);
                   ("message", JStr "Deva's vault opens! The path to Khansaar awaits...");
                   ("flag", JStr LAYER_1_FLAG); ("next_layer", JStr "/layer2")])
      else (s, Json 200 [("success", JBool false);
                         ("message", JStr "The vault remains sealed. Check your calculations.")])
  end.

(** [layer2] and [download_zip], lines 73-83. *)
Definition layer2 : session -> session * response :=
  check_layer 2 (fun s => (s, Template "layer2.html")).
Definition download_zip : session -> session * response :=
  check_layer 2 (fun s => (s, SendFile "challenges/flag_parts.zip" "flag_parts.zip"
                                       "application/zip")).

(** [submit_layer2], lines 85-105. *)
Definition submit_layer2 (req : request) (s : session) : session * response :=
  if negb (unlocked s 2) then (s, Json 403 [("error", JStr "Layer not unlocked")]) else
  match get_answer req with
  | Raise e => (s, ServerError e)
  | Ok answer =>
      if bool_decide (answer = LAYER_2_ANSWER) then
        (<[layer_key 3 := true]> s,
         Json 200 [("success", JBool true);
                   ("message", JStr "The tribes unite! Devaratha's legacy is revealed...");
                   ("flag", JStr LAYER_2_UNLOCK); ("next_layer", JStr "/layer3")])
      else (s, Json 200 [("success", JBool false);
                         ("message", JStr "The tribal seals remain unbroken. Try again.")])
  end.

(** [layer3] and [download_wav], lines 107-117. *)
Definition layer3 : session -> session * response :=
  check_layer 3 (fun s => (s, Template "layer3.html")).
Definition download_wav : session -> session * response :=
  check_layer 3 (fun s => (s, SendFile "challenges/khansaar_transmission.wav"
                                       "khansaar_transmission.wav" "audio/wav")).

(** [submit_layer3], lines 119-137: no flag is set on success. *)
Definition submit_layer3 (req : request) (s : session) : session * response :=
  if negb (unlocked s 3) then (s, Json 403 [("error", JStr "Layer not unlocked")]) else
  match get_answer req with
  | Raise e => (s, ServerError e)
  | Ok answer =>
      if bool_decide (answer = LAYER_3_UNLOCK) then
        (s, Json 200 [("success", JBool true);
                      ("message", JStr "Khansaar is yours! The throne of Devaratha acknowledges you!");
                      ("final_flag", JStr LAYER_3_FLAG)])
      else (s, Json 200 [("success", JBool false);
                         ("message", JStr "The final transmission is not decoded. Listen carefully.")])
  end.

(** [reset], lines 139-142: [session.clear()]. *)
Definition reset (s : session) : session * response :=
  (∅, Json 200 [("message", JStr "Session reset")]).

(** Route dispatch. *)
Definition handle (md5_hex : string -> string) (r : route) (req : request) (s : session)
    : session * response :=
  match r with
  | Index => index s
  | Layer1 => layer1 s
  | GetHashes => get_hashes md5_hex s
  | SubmitLayer1 => submit_layer1 req s
  | Layer2 => layer2 s
  | DownloadZip => download_zip s
  | SubmitLayer2 => submit_layer2 req s
  | Layer3 => layer3 s
  | DownloadWav => download_wav s
  | SubmitLayer3 => submit_layer3 req s
  | Reset => reset s
  end.

(** A browser's requests in order, the session cookie carried along. *)
Fixpoint run (md5_hex : string -> string) (s : session) (trace : list (route * request))
    : session * list response :=
  match trace with
  | [] => (s, [])
  | (r, req) :: rest =>
      let '(s1, resp) := handle md5_hex r req s in
      let '(s2, resps) := run md5_hex s1 rest in
      (s2, resp :: resps)
  end.

(** ** Lemmas *)

Lemma unlocked_insert (s : session) m n b :
  unlocked (<[layer_key m := b]> s) n =
  if bool_decide (layer_key m = layer_key n) then true else unlocked s n.
Proof.
  destruct (decide (layer_key m = layer_key n)) as [E|E].
  - rewrite (bool_decide_eq_true_2 _ E). unfold unlocked.
    rewrite E, lookup_insert_eq. apply bool_decide_eq_true. eauto.
  - rewrite (bool_decide_eq_false_2 _ E). unfold unlocked.
    rewrite lookup_insert_ne by exact E. reflexivity.
Qed.

Lemma unlocked_empty n : unlocked ∅ n = false.
Proof. unfold unlocked. rewrite lookup_empty. apply bool_decide_eq_false. intros [? H]. discriminate. Qed.

Lemma dom_check_layer n h (s : session) :
  (forall s', fst (h s') = s') -> fst (check_layer n h s) = s.
Proof. intros Hh. unfold check_layer. destruct (unlocked s n); [apply Hh|reflexivity]. Qed.

Lemma fst_run_cons md5_hex s r req rest :
  fst (run md5_hex s ((r, req) :: rest)) = fst (run md5_hex (fst (handle md5_hex r req s)) rest).
Proof.
  simpl. destruct (handle md5_hex r req s) as [s1 resp]. simpl.
  destruct (run md5_hex s1 rest). reflexivity.
Qed.

(** What a handler does to the session. *)
Inductive session_effect (r : route) (req : request) (s : session) : session -> Prop :=
  | eff_same : r <> Reset -> session_effect r req s s
  | eff_layer1 : r = Layer1 -> session_effect r req s (<[layer_key 1 := true]> s)
  | eff_unlock2 : r = SubmitLayer1 -> get_answer req = Ok LAYER_1_SECRET ->
      session_effect r req s (<[layer_key 2 := true]> s)
  | eff_unlock3 : r = SubmitLayer2 -> unlocked s 2 = true ->
      get_answer req = Ok LAYER_2_ANSWER ->
      session_effect r req s (<[layer_key 3 := true]> s)
  | eff_reset : r = Reset -> session_effect r req s ∅.

Lemma handle_effect md5_hex r req s :
  session_effect r req s (fst (handle md5_hex r req s)).
Proof.
  destruct r; simpl;
    unfold layer1, layer2, download_zip, layer3, download_wav, check_layer,
      submit_layer1, submit_layer2, submit_layer3, reset;
    repeat case_match; simpl; subst.
  all: try (apply eff_same; discriminate).
  all: repeat match goal with H : bool_decide _ = true |- _ =>
                apply bool_decide_eq_true in H; subst end.
  - apply eff_layer1; reflexivity.
  - apply eff_unlock2; [reflexivity|assumption].
  - apply eff_unlock3; [reflexivity| |assumption]. apply negb_false_iff. assumption.
  - apply eff_reset; reflexivity.
Qed.

Lemma layer_key_neq m n : m <> n -> m < 10 -> n < 10 -> layer_key m <> layer_key n.
Proof.
  intros Hne Hm Hn E. apply Hne. unfold layer_key in E. simpl in E.
  injection E as E. apply (f_equal nat_of_ascii) in E.
  rewrite !nat_ascii_embedding in E by lia. lia.
Qed.

(** The only ways a handler leaves the third flag set. *)
Lemma handle_unlocked3 md5_hex r req s :
  unlocked (fst (handle md5_hex r req s)) 3 = true ->
  (unlocked s 3 = true /\ r <> Reset) \/
  (r = SubmitLayer2 /\ get_answer req = Ok LAYER_2_ANSWER).
Proof.
  destruct (handle_effect md5_hex r req s) as [Hr | -> | -> Ha | -> H2 Ha | ->]; intros H.
  - left. split; assumption.
  - rewrite unlocked_insert, bool_decide_eq_false_2 in H by (apply layer_key_neq; lia).
    left. split; [exact H|discriminate].
  - rewrite unlocked_insert, bool_decide_eq_false_2 in H by (apply layer_key_neq; lia).
    left. split; [exact H|discriminate].
  - right. split; [reflexivity|exact Ha].
  - rewrite unlocked_empty in H. discriminate.
Qed.

Definition layer3_inv (s : session) : Prop := unlocked s 3 = true -> unlocked s 2 = true.

Lemma handle_layer3_inv md5_hex r req s :
  layer3_inv s -> layer3_inv (fst (handle md5_hex r req s)).
Proof.
  unfold layer3_inv. destruct (handle_effect md5_hex r req s) as [Hr | -> | -> Ha | -> H2 Ha | ->];
    intros Hinv; rewrite ?unlocked_insert.
  - exact Hinv.
  - rewrite !bool_decide_eq_false_2 by (apply layer_key_neq; lia). exact Hinv.
  - intros _. rewrite bool_decide_eq_true_2 by reflexivity. reflexivity.
  - rewrite (bool_decide_eq_false_2 (layer_key 3 = layer_key 2)) by (apply layer_key_neq; lia).
    intros _. exact H2.
  - rewrite !unlocked_empty. discriminate.
Qed.

Lemma run_layer3_inv md5_hex t s :
  layer3_inv s -> layer3_inv (fst (run md5_hex s t)).
Proof.
  revert s. induction t as [|[r req] t IH]; intros s Hs; [exact Hs|].
  rewrite fst_run_cons. apply IH, handle_layer3_inv, Hs.
Qed.

(** [str.strip()] on padded text: leading whitespace goes, a string that
    does not start with whitespace is left as it is. *)
Lemma lstrip_cons c t : lstrip (String c t) = if py_isspace c then lstrip t else String c t.
Proof. reflexivity. Qed.

Lemma lstrip_blank_app pre x :
  forallb py_isspace (Stdlib.Strings.String.list_ascii_of_string pre) = true ->
  lstrip (pre +:+ x) = lstrip x.
Proof.
  induction pre as [|c pre IH]; [reflexivity|]. cbn [Stdlib.Strings.String.list_ascii_of_string forallb].
  intros H. apply andb_prop in H as [Hc H].
  change (String c pre +:+ x) with (String c (pre +:+ x)). rewrite lstrip_cons, Hc.
  exact (IH H).
Qed.

Lemma lstrip_head x post :
  (exists c t, x = String c t /\ py_isspace c = false) -> lstrip (x +:+ post) = x +:+ post.
Proof.
  intros (c & t & -> & Hc). change (String c t +:+ post) with (String c (t +:+ post)).
  rewrite lstrip_cons, Hc. reflexivity.
Qed.

Lemma string_append_empty x : x +:+ "" = x.
Proof. induction x as [|c x IH]; [reflexivity|]. change (String c (x +:+ "") = String c x). congruence. Qed.

Lemma string_rev_app a b : string_rev (a +:+ b) = string_rev b +:+ string_rev a.
Proof.
  unfold string_rev. rewrite list_ascii_of_string_app, rev_app_distr.
  apply string_of_list_ascii_app.
Qed.

Lemma string_rev_involutive x : string_rev (string_rev x) = x.
Proof.
  unfold string_rev. rewrite Stdlib.Strings.String.list_ascii_of_string_of_list_ascii, rev_involutive.
  apply Stdlib.Strings.String.string_of_list_ascii_of_string.
Qed.

Lemma blank_string_rev x :
  forallb py_isspace (Stdlib.Strings.String.list_ascii_of_string x) = true ->
  forallb py_isspace (Stdlib.Strings.String.list_ascii_of_string (string_rev x)) = true.
Proof.
  unfold string_rev. rewrite Stdlib.Strings.String.list_ascii_of_string_of_list_ascii.
  rewrite !forallb_forall. intros H c Hc. apply H. apply in_rev. exact Hc.
Qed.

Lemma obj_get_single k v : obj_get [(k, v)] k = Some v.
Proof. unfold obj_get. cbn. rewrite bool_decide_eq_true_2 by reflexivity. reflexivity. Qed.

(** [str.strip()] removes whitespace padding around a text that neither
    starts nor ends with whitespace. *)
Lemma py_strip_padded pre x post :
  forallb py_isspace (Stdlib.Strings.String.list_ascii_of_string pre) = true ->
  forallb py_isspace (Stdlib.Strings.String.list_ascii_of_string post) = true ->
  (exists c t, x = String c t /\ py_isspace c = false) ->
  (exists c t, string_rev x = String c t /\ py_isspace c = false) ->
  py_strip (pre +:+ (x +:+ post)) = x.
Proof.
  intros Hpre Hpost Hx Hrx. unfold py_strip.
  rewrite lstrip_blank_app by exact Hpre. rewrite lstrip_head by exact Hx.
  rewrite string_rev_app, lstrip_blank_app by (apply blank_string_rev; exact Hpost).
  rewrite <- (string_append_empty (string_rev x)), lstrip_head by exact Hrx.
  rewrite string_append_empty. apply string_rev_involutive.
Qed.

(** ** Theorems *)

(** C21: every file the application serves is gated: the layer-2 ZIP only
    to a session holding [layer_2_unlocked], the layer-3 WAV only to a
    session holding [layer_3_unlocked]. *)
Theorem send_file_gated md5_hex r req s s' path name mime :
  handle md5_hex r req s = (s', SendFile path name mime) ->
  (r = DownloadZip /\ unlocked s 2 = true /\ path = "challenges/flag_parts.zip") \/
  (r = DownloadWav /\ unlocked s 3 = true /\
   path = "challenges/khansaar_transmission.wav").
Proof.
  destruct r; simpl;
    unfold layer1, layer2, download_zip, layer3, download_wav, check_layer, get_hashes,
      submit_layer1, submit_layer2, submit_layer3, reset, index;
    repeat case_match; intros Hh; inversion Hh; subst; auto.
Qed.

Lemma send_file_gated_witness :
  handle (fun x => x) DownloadWav (mk_request None) {[layer_key 3 := true]} =
    ({[layer_key 3 := true]}, SendFile "challenges/khansaar_transmission.wav"
                                "khansaar_transmission.wav" "audio/wav") /\
  ((DownloadWav = DownloadZip /\ unlocked {[layer_key 3 := true]} 2 = true /\
    "challenges/khansaar_transmission.wav" = "challenges/flag_parts.zip") \/
   (DownloadWav = DownloadWav /\ unlocked {[layer_key 3 := true]} 3 = true /\
    "challenges/khansaar_transmission.wav" = "challenges/khansaar_transmission.wav")).
Proof.
  assert (H : handle (fun x => x) DownloadWav (mk_request None) {[layer_key 3 := true]} =
    ({[layer_key 3 := true]}, SendFile "challenges/khansaar_transmission.wav"
                                "khansaar_transmission.wav" "audio/wav")) by reflexivity.
  split; [exact H|]. exact (send_file_gated _ _ _ _ _ _ _ _ H).
Defined.

(** C5: invariant of every session a browser can reach from the empty
    one: holding [layer_3_unlocked] implies holding [layer_2_unlocked]. *)
Theorem run_layer3_implies_layer2 md5_hex (t : list (route * request)) :
  unlocked (fst (run md5_hex ∅ t)) 3 = true -> unlocked (fst (run md5_hex ∅ t)) 2 = true.
Proof.
  apply run_layer3_inv. unfold layer3_inv. rewrite unlocked_empty. discriminate.
Qed.

(** A request whose JSON body is [{"answer": a}]. *)
Definition answer_req (a : string) : request := mk_request (Some (JObj [("answer", JStr a)])).

(** The requests of a player who solves layers 1 and 2. *)
Definition solve_two : list (route * request) :=
  [(SubmitLayer1, answer_req LAYER_1_SECRET); (SubmitLayer2, answer_req LAYER_2_ANSWER)].

Lemma run_layer3_implies_layer2_witness :
  unlocked (fst (run (fun x => x) ∅ solve_two)) 3 = true /\
  unlocked (fst (run (fun x => x) ∅ solve_two)) 2 = true.
Proof.
  assert (H : unlocked (fst (run (fun x => x) ∅ solve_two)) 3 = true) by (vm_compute; reflexivity).
  split; [exact H|]. exact (run_layer3_implies_layer2 _ _ H).
Defined.

Lemma run_layer3_origin md5_hex t s :
  unlocked (fst (run md5_hex s t)) 3 = true ->
  (unlocked s 3 = true /\ Forall (fun x => fst x <> Reset) t) \/
  exists pre req post, t = pre ++ (SubmitLayer2, req) :: post /\
    get_answer req = Ok LAYER_2_ANSWER /\ Forall (fun x => fst x <> Reset) post.
Proof.
  revert s. induction t as [|[r req] t IH]; intros s H; [left; split; [exact H|constructor]|].
  rewrite fst_run_cons in H. destruct (IH _ H) as [[H3 Hf]|[pre [req' [post [-> [Ha Hf]]]]]].
  - destruct (handle_unlocked3 md5_hex r req s H3) as [[Hs Hr]|[-> Ha]].
    + left. split; [exact Hs|]. constructor; assumption.
    + right. exists [], req, t. auto.
  - right. exists ((r, req) :: pre), req', post. auto.
Qed.

(** C4: trace property: if a browser's session, started empty, holds
    [layer_3_unlocked] after a sequence of requests (so that the WAV
    artifact is served), then the sequence contains a layer-2 submission
    whose stripped answer is [CTF{Salaar_devaratha_raisaar}], with no
    [/reset] after it. *)
Theorem run_layer3_requires_layer2_answer md5_hex (t : list (route * request)) :
  unlocked (fst (run md5_hex ∅ t)) 3 = true ->
  exists pre req post, t = pre ++ (SubmitLayer2, req) :: post /\
    get_answer req = Ok LAYER_2_ANSWER /\ Forall (fun x => fst x <> Reset) post.
Proof.
  intros H. destruct (run_layer3_origin md5_hex t ∅ H) as [[H0 _]|Hex]; [|exact Hex].
  rewrite unlocked_empty in H0. discriminate.
Qed.

Lemma run_layer3_requires_layer2_answer_witness :
  unlocked (fst (run (fun x => x) ∅ solve_two)) 3 = true /\
  exists pre req post, solve_two = pre ++ (SubmitLayer2, req) :: post /\
    get_answer req = Ok LAYER_2_ANSWER /\ Forall (fun x => fst x <> Reset) post.
Proof.
  assert (H : unlocked (fst (run (fun x => x) ∅ solve_two)) 3 = true) by (vm_compute; reflexivity).
  split; [exact H|]. exact (run_layer3_requires_layer2_answer _ _ H).
Defined.

(** C37: outside [/reset], no request removes a key from the session:
    every route but [/reset] keeps the unlock flags it finds, so they only
    accumulate. *)
Theorem handle_dom_mono md5_hex r req (s : session) :
  r <> Reset -> dom s ⊆ dom (fst (handle md5_hex r req s)).
Proof.
  intros Hr. destruct (handle_effect md5_hex r req s) as [_ | _ | _ _ | _ _ _ | ->];
    [set_solver|rewrite dom_insert_L; set_solver..|congruence].
Qed.

Lemma handle_dom_mono_witness :
  SubmitLayer1 <> Reset /\
  dom ({[layer_key 1 := true]} : session) ⊆
    dom (fst (handle (fun x => x) SubmitLayer1 (answer_req LAYER_1_SECRET) {[layer_key 1 := true]})).
Proof.
  assert (H : SubmitLayer1 <> Reset) by discriminate.
  split; [exact H|]. exact (handle_dom_mono _ _ _ _ H).
Defined.

(** C31: an answer that is not a JSON string (for example the number
    3728192) makes [submit_layer1] raise [AttributeError] ([int] has no
    [strip]): an HTTP 500, not the handler's failure message. *)
Theorem submit_layer1_non_string md5_hex (s : session) (v : jvalue) :
  (forall a, v <> JStr a) ->
  handle md5_hex SubmitLayer1 (mk_request (Some (JObj [("answer", v)]))) s =
  (s, ServerError AttributeError).
Proof.
  intros Hv. simpl. unfold submit_layer1, get_answer. simpl.
  destruct v; try reflexivity. exfalso. eapply Hv. reflexivity.
Qed.

Lemma submit_layer1_non_string_witness :
  (forall a, JNum 3728192 <> JStr a) /\
  handle (fun x => x) SubmitLayer1 (mk_request (Some (JObj [("answer", JNum 3728192)]))) ∅ =
  (∅, ServerError AttributeError).
Proof.
  assert (H : forall a, JNum 3728192 <> JStr a) by discriminate.
  split; [exact H|]. exact (submit_layer1_non_string _ _ _ H).
Defined.

(** C36: [submit_layer1] compares the answer after [str.strip()]: the
    secret padded with whitespace on either side (spaces, tabs, newlines)
    unlocks layer 2 and returns the layer-1 flag, exactly as the bare
    secret does. *)
Theorem submit_layer1_strips md5_hex (s : session) (pre post : string) :
  forallb py_isspace (Stdlib.Strings.String.list_ascii_of_string pre) = true ->
  forallb py_isspace (Stdlib.Strings.String.list_ascii_of_string post) = true ->
  handle md5_hex SubmitLayer1 (answer_req (pre +:+ (LAYER_1_SECRET +:+ post))) s =
  (<[layer_key 2 := true]> s,
   Json 200 [("success", JBool true);
             ("message", JStr "Deva's vault opens! The path to Khansaar awaits...");
             ("flag", JStr LAYER_1_FLAG); ("next_layer", JStr "/layer2")]).
Proof.
  intros Hpre Hpost. cbn [handle]. unfold submit_layer1, get_answer, answer_req. cbn [req_json].
  rewrite obj_get_single. rewrite py_strip_padded by (assumption || (do 2 eexists; split; reflexivity)).
  rewrite bool_decide_eq_true_2 by reflexivity. reflexivity.
Qed.

Lemma submit_layer1_strips_witness :
  forallb py_isspace (Stdlib.Strings.String.list_ascii_of_string " ") = true /\
  forallb py_isspace (Stdlib.Strings.String.list_ascii_of_string (String "010"%char "")) = true /\
  handle (fun x => x) SubmitLayer1 (answer_req (" " +:+ (LAYER_1_SECRET +:+ String "010"%char "")))
    ∅ =
  (<[layer_key 2 := true]> ∅,
   Json 200 [("success", JBool true);
             ("message", JStr "Deva's vault opens! The path to Khansaar awaits...");
             ("flag", JStr LAYER_1_FLAG); ("next_layer", JStr "/layer2")]).
Proof.
  assert (H1 : forallb py_isspace (Stdlib.Strings.String.list_ascii_of_string " ") = true)
    by reflexivity.
  assert (H2 : forallb py_isspace (Stdlib.Strings.String.list_ascii_of_string (String "010"%char "")) = true)
    by reflexivity.
  split; [exact H1|]. split; [exact H2|]. exact (submit_layer1_strips _ ∅ _ _ H1 H2).
Defined.

End Session.
