(* ===== verification/LayerSpec.v ===== *)
(** * The layer gates as an abstract state machine, and its refinement

    An abstract specification of what [src/app.py] promises about its
    session: three flags, changed only by four events (visiting
    [/layer1], solving layer 1, solving layer 2 while layer 2 is open,
    and [/reset]).  A concrete request is mapped to the event it performs
    ([event_of], a stutter when it performs none) and a session to its
    three flags ([abs]), in the style of a TLA refinement mapping.  The
    theorems: every request is a step of the specification, so every
    request sequence is a run of it; the sessions the code reaches are
    well formed (only the three keys, each [True]), and on them [abs]
    loses nothing; from any session the three correct answers reach the
    final flag.  Last, the spec's own machine ([locked] ... [solved],
    advancing one state per correct answer) is not what the code does. *)

From stdpp Require Import base gmap strings list.
From Stdlib Require Import ZArith Ascii.
From S2P Require Import Prelude Session.

Module LayerSpec.
Import Session.

(** ** The abstract specification *)

Record astate := AState { lvl1 : bool; lvl2 : bool; lvl3 : bool }.

Inductive aevent := Visit1 | Solve1 | Solve2 | Clear.

Definition ainit : astate := AState false false false.

(** One step; [None] is a stutter. *)
Inductive astep : option aevent -> astate -> astate -> Prop :=
  | astep_stutter a : astep None a a
  | astep_visit1 a : astep (Some Visit1) a (AState true (lvl2 a) (lvl3 a))
  | astep_solve1 a : astep (Some Solve1) a (AState (lvl1 a) true (lvl3 a))
  | astep_solve2 a : lvl2 a = true -> astep (Some Solve2) a (AState (lvl1 a) true true)
  | astep_clear a : astep (Some Clear) a ainit.

(** Runs of the specification, labelled by their events. *)
Inductive areach : astate -> list (option aevent) -> astate -> Prop :=
  | areach_nil a : areach a [] a
  | areach_cons a e a1 es a2 : astep e a a1 -> areach a1 es a2 -> areach a (e :: es) a2.

(** ** The refinement mapping *)

(** The three flags of a session. *)
Definition abs (s : session) : astate := AState (unlocked s 1) (unlocked s 2) (unlocked s 3).

(** Whether the stripped answer of a request is [secret]. *)
Definition answer_is (req : request) (secret : string) : bool :=
  match get_answer req with Ok a => bool_decide (a = secret) | Raise _ => false end.

(** The event a request performs on a session. *)
Definition event_of (r : route) (req : request) (s : session) : option aevent :=
  match r with
  | Layer1 => Some Visit1
  | SubmitLayer1 => if answer_is req LAYER_1_SECRET then Some Solve1 else None
  | SubmitLayer2 => if unlocked s 2 && answer_is req LAYER_2_ANSWER then Some Solve2 else None
  | Reset => Some Clear
  | _ => None
  end.

Fixpoint events_of (md5_hex : string -> string) (s : session) (t : list (route * request))
    : list (option aevent) :=
  match t with
  | [] => []
  | (r, req) :: rest => event_of r req s :: events_of md5_hex (fst (handle md5_hex r req s)) rest
  end.

(** The keys the application writes, and well-formed sessions: only
    those keys, each bound to [True]. *)
Definition layer_keys : list string := [layer_key 1; layer_key 2; layer_key 3].

Definition session_wf (s : session) : Prop :=
  map_Forall (fun k v => v = true /\ k ∈ layer_keys) s.

(** ** Lemmas *)

Lemma abs_empty : abs ∅ = ainit.
Proof. unfold abs. rewrite !unlocked_empty. reflexivity. Qed.

Lemma abs_insert1 s : abs (<[layer_key 1 := true]> s) = AState true (unlocked s 2) (unlocked s 3).
Proof. unfold abs. rewrite !unlocked_insert. reflexivity. Qed.

Lemma abs_insert2 s : abs (<[layer_key 2 := true]> s) = AState (unlocked s 1) true (unlocked s 3).
Proof. unfold abs. rewrite !unlocked_insert. reflexivity. Qed.

Lemma abs_insert3 s : abs (<[layer_key 3 := true]> s) = AState (unlocked s 1) (unlocked s 2) true.
Proof. unfold abs. rewrite !unlocked_insert. reflexivity. Qed.

#[export] Hint Rewrite abs_empty abs_insert1 abs_insert2 abs_insert3 : salaar_rw.

Lemma session_wf_insert s n : n ∈ [1; 2; 3] -> session_wf s ->
  session_wf (<[layer_key n := true]> s).
Proof.
  intros Hn Hs. apply map_Forall_insert_2; [|exact Hs]. split; [reflexivity|].
  unfold layer_keys. rewrite !elem_of_cons, elem_of_nil in Hn.
  destruct Hn as [->|[->|[->|[]]]]; set_solver.
Qed.

Lemma handle_wf md5_hex r req s : session_wf s -> session_wf (fst (handle md5_hex r req s)).
Proof.
  intros Hs.
  destruct r; simpl;
    unfold layer1, layer2, download_zip, layer3, download_wav, check_layer, get_hashes,
      submit_layer1, submit_layer2, submit_layer3, reset, index;
    repeat case_match; simpl;
    first [exact Hs | apply map_Forall_empty | apply session_wf_insert; [set_solver|exact Hs]].
Qed.

Lemma run_wf_from md5_hex t s : session_wf s -> session_wf (fst (run md5_hex s t)).
Proof.
  revert s. induction t as [|[r req] t IH]; intros s Hs; [exact Hs|].
  rewrite fst_run_cons. apply IH, handle_wf, Hs.
Qed.

(** A well-formed session is determined by its keys' presence. *)
Lemma session_wf_lookup s k v : session_wf s -> s !! k = Some v ->
  v = true /\ exists n, n ∈ [1; 2; 3] /\ k = layer_key n /\ unlocked s n = true.
Proof.
  intros Hs Hk. destruct (Hs k v Hk) as [-> Hin]. split; [reflexivity|].
  unfold layer_keys in Hin. rewrite !elem_of_cons, elem_of_nil in Hin.
  unfold unlocked.
  destruct Hin as [->|[->|[->|[]]]]; [exists 1|exists 2|exists 3];
    (split; [set_solver|split; [reflexivity|]]);
    apply bool_decide_eq_true; rewrite Hk; eauto.
Qed.

Lemma abs_unlocked s1 s2 n : abs s1 = abs s2 -> n ∈ [1; 2; 3] -> unlocked s1 n = unlocked s2 n.
Proof.
  intros H Hn. unfold abs in H. injection H as H1 H2 H3.
  rewrite !elem_of_cons, elem_of_nil in Hn. destruct Hn as [->|[->|[->|[]]]]; assumption.
Qed.

Lemma unlocked_Some s n : unlocked s n = true -> is_Some (s !! layer_key n).
Proof. unfold unlocked. apply bool_decide_eq_true. Qed.

(** On well-formed sessions the abstraction is injective. *)
Lemma abs_injective_wf s1 s2 : session_wf s1 -> session_wf s2 -> abs s1 = abs s2 -> s1 = s2.
Proof.
  intros W1 W2 H. apply map_eq. intros k.
  destruct (s1 !! k) as [v|] eqn:E1, (s2 !! k) as [v'|] eqn:E2; [| | |reflexivity].
  - apply (session_wf_lookup _ _ _ W1) in E1 as [-> _].
    apply (session_wf_lookup _ _ _ W2) in E2 as [-> _]. reflexivity.
  - apply (session_wf_lookup _ _ _ W1) in E1 as [_ [n [Hn [-> Hu]]]].
    rewrite (abs_unlocked _ _ _ H Hn) in Hu. apply unlocked_Some in Hu.
    rewrite E2 in Hu. destruct Hu; discriminate.
  - apply (session_wf_lookup _ _ _ W2) in E2 as [_ [n [Hn [-> Hu]]]].
    rewrite <- (abs_unlocked _ _ _ H Hn) in Hu. apply unlocked_Some in Hu.
    rewrite E1 in Hu. destruct Hu; discriminate.
Qed.

(** ** The spec's machine (spec.md, section 4.3) *)

Inductive spec_state := Locked | Layer1Unlocked | Layer2Unlocked | Layer3Unlocked | Solved.

Definition spec_next (q : spec_state) : option spec_state :=
  match q with
  | Locked => Some Layer1Unlocked
  | Layer1Unlocked => Some Layer2Unlocked
  | Layer2Unlocked => Some Layer3Unlocked
  | Layer3Unlocked => Some Solved
  | Solved => None
  end.

(** Monotone, one state at a time. *)
Inductive spec_step : spec_state -> spec_state -> Prop :=
  | spec_stay q : spec_step q q
  | spec_advance q q' : spec_next q = Some q' -> spec_step q q'.

(** The furthest layer a session has open. *)
Definition level (s : session) : spec_state :=
  if unlocked s 3 then Layer3Unlocked
  else if unlocked s 2 then Layer2Unlocked
  else if unlocked s 1 then Layer1Unlocked
  else Locked.

(** A player who answers all three layers. *)
Definition solve_all : list (route * request) :=
  [(SubmitLayer1, answer_req LAYER_1_SECRET); (SubmitLayer2, answer_req LAYER_2_ANSWER);
   (SubmitLayer3, answer_req LAYER_3_UNLOCK)].

Definition final_response : response :=
  Json 200 [("success", JBool true);
            ("message", JStr "Khansaar is yours! The throne of Devaratha acknowledges you!");
            ("final_flag", JStr LAYER_3_FLAG)].

Lemma submit1_correct md5_hex s :
  fst (handle md5_hex SubmitLayer1 (answer_req LAYER_1_SECRET) s) = <[layer_key 2 := true]> s.
Proof. reflexivity. Qed.

Lemma submit2_correct md5_hex s : unlocked s 2 = true ->
  fst (handle md5_hex SubmitLayer2 (answer_req LAYER_2_ANSWER) s) = <[layer_key 3 := true]> s.
Proof. intros H. simpl. unfold submit_layer2. rewrite H. reflexivity. Qed.

Lemma submit3_correct md5_hex s : unlocked s 3 = true ->
  handle md5_hex SubmitLayer3 (answer_req LAYER_3_UNLOCK) s = (s, final_response).
Proof. intros H. simpl. unfold submit_layer3. rewrite H. reflexivity. Qed.

Lemma unlocked_insert_same s n : unlocked (<[layer_key n := true]> s) n = true.
Proof. rewrite unlocked_insert, bool_decide_eq_true_2 by reflexivity. reflexivity. Qed.

Lemma run_cons md5_hex s r req rest :
  run md5_hex s ((r, req) :: rest) =
  (fst (run md5_hex (fst (handle md5_hex r req s)) rest),
   snd (handle md5_hex r req s) :: snd (run md5_hex (fst (handle md5_hex r req s)) rest)).
Proof.
  simpl. destruct (handle md5_hex r req s) as [s1 resp]. simpl.
  destruct (run md5_hex s1 rest). reflexivity.
Qed.

Lemma submit3_keeps md5_hex req s : fst (handle md5_hex SubmitLayer3 req s) = s.
Proof. simpl. unfold submit_layer3. repeat case_match; reflexivity. Qed.

Lemma spec_step_inv q q' : spec_step q q' -> q = q' \/ spec_next q = Some q'.
Proof. intros []; auto. Qed.

(** ** Theorems *)

(** C11: refinement: every sequence of requests on any session is a run
    of the abstract specification, labelled by the events the requests
    perform: the flags only change by visiting [/layer1], by a correct
    layer-1 answer, by a correct layer-2 answer while layer 2 is open, and
    by [/reset]. *)
Theorem run_refines md5_hex (s : session) (t : list (route * request)) :
  areach (abs s) (events_of md5_hex s t) (abs (fst (run md5_hex s t))).
Proof.
  revert s. induction t as [|[r req] t IH]; intros s; [constructor|].
  rewrite fst_run_cons. econstructor; [|apply IH].
  destruct r; simpl;
    unfold layer1, layer2, download_zip, layer3, download_wav, check_layer, get_hashes,
      submit_layer1, submit_layer2, submit_layer3, reset, index;
    try (destruct (unlocked s _); constructor).
  all: autorewrite with salaar_rw; try constructor.
  - unfold answer_is. destruct (get_answer req) as [a|e]; [|constructor].
    destruct (bool_decide (a = LAYER_1_SECRET)); simpl; autorewrite with salaar_rw;
      constructor.
  - destruct (unlocked s 2) eqn:U2; simpl; [|constructor].
    unfold answer_is. destruct (get_answer req) as [a|e]; [|constructor].
    destruct (bool_decide (a = LAYER_2_ANSWER)); simpl; autorewrite with salaar_rw;
      [|constructor].
    rewrite U2. exact (astep_solve2 (abs s) U2).
  - repeat case_match; constructor.
Qed.

(** C12: the sessions a browser reaches from the empty one hold only the
    keys [layer_1_unlocked], [layer_2_unlocked], [layer_3_unlocked], each
    bound to [True]; and two such sessions with the same flags are equal,
    so the abstraction [abs] of the refinement loses nothing. *)
Theorem run_session_wf md5_hex (t t' : list (route * request)) :
  session_wf (fst (run md5_hex ∅ t)) /\
  (abs (fst (run md5_hex ∅ t)) = abs (fst (run md5_hex ∅ t')) ->
   fst (run md5_hex ∅ t) = fst (run md5_hex ∅ t')).
Proof.
  assert (Hw : forall u, session_wf (fst (run md5_hex ∅ u)))
    by (intros u; apply run_wf_from, map_Forall_empty).
  split; [apply Hw|]. apply abs_injective_wf; apply Hw.
Qed.

Lemma run_session_wf_witness :
  abs (fst (run (fun x => x) ∅ [(Layer1, mk_request None)])) =
    abs (fst (run (fun x => x) ∅ [(Layer1, mk_request None); (Layer1, mk_request None)])) /\
  fst (run (fun x => x) ∅ [(Layer1, mk_request None)]) =
    fst (run (fun x => x) ∅ [(Layer1, mk_request None); (Layer1, mk_request None)]).
Proof.
  assert (H : abs (fst (run (fun x => x) ∅ [(Layer1, mk_request None)])) =
    abs (fst (run (fun x => x) ∅ [(Layer1, mk_request None); (Layer1, mk_request None)])))
    by (vm_compute; reflexivity).
  split; [exact H|]. exact (proj2 (run_session_wf _ _ _) H).
Defined.

(** C13: liveness: from any session, whatever it holds, the three
    correct answers submitted in order are accepted, and the third
    response carries the final flag. *)
Theorem solve_all_from_any_session md5_hex (s : session) :
  last (snd (run md5_hex s solve_all)) = Some final_response /\
  unlocked (fst (run md5_hex s solve_all)) 3 = true.
Proof.
  unfold solve_all. rewrite run_cons, submit1_correct.
  rewrite run_cons, submit2_correct by apply unlocked_insert_same.
  rewrite run_cons, submit3_correct by apply unlocked_insert_same.
  split; [reflexivity|apply unlocked_insert_same].
Qed.

(** C14: the code does not implement the spec's machine [locked] ->
    [layer1_unlocked] -> ... -> [solved] that advances one state per
    correct answer and never goes back: one correct layer-1 answer takes
    a fresh session from [locked] to layer 2 (layer 1 is skipped);
    [/reset] takes a solved session back to [locked]; and no request
    records [solved], since [submit_layer3] never changes the session. *)
Theorem code_diverges_from_spec_machine md5_hex :
  ~ spec_step (level ∅) (level (fst (handle md5_hex SubmitLayer1 (answer_req LAYER_1_SECRET) ∅))) /\
  ~ spec_step (level (fst (run md5_hex ∅ solve_all)))
              (level (fst (handle md5_hex Reset (mk_request None) (fst (run md5_hex ∅ solve_all))))) /\
  (forall req s, fst (handle md5_hex SubmitLayer3 req s) = s).
Proof.
  split; [|split; [|apply submit3_keeps]]; intros H%spec_step_inv; vm_compute in H;
    destruct H as [H|H]; discriminate H.
Qed.
End LayerSpec.
