(* ===== verification/ZipChallenge.v ===== *)
(** * The layer-2 generator: [src/create_zip_challenge.py]

    [split_flag] (lines 15-29) cuts the flag into [parts] consecutive
    slices, the first [len(flag) % parts] of them one character longer;
    [main] (lines 49-100) writes each slice to a file, zips it into
    [challenges/flag_parts/flagNN.zip], removes the file, and collects the
    fourteen ZIPs into [challenges/flag_parts.zip].

    Python's [//] and [%] are floor division and modulo, [Z.div] and
    [Z.modulo]; a slice [flag[start:end]] follows Python's clamping.  The
    file system is a map from paths to entries: a text, an archive (a
    list of member names and contents) or a directory.  [os.makedirs]
    (line 54) makes the missing directories and tolerates existing ones;
    [open(p, 'w')] and [ZipFile(p, 'w')] need the parent directory and
    refuse a directory at [p]; [zf.write] reads the file from the map
    ([FileNotFoundError] when it is missing); compression is not
    modelled.  [create_small_zip] (lines 31-47), which [main] never
    calls, is modelled with the [str.replace] and [os.path.basename] it
    applies to its temporary file name.

    Theorems: the slices concatenate back to the flag, there are [parts]
    of them with the announced lengths, [parts = 0] raises, and [main]
    (where its directories can be made) leaves a master archive whose
    members, read in order, spell the flag, while a file named
    [challenges] or [challenges/flag_parts] makes it raise;
    [create_small_zip] ignores its password and deletes any earlier
    [temp_flag.txt]; the replacement scan stops within [len(s)] steps. *)

From stdpp Require Import base gmap strings list.
From Stdlib Require Import ZArith Ascii Lia.
From S2P Require Import Prelude.

#[local] Set Warnings "-register-all".

Module ZipChallenge.

(** [flag[start:stop]] for integer bounds, as Python normalises them. *)
Definition py_index (n i : Z) : Z :=
  if (i <? 0)%Z then Z.max 0 (n + i) else Z.min i n.

Definition py_slice {A} (l : list A) (start stop : Z) : list A :=
  let n := Z.of_nat (length l) in
  let a := py_index n start in
  let b := py_index n stop in
  take (Z.to_nat (b - a)) (drop (Z.to_nat a) l).

(** The loop of lines 23-27, [start] threaded through the iterations
    [i, i+1, ...]; [k] is the number of iterations left. *)
Fixpoint split_loop {A} (flag : list A) (chunk_size remainder : Z) (i : Z) (k : nat)
    (start : Z) : list (list A) :=
  match k with
  | O => []
  | S k' =>
      let stop := (start + chunk_size + (if (i <? remainder)%Z then 1 else 0))%Z in
      py_slice flag start stop :: split_loop flag chunk_size remainder (i + 1) k' stop
  end.

(** [split_flag(flag, parts)]: [ZeroDivisionError] when [parts] is 0; the
    loop runs [range(parts)] times. *)
Definition split_flag {A} (flag : list A) (parts : Z) : pyresult (list (list A)) :=
  if (parts =? 0)%Z then Raise ZeroDivisionError else
  let n := Z.of_nat (length flag) in
  Ok (split_loop flag (n / parts) (n mod parts) 0 (Z.to_nat parts) 0).

(** [FLAG], line 12, as its characters. *)
Definition FLAG : list ascii :=
  Stdlib.Strings.String.list_ascii_of_string "CTF{Salaar_devaratha_raisaar}".

(** The iterations [i, i+1, ..., i+k-1] of the loop. *)
Fixpoint zrange (i : Z) (k : nat) : list Z :=
  match k with O => [] | S k' => i :: zrange (i + 1) k' end.

(** ** Strings and paths *)

(** The characters of a string after [k] characters. *)
Fixpoint str_drop (k : nat) (s : string) : string :=
  match k, s with
  | O, _ => s
  | S k', EmptyString => EmptyString
  | S k', String _ s' => str_drop k' s'
  end.

(** [s.replace(old, new)] for a non-empty [old]: occurrences replaced
    left to right, without overlap.  [n] bounds the characters still to
    scan; [String.length s] is enough ([py_replace_go_fuel]). *)
Fixpoint py_replace_go (n : nat) (old new s : string) : string :=
  match n with
  | O => s
  | S n' =>
      match s with
      | EmptyString => EmptyString
      | String c s' =>
          if Stdlib.Strings.String.prefix old s
          then new +:+ py_replace_go n' old new (str_drop (String.length old) s)
          else String c (py_replace_go n' old new s')
      end
  end.

Definition py_replace (old new s : string) : string :=
  py_replace_go (String.length s) old new s.

(** [os.path.basename(p)]: what follows the last ['/']. *)
Fixpoint basename_go (s acc : string) : string :=
  match s with
  | EmptyString => acc
  | String c s' =>
      if Ascii.eqb c "/" then basename_go s' EmptyString
      else basename_go s' (acc +:+ String c EmptyString)
  end.

Definition py_basename (p : string) : string := basename_go p EmptyString.

(** What follows the last ['/'] of a reversed path: the reversed head. *)
Fixpoint drop_to_slash (l : list ascii) : list ascii :=
  match l with
  | [] => []
  | c :: l' => if Ascii.eqb c "/" then l' else drop_to_slash l'
  end.

(** [os.path.dirname(p)]: what precedes the last ['/'], for a path
    without repeated slashes ([posixpath] strips repeated trailing ones). *)
Definition py_dirname (p : string) : string :=
  Stdlib.Strings.String.string_of_list_ascii
    (rev (drop_to_slash (rev (Stdlib.Strings.String.list_ascii_of_string p)))).

(** ** The file system of [main] *)

(** An entry: a text file, a ZIP archive with its members in order, a
    binary file (bytes as integers of [[0, 255]]) or a directory.  A path
    names its entry directly; its parent directory is the entry at
    [os.path.dirname] of the path. *)
Inductive fsentry : Type :=
  | Text (content : list ascii)
  | Archive (members : list (string * fsentry))
  | Binary (data : list Z)
  | Dir.

Abbreviation files := (gmap string fsentry).

Definition digit_char (d : Z) : ascii := ascii_of_nat (48 + Z.to_nat d).
Arguments digit_char : simpl never.

(** [f'{i:02d}'] for [0 <= i < 100]. *)
Definition fmt02 (i : Z) : string :=
  String (digit_char (i / 10)) (String (digit_char (i mod 10)) EmptyString).

Definition flag_filename (i : Z) : string := "flag" +:+ fmt02 i.
Definition part_path (i : Z) : string := "challenges/flag_parts/" +:+ flag_filename i.
Definition zip_name (i : Z) : string := "challenges/flag_parts/" +:+ flag_filename i +:+ ".zip".
Definition master_member (i : Z) : string := "flag_parts/" +:+ flag_filename i +:+ ".zip".
Definition MASTER : string := "challenges/flag_parts.zip".

Definition is_dir (e : option fsentry) : bool :=
  match e with Some Dir => true | _ => false end.

(** The parent of a new entry must be a directory (the current one when
    the path has no ['/']). *)
Definition check_parent (fs : files) (p : string) : pyresult unit :=
  let d := py_dirname p in
  if bool_decide (d = EmptyString) then Ok tt else
  match fs !! d with
  | Some Dir => Ok tt
  | Some _ => Raise NotADirectoryError
  | None => Raise FileNotFoundError
  end.

(** [open(p, 'w')], and [zipfile.ZipFile(p, 'w')] which opens [p] the same
    way: [p] now holds [e]. *)
Definition open_w (fs : files) (p : string) (e : fsentry) : pyresult files :=
  pybind (check_parent fs p) (fun _ =>
  if is_dir (fs !! p) then Raise IsADirectoryError else Ok (<[p := e]> fs)).

(** [os.mkdir(p)]. *)
Definition mkdir (fs : files) (p : string) : pyresult files :=
  match fs !! p with
  | Some _ => Raise FileExistsError
  | None => pybind (check_parent fs p) (fun _ => Ok (<[p := Dir]> fs))
  end.

(** [try: os.mkdir(name) except OSError: if not path.isdir(name): raise]. *)
Definition mkdir_exist_ok (fs : files) (name : string) : pyresult files :=
  match mkdir fs name with
  | Raise e => if is_dir (fs !! name) then Ok fs else Raise e
  | r => r
  end.

(** [os.makedirs(name, exist_ok=True)]: make the missing head first (a
    [FileExistsError] there is ignored), then [mkdir(name)], whose error is
    ignored when [name] is a directory ([mkdir_exist_ok]).  [n] bounds the depth of the
    recursion; the length of [name] is enough, as every head is shorter. *)
Fixpoint makedirs_go (n : nat) (fs : files) (name : string) : pyresult files :=
  let head := py_dirname name in
  let made :=
    match n with
    | S n' =>
        if bool_decide (head <> EmptyString) && bool_decide (py_basename name <> EmptyString) &&
           bool_decide (fs !! head = None)
        then match makedirs_go n' fs head with Raise FileExistsError => Ok fs | r => r end
        else Ok fs
    | O => Ok fs
    end in
  pybind made (fun fs1 => mkdir_exist_ok fs1 name).

Definition makedirs (fs : files) (name : string) : pyresult files :=
  makedirs_go (String.length name) fs name.

(** [zf.write(src, arcname)]: the member [arcname] with the contents of
    the file [src]. *)
Definition zip_member (fs : files) (src arcname : string) : pyresult (string * fsentry) :=
  match fs !! src with
  | Some e => Ok (arcname, e)
  | None => Raise FileNotFoundError
  end.

(** [os.remove(p)]. *)
Definition remove (fs : files) (p : string) : pyresult files :=
  match fs !! p with
  | Some Dir => Raise IsADirectoryError
  | Some _ => Ok (delete p fs)
  | None => Raise FileNotFoundError
  end.

(** One iteration of lines 61-78: write the part, open its archive, zip
    the part into it (the archive is written when the [with] block
    closes), remove the part. *)
Definition make_part (fs : files) (i : Z) (part : list ascii) : pyresult files :=
  pybind (open_w fs (part_path i) (Text part)) (fun fs1 =>
  pybind (open_w fs1 (zip_name i) (Archive [])) (fun fs2 =>
  pybind (zip_member fs2 (part_path i) (flag_filename i)) (fun m =>
  remove (<[zip_name i := Archive [m]]> fs2) (part_path i)))).

(** The loop [for i, part in enumerate(parts)]. *)
Fixpoint make_parts (fs : files) (i : Z) (parts : list (list ascii)) : pyresult files :=
  match parts with
  | [] => Ok fs
  | p :: ps => pybind (make_part fs i p) (fun fs' => make_parts fs' (i + 1) ps)
  end.

(** Lines 82-85: open the master archive, then
    [master_zip.write(f'challenges/{zip_name}', zip_name)] for
    [i in range(14)]. *)
Definition make_master (fs : files) : pyresult files :=
  pybind (open_w fs MASTER (Archive [])) (fun fs1 =>
  pybind (pysequence (map (fun i => zip_member fs1 ("challenges/" +:+ master_member i)
                                                 (master_member i)) (zrange 0 14)))
  (fun members => Ok (<[MASTER := Archive members]> fs1))).

Definition PARTS_DIR : string := "challenges/flag_parts".

(** [main], lines 49-100, on the file system it starts from. *)
Definition main (fs : files) : pyresult files :=
  pybind (makedirs fs PARTS_DIR) (fun fs0 =>
  pybind (split_flag FLAG 14) (fun parts =>
  pybind (make_parts fs0 0 parts) make_master)).

(** Where [main] can run: [challenges] and [challenges/flag_parts] are
    directories or absent, and no path it writes is a directory. *)
Definition dir_or_absent (e : option fsentry) : bool :=
  match e with None | Some Dir => true | _ => false end.

Definition main_pre (fs : files) : bool :=
  dir_or_absent (fs !! "challenges") && dir_or_absent (fs !! PARTS_DIR) &&
  negb (is_dir (fs !! MASTER)) &&
  forallb (fun i => negb (is_dir (fs !! part_path i)) && negb (is_dir (fs !! zip_name i)))
    (zrange 0 14).

(** What a solver reads back: the text of the single member of each
    archive of the master archive, in order. *)
Definition inner_text (e : fsentry) : option (list ascii) :=
  match e with
  | Archive [(_, Text c)] => Some c
  | _ => None
  end.

Fixpoint extract_members (ms : list (string * fsentry)) : option (list ascii) :=
  match ms with
  | [] => Some []
  | (_, e) :: ms' =>
      match inner_text e, extract_members ms' with
      | Some c, Some rest => Some (c ++ rest)
      | _, _ => None
      end
  end.

Definition extract_master (e : fsentry) : option (list ascii) :=
  match e with
  | Archive ms => extract_members ms
  | _ => None
  end.

(** ** [create_small_zip], lines 31-47 *)

(** [if password:] on [None] or a string. *)
Definition py_truthy (password : option string) : bool :=
  match password with Some (String _ _) => true | _ => false end.

Definition TEMP_FILE : string := "temp_flag.txt".

(** Write [content] to [temp_flag.txt]; [zipfile.ZipFile(filename, 'w')]
    creates or truncates the archive; [setpassword] only sets the
    password used to read encrypted members, so both branches write the
    same member; then [os.remove(temp_file)]. *)
Definition create_small_zip (fs : files) (content : list ascii) (filename : string)
    (password : option string) : pyresult files :=
  pybind (open_w fs TEMP_FILE (Text content)) (fun fs1 =>
  pybind (open_w fs1 filename (Archive [])) (fun fs2 =>
  let arcname := py_basename (py_replace ".txt" "" TEMP_FILE) in
  pybind (if py_truthy password then zip_member fs2 TEMP_FILE arcname
          else zip_member fs2 TEMP_FILE arcname) (fun m =>
  remove (<[filename := Archive [m]]> fs2) TEMP_FILE))).

(** ** Lemmas on slices *)

Lemma py_slice_nonneg {A} (l : list A) a b :
  (0 <= a <= b)%Z -> (b <= Z.of_nat (length l))%Z ->
  py_slice l a b = take (Z.to_nat (b - a)) (drop (Z.to_nat a) l).
Proof.
  intros Hab Hb. unfold py_slice, py_index.
  destruct (Z.ltb_spec a 0); [lia|]. destruct (Z.ltb_spec b 0); [lia|].
  rewrite !Z.min_l by lia. reflexivity.
Qed.

Lemma py_slice_app {A} (l : list A) a b c :
  (0 <= a <= b)%Z -> (b <= c)%Z -> (c <= Z.of_nat (length l))%Z ->
  py_slice l a b ++ py_slice l b c = py_slice l a c.
Proof.
  intros Hab Hbc Hc. rewrite !py_slice_nonneg by lia.
  replace (Z.to_nat (c - a)) with (Z.to_nat (b - a) + Z.to_nat (c - b))%nat by lia.
  rewrite <- take_take_drop, drop_drop. do 3 f_equal. lia.
Qed.

Lemma py_slice_length {A} (l : list A) a b :
  (0 <= a <= b)%Z -> (b <= Z.of_nat (length l))%Z -> length (py_slice l a b) = Z.to_nat (b - a).
Proof.
  intros Hab Hb. rewrite py_slice_nonneg by lia. rewrite length_take, length_drop. lia.
Qed.

Lemma py_slice_all {A} (l : list A) : py_slice l 0 (Z.of_nat (length l)) = l.
Proof.
  rewrite py_slice_nonneg by lia. rewrite drop_0, Z.sub_0_r, Nat2Z.id. apply take_ge. lia.
Qed.

Lemma py_slice_empty {A} (l : list A) a :
  (0 <= a <= Z.of_nat (length l))%Z -> py_slice l a a = [].
Proof. intros H. rewrite py_slice_nonneg by lia. rewrite Z.sub_diag. reflexivity. Qed.

(** How many of the iterations [i .. i+k-1] get the extra character. *)
Definition extra (i : Z) (k : nat) (r : Z) : Z := Z.max 0 (Z.min (i + Z.of_nat k) r - i).

Lemma extra_S i k r : (0 <= i)%Z ->
  extra i (S k) r = ((if (i <? r)%Z then 1 else 0) + extra (i + 1) k r)%Z.
Proof. intros Hi. unfold extra. destruct (Z.ltb_spec i r); lia. Qed.

Lemma split_loop_concat {A} (l : list A) cs r i k s :
  (0 <= i)%Z -> (0 <= cs)%Z -> (0 <= s)%Z ->
  (s + Z.of_nat k * cs + extra i k r <= Z.of_nat (length l))%Z ->
  concat (split_loop l cs r i k s) = py_slice l s (s + Z.of_nat k * cs + extra i k r).
Proof.
  revert i s. induction k as [|k IH]; intros i s Hi Hcs Hs Hle; simpl split_loop.
  - assert (E : extra i 0 r = 0%Z) by (unfold extra; lia). rewrite E in *.
    replace (s + Z.of_nat 0 * cs + 0)%Z with s in * by lia.
    symmetry. apply py_slice_empty. lia.
  - rewrite extra_S in * by exact Hi. simpl concat.
    assert (Hb : (0 <= (if (i <? r)%Z then 1 else 0) <= 1)%Z) by (destruct (i <? r)%Z; lia).
    assert (He : (0 <= extra (i + 1) k r)%Z) by (unfold extra; lia).
    rewrite IH by lia. rewrite py_slice_app by lia. f_equal. lia.
Qed.

(** One slice per iteration of [range(parts)]. *)
Lemma split_loop_length {A} (l : list A) cs r i k s : length (split_loop l cs r i k s) = k.
Proof. revert i s. induction k as [|k IH]; intros i s; simpl; [reflexivity | rewrite IH; reflexivity]. Qed.

Lemma split_loop_lengths {A} (l : list A) cs r i k s :
  (0 <= i)%Z -> (0 <= cs)%Z -> (0 <= s)%Z ->
  (s + Z.of_nat k * cs + extra i k r <= Z.of_nat (length l))%Z ->
  map length (split_loop l cs r i k s) =
  map (fun j => Z.to_nat (cs + if (j <? r)%Z then 1 else 0)) (zrange i k).
Proof.
  revert i s. induction k as [|k IH]; intros i s Hi Hcs Hs Hle; [reflexivity|].
  rewrite extra_S in Hle by exact Hi. simpl split_loop. simpl map.
  assert (Hb : (0 <= (if (i <? r)%Z then 1 else 0) <= 1)%Z) by (destruct (i <? r)%Z; lia).
  assert (He : (0 <= extra (i + 1) k r)%Z) by (unfold extra; lia).
  rewrite py_slice_length, IH by lia. f_equal. f_equal. lia.
Qed.

(** The facts about [//] and [%] the loop relies on. *)
Lemma split_arith (n parts : Z) : (0 < parts)%Z -> (0 <= n)%Z ->
  (0 <= n / parts)%Z /\ (0 + Z.of_nat (Z.to_nat parts) * (n / parts) +
   extra 0 (Z.to_nat parts) (n mod parts) = n)%Z.
Proof.
  intros Hp Hn. pose proof (Z.mod_pos_bound n parts Hp). pose proof (Z.div_mod n parts).
  split; [apply Z.div_pos; lia|]. unfold extra. rewrite Z2Nat.id by lia. nia.
Qed.

(** ** Lemmas on the file system *)

Lemma digit_char_inj a b :
  (0 <= a < 10)%Z -> (0 <= b < 10)%Z -> digit_char a = digit_char b -> a = b.
Proof.
  intros Ha Hb E. apply (f_equal nat_of_ascii) in E. unfold digit_char in E.
  rewrite !nat_ascii_embedding in E by lia. lia.
Qed.

Lemma fmt02_inj a b : (0 <= a < 100)%Z -> (0 <= b < 100)%Z -> fmt02 a = fmt02 b -> a = b.
Proof.
  intros Ha Hb E. unfold fmt02 in E. injection E as E1 E2.
  apply digit_char_inj in E1; [|split; [apply Z.div_pos|apply Z.div_lt_upper_bound]; lia..].
  apply digit_char_inj in E2; [|apply Z.mod_pos_bound; lia..].
  rewrite (Z.div_mod a 10), (Z.div_mod b 10) by lia. lia.
Qed.

Lemma zip_name_part_path a b : zip_name a <> part_path b.
Proof. unfold zip_name, part_path, flag_filename, fmt02. simpl. discriminate. Qed.

Lemma part_path_zip_name a b : part_path a <> zip_name b.
Proof. intros E. symmetry in E. exact (zip_name_part_path b a E). Qed.

Lemma zip_name_inj a b :
  (0 <= a < 100)%Z -> (0 <= b < 100)%Z -> zip_name a = zip_name b -> a = b.
Proof.
  intros Ha Hb E. apply fmt02_inj; [assumption..|].
  unfold zip_name, flag_filename, fmt02 in *. simpl in E. injection E. intros. congruence.
Qed.

Lemma part_path_inj a b :
  (0 <= a < 100)%Z -> (0 <= b < 100)%Z -> part_path a = part_path b -> a = b.
Proof.
  intros Ha Hb E. apply fmt02_inj; [assumption..|].
  unfold part_path, flag_filename, fmt02 in *. simpl in E. injection E. intros. congruence.
Qed.

(** The effect of one iteration and of the loop on the file system. *)
Definition part_effect (fs : files) (i : Z) (p : list ascii) : files :=
  delete (part_path i)
    (<[zip_name i := Archive [(flag_filename i, Text p)]]> (<[part_path i := Text p]> fs)).

Fixpoint parts_effect (fs : files) (i : Z) (ps : list (list ascii)) : files :=
  match ps with
  | [] => fs
  | p :: ps' => parts_effect (part_effect fs i p) (i + 1) ps'
  end.

(** *** Paths *)

Lemma digit_char_not_slash d : (0 <= d < 10)%Z -> digit_char d <> "/"%char.
Proof.
  intros Hd. unfold digit_char. assert (Hn : (Z.to_nat d < 10)%nat) by lia.
  generalize (Z.to_nat d) Hn. clear. intros n Hn.
  do 10 (destruct n as [|n]; [intros E; vm_compute in E; discriminate E|]). lia.
Qed.

Lemma drop_to_slash_app l r : ~ In "/"%char l -> drop_to_slash (l ++ "/"%char :: r) = r.
Proof.
  induction l as [|c l IH]; intros H; [reflexivity|]. cbn [app drop_to_slash].
  destruct (Ascii.eqb_spec c "/") as [->|_]; [destruct H; left; reflexivity|].
  apply IH. intros Hin. apply H. right. exact Hin.
Qed.

(** The directory of [d/f] is [d] when [f] has no ['/']. *)
Lemma dirname_app d f :
  ~ In "/"%char (Stdlib.Strings.String.list_ascii_of_string f) -> py_dirname (d +:+ String "/" f) = d.
Proof.
  intros H. unfold py_dirname. rewrite list_ascii_of_string_app. cbn [Stdlib.Strings.String.list_ascii_of_string].
  rewrite rev_app_distr. cbn [rev]. rewrite <- app_assoc. cbn [app].
  rewrite drop_to_slash_app by (rewrite <- in_rev; exact H).
  rewrite rev_involutive. apply Stdlib.Strings.String.string_of_list_ascii_of_string.
Qed.

Lemma flag_filename_no_slash i : (0 <= i < 100)%Z ->
  ~ In "/"%char (Stdlib.Strings.String.list_ascii_of_string (flag_filename i)).
Proof.
  intros Hi. cbn. intros [E|[E|[E|[E|[E|[E|[]]]]]]]; try discriminate E;
    revert E; apply digit_char_not_slash;
    solve [split; [apply Z.div_pos|apply Z.div_lt_upper_bound]; lia | apply Z.mod_pos_bound; lia].
Qed.

Lemma dirname_part_path i : (0 <= i < 100)%Z -> py_dirname (part_path i) = PARTS_DIR.
Proof.
  intros Hi. change (part_path i) with (PARTS_DIR +:+ String "/" (flag_filename i)).
  apply dirname_app, flag_filename_no_slash, Hi.
Qed.

Lemma dirname_zip_name i : (0 <= i < 100)%Z -> py_dirname (zip_name i) = PARTS_DIR.
Proof.
  intros Hi. change (zip_name i) with (PARTS_DIR +:+ String "/" (flag_filename i +:+ ".zip")).
  apply dirname_app. rewrite list_ascii_of_string_app, in_app_iff.
  intros [E|E]; [exact (flag_filename_no_slash i Hi E)|].
  cbn in E. intuition discriminate.
Qed.

Lemma PARTS_DIR_part_path i : PARTS_DIR <> part_path i.
Proof. unfold PARTS_DIR, part_path. simpl. discriminate. Qed.

Lemma PARTS_DIR_zip_name i : PARTS_DIR <> zip_name i.
Proof. unfold PARTS_DIR, zip_name. simpl. discriminate. Qed.

Lemma challenges_part_path i : "challenges" <> part_path i.
Proof. unfold part_path. simpl. discriminate. Qed.

Lemma challenges_zip_name i : "challenges" <> zip_name i.
Proof. unfold zip_name. simpl. discriminate. Qed.

Lemma MASTER_part_path i : MASTER <> part_path i.
Proof. unfold MASTER, part_path, flag_filename, fmt02. simpl. discriminate. Qed.

Lemma MASTER_zip_name i : MASTER <> zip_name i.
Proof. unfold MASTER, zip_name, flag_filename, fmt02. simpl. discriminate. Qed.

(** Two distinct paths of [main]. *)
Ltac path_neq_base :=
  lazymatch goal with
  | |- PARTS_DIR <> part_path _ => apply PARTS_DIR_part_path
  | |- PARTS_DIR <> zip_name _ => apply PARTS_DIR_zip_name
  | |- "challenges" <> part_path _ => apply challenges_part_path
  | |- "challenges" <> zip_name _ => apply challenges_zip_name
  | |- MASTER <> zip_name _ => apply MASTER_zip_name
  | |- MASTER <> part_path _ => apply MASTER_part_path
  | |- zip_name _ <> part_path _ => apply zip_name_part_path
  | |- part_path _ <> zip_name _ => apply part_path_zip_name
  end.
Ltac path_neq :=
  first [ path_neq_base | apply not_eq_sym; path_neq_base
        | lazymatch goal with |- ?a <> ?b => is_ground a; is_ground b; discriminate end ].

(** *** Opening, creating and removing *)

Lemma check_parent_Ok fs p d :
  py_dirname p = d -> d <> EmptyString -> fs !! d = Some Dir -> check_parent fs p = Ok tt.
Proof.
  intros <- Hd H. unfold check_parent. rewrite bool_decide_eq_false_2 by exact Hd.
  rewrite H. reflexivity.
Qed.

Lemma open_w_Ok fs p e :
  check_parent fs p = Ok tt -> is_dir (fs !! p) = false -> open_w fs p e = Ok (<[p := e]> fs).
Proof. intros Hc Hd. unfold open_w. rewrite Hc. cbn [pybind]. rewrite Hd. reflexivity. Qed.

Lemma check_parent_insert fs p q e :
  check_parent fs p = Ok tt -> is_dir (fs !! q) = false -> check_parent (<[q := e]> fs) p = Ok tt.
Proof.
  unfold check_parent. case_bool_decide; [reflexivity|].
  destruct (decide (q = py_dirname p)) as [<-|Hne].
  - destruct (fs !! q) as [[]|]; discriminate.
  - rewrite lookup_insert_ne by exact Hne. tauto.
Qed.

Lemma makedirs_go_top n fs name :
  py_dirname name = EmptyString -> makedirs_go n fs name = mkdir_exist_ok fs name.
Proof. intros H. destruct n; cbn [makedirs_go]; try rewrite H; reflexivity. Qed.

Lemma makedirs_go_step n fs name head :
  py_dirname name = head -> head <> EmptyString -> py_basename name <> EmptyString ->
  makedirs_go (S n) fs name =
  pybind (if bool_decide (fs !! head = None)
          then match makedirs_go n fs head with Raise FileExistsError => Ok fs | r => r end
          else Ok fs)
    (fun fs1 => mkdir_exist_ok fs1 name).
Proof.
  intros <- Hh Hb. cbn [makedirs_go].
  rewrite (bool_decide_eq_true_2 (py_dirname name <> EmptyString)) by exact Hh.
  rewrite (bool_decide_eq_true_2 (py_basename name <> EmptyString)) by exact Hb.
  reflexivity.
Qed.

(** [os.makedirs('challenges/flag_parts', exist_ok=True)] unfolded to its
    two [mkdir] calls. *)
Ltac unfold_makedirs_parts fs :=
  unfold makedirs; change (String.length PARTS_DIR) with 21%nat;
  rewrite (makedirs_go_step 20 fs PARTS_DIR "challenges") by (reflexivity || discriminate);
  rewrite makedirs_go_top by reflexivity;
  unfold mkdir_exist_ok, mkdir, check_parent;
  rewrite (bool_decide_eq_true_2 (EmptyString = EmptyString)) by reflexivity;
  rewrite (bool_decide_eq_false_2 ("challenges" = EmptyString)) by discriminate.

(** The directories [main] makes (line 54). *)
Lemma makedirs_parts_dir fs :
  dir_or_absent (fs !! "challenges") = true -> dir_or_absent (fs !! PARTS_DIR) = true ->
  makedirs fs PARTS_DIR = Ok (<[PARTS_DIR := Dir]> (<["challenges" := Dir]> fs)).
Proof.
  intros H1 H2. unfold_makedirs_parts fs. unfold dir_or_absent in H1, H2.
  destruct (fs !! "challenges") as [[]|] eqn:E1; try discriminate H1;
    destruct (fs !! PARTS_DIR) as [[]|] eqn:E2; try discriminate H2; cbn [pybind];
    repeat first [case_bool_decide | progress simplify_map_eq | case_match]; try congruence;
    f_equal; apply map_eq; intros k;
    destruct (decide (k = PARTS_DIR)), (decide (k = "challenges")); simplify_map_eq; done.
Qed.

(** [os.makedirs(name, exist_ok=True)] of a name with no ['/']: one
    [mkdir] in the current directory. *)
Lemma makedirs_top fs name :
  py_dirname name = EmptyString -> dir_or_absent (fs !! name) = true ->
  makedirs fs name = Ok (<[name := Dir]> fs).
Proof.
  intros Hd Hn. unfold makedirs. rewrite makedirs_go_top by exact Hd.
  unfold mkdir_exist_ok, mkdir, check_parent, dir_or_absent in *.
  destruct (fs !! name) as [[]|] eqn:E; try discriminate Hn.
  - cbn. rewrite insert_id by exact E. reflexivity.
  - rewrite Hd, (bool_decide_eq_true_2 (EmptyString = EmptyString)) by reflexivity. reflexivity.
Qed.

(** The two ways a file in the way makes line 54 fail. *)
Lemma makedirs_blocked fs e :
  e <> Dir ->
  (fs !! "challenges" = Some e -> fs !! PARTS_DIR = None ->
   makedirs fs PARTS_DIR = Raise NotADirectoryError) /\
  (dir_or_absent (fs !! "challenges") = true -> fs !! PARTS_DIR = Some e ->
   makedirs fs PARTS_DIR = Raise FileExistsError).
Proof.
  intros He. unfold_makedirs_parts fs. split.
  - intros H1 H2. cbn [pybind].
    repeat first [case_bool_decide | progress simplify_map_eq | case_match]; congruence.
  - intros H1 H2. unfold dir_or_absent in H1.
    destruct (fs !! "challenges") as [[]|] eqn:E1; try discriminate H1; cbn [pybind];
      repeat first [case_bool_decide | progress simplify_map_eq | case_match]; congruence.
Qed.

Lemma make_part_eq fs i p :
  (0 <= i < 100)%Z -> fs !! PARTS_DIR = Some Dir ->
  is_dir (fs !! part_path i) = false -> is_dir (fs !! zip_name i) = false ->
  make_part fs i p = Ok (part_effect fs i p).
Proof.
  intros Hi Hd Hp Hz. unfold make_part.
  rewrite open_w_Ok by (eauto using check_parent_Ok, dirname_part_path; discriminate).
  cbn [pybind]. rewrite open_w_Ok.
  2: { apply (check_parent_Ok _ _ PARTS_DIR); [apply dirname_zip_name, Hi|discriminate|].
       rewrite lookup_insert_ne by path_neq. exact Hd. }
  2: { rewrite lookup_insert_ne by path_neq. exact Hz. }
  cbn [pybind]. unfold zip_member. rewrite lookup_insert_ne by path_neq.
  rewrite lookup_insert_eq. cbn [pybind]. unfold remove.
  rewrite !lookup_insert_ne by path_neq. rewrite lookup_insert_eq.
  unfold part_effect. rewrite insert_insert_eq. reflexivity.
Qed.

(** The loop runs when its directory exists and none of its paths is a
    directory. *)
Lemma make_parts_eq fs i ps :
  (0 <= i)%Z -> (i + Z.of_nat (length ps) <= 100)%Z -> fs !! PARTS_DIR = Some Dir ->
  (forall j, (i <= j < i + Z.of_nat (length ps))%Z ->
     is_dir (fs !! part_path j) = false /\ is_dir (fs !! zip_name j) = false) ->
  make_parts fs i ps = Ok (parts_effect fs i ps).
Proof.
  revert fs i. induction ps as [|p ps IH]; intros fs i Hi Hl Hd Hj; [reflexivity|].
  cbn [length] in *. destruct (Hj i ltac:(lia)) as [Hp Hz]. cbn [make_parts parts_effect].
  rewrite make_part_eq by (assumption || lia). cbn [pybind]. apply IH; [lia|lia| |].
  - unfold part_effect. rewrite lookup_delete_ne, !lookup_insert_ne by path_neq. exact Hd.
  - intros j Hj'. unfold part_effect.
    assert (Hpi : part_path i <> part_path j) by (intros E; apply part_path_inj in E; lia).
    assert (Hzi : zip_name i <> zip_name j) by (intros E; apply zip_name_inj in E; lia).
    destruct (Hj j ltac:(lia)) as [Hpj Hzj]. split.
    + rewrite lookup_delete_ne, !lookup_insert_ne by (exact Hpi || path_neq). exact Hpj.
    + rewrite lookup_delete_ne, !lookup_insert_ne by (exact Hzi || path_neq). exact Hzj.
Qed.

(** A path the iterations [i ..] do not write keeps its contents. *)
Lemma parts_effect_other fs i ps k :
  (forall j, (i <= j < i + Z.of_nat (length ps))%Z -> k <> zip_name j /\ k <> part_path j) ->
  parts_effect fs i ps !! k = fs !! k.
Proof.
  revert fs i. induction ps as [|p ps IH]; intros fs i H; [reflexivity|]. cbn [parts_effect].
  rewrite IH by (intros j Hj; apply H; simpl length; lia).
  destruct (H i ltac:(simpl length; lia)) as [Hz Hp]. unfold part_effect.
  rewrite lookup_delete_ne, !lookup_insert_ne by congruence. reflexivity.
Qed.

Lemma parts_effect_zip fs i ps j p :
  (0 <= i)%Z -> (i + Z.of_nat (length ps) <= 100)%Z -> (i <= j)%Z ->
  ps !! Z.to_nat (j - i) = Some p ->
  parts_effect fs i ps !! zip_name j = Some (Archive [(flag_filename j, Text p)]).
Proof.
  revert fs i. induction ps as [|q ps IH]; intros fs i Hi Hlen Hj Hp; [discriminate|].
  simpl in Hlen. destruct (Z.eq_dec j i) as [->|Hne].
  - rewrite Z.sub_diag in Hp. simpl in Hp. injection Hp as ->. cbn [parts_effect].
    rewrite parts_effect_other.
    + unfold part_effect. rewrite lookup_delete_ne by (apply part_path_zip_name).
      apply lookup_insert_eq.
    + intros k Hk. split; [intros E; apply zip_name_inj in E; lia|apply zip_name_part_path].
  - cbn [parts_effect]. apply IH; [lia|lia|lia|].
    replace (Z.to_nat (j - (i + 1))) with (pred (Z.to_nat (j - i))) by lia.
    destruct (Z.to_nat (j - i)) eqn:E; [lia|]. exact Hp.
Qed.

Lemma parts_effect_part_path fs i ps j :
  (0 <= i)%Z -> (i + Z.of_nat (length ps) <= 100)%Z -> (i <= j < i + Z.of_nat (length ps))%Z ->
  parts_effect fs i ps !! part_path j = None.
Proof.
  revert fs i. induction ps as [|q ps IH]; intros fs i Hi Hlen Hj; cbn [parts_effect length] in *; [lia|].
  destruct (Z.eq_dec j i) as [->|Hne].
  - rewrite parts_effect_other.
    + unfold part_effect. apply lookup_delete_eq.
    + intros j Hj'. split; [apply part_path_zip_name|].
      intros E; apply part_path_inj in E; lia.
  - apply IH; lia.
Qed.

Lemma in_zrange i k j : In j (zrange i k) <-> (i <= j < i + Z.of_nat k)%Z.
Proof.
  revert i. induction k as [|k IH]; intros i; simpl; [lia|].
  rewrite IH. lia.
Qed.

Lemma master_member_path i : "challenges/" +:+ master_member i = zip_name i.
Proof. reflexivity. Qed.

Lemma make_master_eq (fs : files) (e : Z -> fsentry) :
  fs !! "challenges" = Some Dir -> is_dir (fs !! MASTER) = false ->
  (forall i, (0 <= i < 14)%Z -> fs !! zip_name i = Some (e i)) ->
  make_master fs =
  Ok (<[MASTER := Archive (map (fun i => (master_member i, e i)) (zrange 0 14))]> fs).
Proof.
  intros Hc Hm He. unfold make_master.
  rewrite open_w_Ok by (exact Hm || exact (check_parent_Ok fs MASTER "challenges" eq_refl
                                                          ltac:(discriminate) Hc)).
  cbn [pybind]. rewrite (pysequence_map_Ok _ (fun i => (master_member i, e i))).
  - cbn [pybind]. rewrite insert_insert_eq. reflexivity.
  - intros i Hi. apply in_zrange in Hi. unfold zip_member.
    rewrite master_member_path, lookup_insert_ne, He by (lia || path_neq).
    reflexivity.
Qed.

(** The fourteen chunks of [FLAG]. *)
Definition FLAG_parts : list (list ascii) :=
  match split_flag FLAG 14 with Ok c => c | Raise _ => [] end.

Lemma split_FLAG : split_flag FLAG 14 = Ok FLAG_parts.
Proof. vm_compute. reflexivity. Qed.

(** The master archive [main] writes after the fourteen parts. *)
Definition master_entry : fsentry :=
  Archive (map (fun i => (master_member i,
                          Archive [(flag_filename i, Text (default [] (FLAG_parts !! Z.to_nat i)))]))
               (zrange 0 14)).

(** The directories [main] starts from, after line 54. *)
Definition made_dirs (fs : files) : files := <[PARTS_DIR := Dir]> (<["challenges" := Dir]> fs).

Lemma made_dirs_other fs k : k <> PARTS_DIR -> k <> "challenges" -> made_dirs fs !! k = fs !! k.
Proof. intros H1 H2. unfold made_dirs. rewrite !lookup_insert_ne by congruence. reflexivity. Qed.

(** What [main_pre] says, path by path. *)
Lemma main_pre_spec fs :
  main_pre fs = true ->
  dir_or_absent (fs !! "challenges") = true /\ dir_or_absent (fs !! PARTS_DIR) = true /\
  is_dir (fs !! MASTER) = false /\
  forall i, (0 <= i < 14)%Z -> is_dir (fs !! part_path i) = false /\ is_dir (fs !! zip_name i) = false.
Proof.
  unfold main_pre. intros H.
  apply andb_prop in H as [H Hf]. apply andb_prop in H as [H Hm].
  apply andb_prop in H as [Hc Hd]. rewrite negb_true_iff in Hm.
  do 3 (split; [assumption|]). intros i Hi.
  pose proof (proj1 (forallb_forall _ _) Hf i (proj2 (in_zrange 0 14 i) ltac:(simpl; lia))) as Hi'.
  apply andb_prop in Hi' as [Hp Hz]. rewrite negb_true_iff in Hp, Hz. split; assumption.
Qed.

Lemma make_master_parts fs :
  main_pre fs = true ->
  make_master (parts_effect (made_dirs fs) 0 FLAG_parts) =
  Ok (<[MASTER := master_entry]> (parts_effect (made_dirs fs) 0 FLAG_parts)).
Proof.
  intros Hpre. apply main_pre_spec in Hpre as (_ & _ & Hm & _).
  assert (Hl : length FLAG_parts = 14%nat) by (vm_compute; reflexivity).
  assert (Hnot : forall k, (forall j, k <> zip_name j /\ k <> part_path j) ->
                 parts_effect (made_dirs fs) 0 FLAG_parts !! k = made_dirs fs !! k)
    by (intros k Hk; apply parts_effect_other; intros j _; apply Hk).
  apply make_master_eq.
  - rewrite Hnot by (intros j; split; [apply challenges_zip_name|apply challenges_part_path]).
    unfold made_dirs. rewrite lookup_insert_ne by discriminate. apply lookup_insert_eq.
  - rewrite Hnot by (intros j; split; [apply MASTER_zip_name|apply MASTER_part_path]).
    rewrite made_dirs_other by discriminate. exact Hm.
  - intros i Hi. apply parts_effect_zip; [lia|rewrite Hl; lia|lia|].
    rewrite Z.sub_0_r. destruct (FLAG_parts !! Z.to_nat i) eqn:E; [reflexivity|].
    apply lookup_ge_None in E. rewrite Hl in E. lia.
Qed.

(** The loop of [main] on the directories it made. *)
Lemma make_parts_made_dirs fs :
  main_pre fs = true ->
  make_parts (made_dirs fs) 0 FLAG_parts = Ok (parts_effect (made_dirs fs) 0 FLAG_parts).
Proof.
  intros Hpre. apply main_pre_spec in Hpre as (_ & _ & _ & Hp).
  assert (Hl : length FLAG_parts = 14%nat) by (vm_compute; reflexivity).
  apply make_parts_eq; rewrite ?Hl; [lia|lia| |].
  - unfold made_dirs. apply lookup_insert_eq.
  - intros j Hj. rewrite !made_dirs_other by path_neq. apply Hp. simpl in Hj. lia.
Qed.

(** What [main] leaves at a path it does not write. *)
Lemma main_effect_other fs k :
  k <> MASTER -> k <> PARTS_DIR -> k <> "challenges" ->
  (forall j, k <> zip_name j /\ k <> part_path j) ->
  (<[MASTER := master_entry]> (parts_effect (made_dirs fs) 0 FLAG_parts)) !! k = fs !! k.
Proof.
  intros Hm Hp Hc Hj. rewrite lookup_insert_ne by congruence.
  rewrite parts_effect_other by (intros j _; apply Hj). apply made_dirs_other; assumption.
Qed.

Lemma main_effect_challenges fs :
  (<[MASTER := master_entry]> (parts_effect (made_dirs fs) 0 FLAG_parts)) !! "challenges" = Some Dir.
Proof.
  rewrite lookup_insert_ne by discriminate.
  rewrite parts_effect_other by (intros j _; split; path_neq).
  unfold made_dirs. rewrite lookup_insert_ne by discriminate. apply lookup_insert_eq.
Qed.

(** [main] from a file system where it can run. *)
Lemma main_eq fs :
  main_pre fs = true ->
  main fs = Ok (<[MASTER := master_entry]> (parts_effect (made_dirs fs) 0 FLAG_parts)).
Proof.
  intros Hpre. pose proof (main_pre_spec fs Hpre) as (H1 & H2 & _).
  unfold main. rewrite makedirs_parts_dir by assumption. fold (made_dirs fs). cbn [pybind].
  rewrite split_FLAG. cbn [pybind]. rewrite make_parts_made_dirs by exact Hpre.
  apply make_master_parts, Hpre.
Qed.

(** ** Lemmas on [create_small_zip] *)

Lemma str_drop_length k s : String.length (str_drop k s) = String.length s - k.
Proof. revert s. induction k as [|k IH]; intros [|c s]; simpl; rewrite ?IH; lia. Qed.

Lemma py_replace_go_fuel_gen old new : old <> EmptyString ->
  forall n m s, String.length s <= n -> String.length s <= m ->
  py_replace_go n old new s = py_replace_go m old new s.
Proof.
  intros Hold. induction n as [|n IH]; intros m s Hn Hm.
  - destruct s; [destruct m; reflexivity|simpl in Hn; lia].
  - destruct m as [|m]; [destruct s; [reflexivity|simpl in Hm; lia]|].
    destruct s as [|c s']; [reflexivity|]. cbn [py_replace_go].
    destruct (Stdlib.Strings.String.prefix old (String c s')); f_equal; apply IH;
      rewrite ?str_drop_length; simpl in *;
      destruct old; solve [congruence | simpl; lia].
Qed.

Lemma temp_arcname : py_basename (py_replace ".txt" "" TEMP_FILE) = "temp_flag".
Proof. reflexivity. Qed.

(** ** Theorems *)

(** C6: round trip of [split_flag]: for a positive number of parts, it
    returns exactly [parts] slices, and they concatenate back to the flag
    (nothing lost, nothing repeated). *)
Theorem split_flag_concat {A} (flag : list A) (parts : Z) (chunks : list (list A)) :
  (0 < parts)%Z -> split_flag flag parts = Ok chunks ->
  concat chunks = flag /\ length chunks = Z.to_nat parts.
Proof.
  intros Hp. unfold split_flag. destruct (Z.eqb_spec parts 0); [lia|].
  intros H. apply Ok_inj in H. subst chunks. split; [|apply split_loop_length].
  destruct (split_arith (Z.of_nat (length flag)) parts Hp ltac:(lia)) as [Hcs Hn].
  rewrite split_loop_concat by lia. rewrite Hn. apply py_slice_all.
Qed.

Lemma split_flag_concat_witness :
  (0 < 14)%Z /\ split_flag FLAG 14 = Ok (match split_flag FLAG 14 with Ok c => c | _ => [] end) /\
  concat (match split_flag FLAG 14 with Ok c => c | _ => [] end) = FLAG /\
  length (match split_flag FLAG 14 with Ok c => c | _ => [] end) = 14%nat.
Proof.
  assert (H : split_flag FLAG 14 = Ok (match split_flag FLAG 14 with Ok c => c | _ => [] end))
    by (vm_compute; reflexivity).
  split; [lia|]. split; [exact H|]. exact (split_flag_concat FLAG 14 _ ltac:(lia) H).
Defined.

(** C30: [split_flag] makes exactly [parts] slices; slice [j] has
    [len(flag) // parts] characters, plus one when [j < len(flag) % parts]. *)
Theorem split_flag_lengths {A} (flag : list A) (parts : Z) (chunks : list (list A)) :
  (0 < parts)%Z -> split_flag flag parts = Ok chunks ->
  map length chunks =
  map (fun j => Z.to_nat (Z.of_nat (length flag) / parts +
                          if (j <? Z.of_nat (length flag) mod parts)%Z then 1 else 0))
      (zrange 0 (Z.to_nat parts)).
Proof.
  intros Hp. unfold split_flag. destruct (Z.eqb_spec parts 0); [lia|].
  intros H. apply Ok_inj in H. subst chunks.
  destruct (split_arith (Z.of_nat (length flag)) parts Hp ltac:(lia)) as [Hcs Hn].
  apply split_loop_lengths; lia.
Qed.

Lemma split_flag_lengths_witness :
  (0 < 14)%Z /\ split_flag FLAG 14 = Ok (match split_flag FLAG 14 with Ok c => c | _ => [] end) /\
  map length (match split_flag FLAG 14 with Ok c => c | _ => [] end) =
  [3; 2; 2; 2; 2; 2; 2; 2; 2; 2; 2; 2; 2; 2].
Proof.
  assert (H : split_flag FLAG 14 = Ok (match split_flag FLAG 14 with Ok c => c | _ => [] end))
    by (vm_compute; reflexivity).
  split; [lia|]. split; [exact H|].
  rewrite (split_flag_lengths FLAG 14 (match split_flag FLAG 14 with Ok c => c | _ => [] end)
    ltac:(lia) H). vm_compute. reflexivity.
Defined.

(** [split_flag] with [parts = 0] raises [ZeroDivisionError]
    ([len(flag) // 0]). *)
Theorem split_flag_zero {A} (flag : list A) : split_flag flag 0 = Raise ZeroDivisionError.
Proof. reflexivity. Qed.

(** C7: from a file system where [challenges] and
    [challenges/flag_parts] are directories or absent and no path [main]
    writes is a directory, [main] succeeds; it leaves the master archive
    [challenges/flag_parts.zip], whose fourteen member archives, read in
    order, hold texts that concatenate to [FLAG], and it leaves no part
    text file behind. *)
Theorem main_master_spells_flag (fs : files) :
  main_pre fs = true ->
  exists fs', main fs = Ok fs' /\
    (fs' !! MASTER ≫= extract_master) = Some FLAG /\
    (forall i, (0 <= i < 14)%Z -> fs' !! part_path i = None).
Proof.
  intros Hpre. rewrite main_eq by exact Hpre.
  eexists. split; [reflexivity|]. split.
  - rewrite lookup_insert_eq. vm_compute. reflexivity.
  - intros i Hi. rewrite lookup_insert_ne by path_neq.
    apply parts_effect_part_path; simpl; lia.
Qed.

Lemma main_master_spells_flag_witness :
  main_pre (<["challenges" := Dir]> ∅) = true /\
  exists fs', main (<["challenges" := Dir]> ∅) = Ok fs' /\
    (fs' !! MASTER ≫= extract_master) = Some FLAG /\
    (forall i, (0 <= i < 14)%Z -> fs' !! part_path i = None).
Proof.
  assert (H : main_pre (<["challenges" := Dir]> ∅) = true) by (vm_compute; reflexivity).
  split; [exact H|]. exact (main_master_spells_flag _ H).
Defined.

(** C23: [os.makedirs(..., exist_ok=True)] only tolerates directories: if
    [challenges] is a file (and [challenges/flag_parts] absent), [main]
    raises [NotADirectoryError]; if [challenges/flag_parts] is a file,
    [main] raises [FileExistsError]; nothing is split or written. *)
Theorem main_blocked_by_file (fs : files) (e : fsentry) :
  e <> Dir ->
  (fs !! "challenges" = Some e -> fs !! PARTS_DIR = None -> main fs = Raise NotADirectoryError) /\
  (dir_or_absent (fs !! "challenges") = true -> fs !! PARTS_DIR = Some e ->
   main fs = Raise FileExistsError).
Proof.
  intros He. unfold main. destruct (makedirs_blocked fs e He) as [Ha Hb]. split.
  - intros H1 H2. rewrite (Ha H1 H2). reflexivity.
  - intros H1 H2. rewrite (Hb H1 H2). reflexivity.
Qed.

Lemma main_blocked_by_file_witness :
  Text [] <> Dir /\
  main (<["challenges" := Text []]> ∅) = Raise NotADirectoryError /\
  main (<[PARTS_DIR := Text []]> ∅) = Raise FileExistsError.
Proof.
  assert (He : Text [] <> Dir) by discriminate. split; [exact He|].
  destruct (main_blocked_by_file (<["challenges" := Text []]> ∅) (Text []) He) as [Ha _].
  destruct (main_blocked_by_file (<[PARTS_DIR := Text []]> ∅) (Text []) He) as [_ Hb].
  split; [apply Ha | apply Hb]; vm_compute; reflexivity.
Defined.

(** C15: [create_small_zip] ignores its password: whatever it is, the
    archive [filename] holds the single unencrypted member [temp_flag]
    with the content; and the temporary file [temp_flag.txt] is removed,
    a file of that name that existed before included. *)
Theorem create_small_zip_ignores_password (fs : files) (content : list ascii)
    (filename : string) (password : option string) :
  filename <> TEMP_FILE -> is_dir (fs !! TEMP_FILE) = false ->
  check_parent fs filename = Ok tt -> is_dir (fs !! filename) = false ->
  create_small_zip fs content filename password =
  Ok (<[filename := Archive [("temp_flag", Text content)]]> (delete TEMP_FILE fs)).
Proof.
  intros Hf Ht Hc Hd. unfold create_small_zip.
  rewrite open_w_Ok by (reflexivity || exact Ht). cbn [pybind].
  rewrite open_w_Ok by first [apply check_parent_insert; assumption
                            | rewrite lookup_insert_ne by congruence; exact Hd].
  cbn [pybind]. rewrite temp_arcname.
  assert (Hz : zip_member (<[filename := Archive []]> (<[TEMP_FILE := Text content]> fs))
                 TEMP_FILE "temp_flag" = Ok ("temp_flag", Text content)).
  { unfold zip_member. rewrite lookup_insert_ne by congruence.
    rewrite lookup_insert_eq. reflexivity. }
  destruct (py_truthy password); rewrite Hz; unfold pybind, remove;
    rewrite lookup_insert_ne, lookup_insert_ne, lookup_insert_eq by congruence;
    rewrite delete_insert_ne, delete_insert_ne, delete_insert_eq, insert_insert_eq by congruence;
    reflexivity.
Qed.

Lemma create_small_zip_ignores_password_witness :
  "challenges/x.zip" <> TEMP_FILE /\ is_dir ((<["challenges" := Dir]> ∅ : files) !! TEMP_FILE) = false /\
  check_parent (<["challenges" := Dir]> ∅) "challenges/x.zip" = Ok tt /\
  is_dir ((<["challenges" := Dir]> ∅ : files) !! "challenges/x.zip") = false /\
  create_small_zip (<["challenges" := Dir]> ∅) ["a"%char] "challenges/x.zip" (Some "secret") =
  Ok (<["challenges/x.zip" := Archive [("temp_flag", Text ["a"%char])]]>
       (delete TEMP_FILE (<["challenges" := Dir]> ∅))).
Proof.
  assert (H1 : "challenges/x.zip" <> TEMP_FILE) by discriminate.
  assert (H2 : is_dir ((<["challenges" := Dir]> ∅ : files) !! TEMP_FILE) = false)
    by (vm_compute; reflexivity).
  assert (H3 : check_parent (<["challenges" := Dir]> ∅) "challenges/x.zip" = Ok tt)
    by (vm_compute; reflexivity).
  assert (H4 : is_dir ((<["challenges" := Dir]> ∅ : files) !! "challenges/x.zip") = false)
    by (vm_compute; reflexivity).
  split; [exact H1|]. split; [exact H2|]. split; [exact H3|]. split; [exact H4|].
  exact (create_small_zip_ignores_password _ _ _ _ H1 H2 H3 H4).
Defined.

End ZipChallenge.
