(* ===== verification/Console.v ===== *)
(** * What the scripts print: the generators with their standard output

    The three scripts report their progress and tell the solver what to
    do with [print].  This file threads the printed lines through the
    runs with a writer over the exception result ([out]: the lines printed
    so far and the result or the exception that ended the run, in the
    style of a writer monad), and gives the scripts' functions with their
    prints: [create_dtmf_wav] of both generators (progress lines, duration,
    file size), their [main] (banner and instructions), and [main] of
    [src/create_zip_challenge.py].

    A printed line is the list of its f-string pieces: literal text,
    interpolated Python strings (code points), integers, and floats with
    their number of decimals ([PFix], the exact rational the float
    approximates; the decimal rendering is not modelled).  The size of a
    ZIP file depends on its compression and is a parameter
    ([zip_size]).

    Theorems: the runs with their prints compute the results of the pure
    models; the fixed generator reports the size of the file and the
    numpy one 44 bytes less (the header is not counted); the ZIP script
    announces parts of 4 characters while the parts it prints have 3 or
    2. *)

From stdpp Require Import base gmap strings list.
From Stdlib Require Import ZArith QArith Ascii Lia.
From S2P Require Import Prelude Dtmf AsciiDigits Tone Pcm Encoder ZipChallenge.

#[local] Set Warnings "-register-all".

Module Console.

(** ** Printed lines and the writer *)

Inductive piece : Type :=
  | PLit (s : string)
  | PText (t : AsciiDigits.pystr)
  | PInt (z : Z)
  | PFix (decimals : nat) (q : Q).

Definition line := list piece.

Record out (A : Type) := Out { log : list line; res : pyresult A }.
Arguments Out {A}.
Arguments log {A}.
Arguments res {A}.

Definition wret {A} (a : A) : out A := Out [] (Ok a).
Definition print (l : line) : out unit := Out [l] (Ok tt).
Definition lift {A} (r : pyresult A) : out A := Out [] r.

(** Run [m], then [k] on its value; what [m] printed stays printed when
    [m] raises. *)
Definition wbind {A B} (m : out A) (k : A -> out B) : out B :=
  match res m with
  | Ok a => Out (log m ++ log (k a)) (res (k a))
  | Raise e => Out (log m) (Raise e)
  end.

Declare Scope out_scope.
Delimit Scope out_scope with out.
Notation "x <-w m ;; k" := (wbind m (fun x => k))
  (at level 100, m at next level, right associativity) : out_scope.
Open Scope out_scope.

Definition text_of (ds : list ascii) : AsciiDigits.pystr := map N_of_ascii ds.

(** [print(f"[*] Encoding digit {i}/{n}")]. *)
Definition progress_line (i n : Z) : line :=
  [PLit "[*] Encoding digit "; PInt i; PLit "/"; PInt n].

(** The first three prints of both [create_dtmf_wav]. *)
Definition header_lines (message : AsciiDigits.pystr) (ascii_sequence : list ascii) : list line :=
  [[PLit "[*] Message: "; PText message];
   [PLit "[*] ASCII sequence: "; PText (text_of ascii_sequence)];
   [PLit "[*] Length: "; PInt (Z.of_nat (List.length ascii_sequence)); PLit " digits"]].

(** ** [src/create_dtmf_wav_fixed.py], [create_dtmf_wav] with its prints *)

(** Lines 56-58: after digit [i+1] when [(i + 1) % 10 == 0]; the loop
    itself cannot raise. *)
Definition fixed_progress (n : nat) : list line :=
  flat_map (fun i => if ((Z.of_nat i + 1) mod 10 =? 0)%Z
                     then [progress_line (Z.of_nat i + 1) (Z.of_nat n)] else [])
           (seq 0 n).

(** ** Lemmas on the writer *)

Lemma wbind_res {A B} (m : out A) (k : A -> out B) :
  res (wbind m k) = pybind (res m) (fun a => res (k a)).
Proof. unfold wbind. destruct (res m); reflexivity. Qed.

Lemma wbind_Ok {A B} (m : out A) (k : A -> out B) a :
  res m = Ok a -> wbind m k = Out (log m ++ log (k a)) (res (k a)).
Proof. unfold wbind. intros ->. reflexivity. Qed.

Lemma wbind_unit {B} (l : list line) (k : unit -> out B) :
  wbind (Out l (Ok tt)) k = Out (l ++ log (k tt)) (res (k tt)).
Proof. reflexivity. Qed.

Section WithOscillator.
Context `{Oscillator}.

(** Lines 43-84; [os.path.getsize(output_file)] is the number of bytes
    written. *)
Definition fixed_create_dtmf_wav_io (message : AsciiDigits.pystr) (output_file : string)
    (tone_duration silence_duration : Q) : out (list Z) :=
  let ascii_sequence := AsciiDigits.text_to_ascii_digits message in
  _ <-w Out (header_lines message ascii_sequence) (Ok tt) ;;
  _ <-w Out (fixed_progress (List.length ascii_sequence)) (Ok tt) ;;
  bytes <-w lift (Fixed.create_dtmf_wav message tone_duration silence_duration) ;;
  let file_size := Z.of_nat (List.length bytes) in
  let n_samples := List.length (Fixed.all_samples message tone_duration silence_duration) in
  _ <-w print [PLit "[+] WAV file created: "; PLit output_file] ;;
  _ <-w print [PLit "[+] Duration: "; PFix 2 (inject_Z (Z.of_nat n_samples) / inject_Z SAMPLE_RATE);
               PLit " seconds"] ;;
  _ <-w print [PLit "[+] File size: "; PInt file_size; PLit " bytes (";
               PFix 1 (inject_Z file_size / 1024); PLit " KB)"] ;;
  wret bytes.

(** ** [src/create_dtmf_wav.py], [create_dtmf_wav] with its prints *)

(** Lines 53-63: the print comes first in each iteration, when
    [i % 10 == 0], so it is shown even when the burst then raises. *)
Fixpoint np_build_audio_io (tone_duration silence_duration : Q) (digits : list ascii)
    (i n : Z) (audio_data : list Q) : out (list Q) :=
  match digits with
  | [] => wret audio_data
  | d :: ds =>
      _ <-w (if (i mod 10 =? 0)%Z then print (progress_line (i + 1) n) else wret tt) ;;
      seg <-w lift (Numpy.digit_segment tone_duration silence_duration d) ;;
      np_build_audio_io tone_duration silence_duration ds (i + 1) n (audio_data ++ seg)
  end.

(** Lines 40-80: [len(audio_data.tobytes())] is two bytes per sample. *)
Definition np_create_dtmf_wav_io (message : AsciiDigits.pystr) (output_file : string)
    (tone_duration silence_duration : Q) : out (list Z) :=
  let ascii_sequence := AsciiDigits.text_to_ascii_digits_np message in
  _ <-w Out (header_lines message ascii_sequence) (Ok tt) ;;
  audio_data <-w np_build_audio_io tone_duration silence_duration ascii_sequence 0
                   (Z.of_nat (List.length ascii_sequence)) [] ;;
  normalized <-w lift (Tone.np_normalize audio_data) ;;
  let pcm := Numpy.to_pcm16 normalized in
  bytes <-w lift (Pcm.Wave.write wav_params (flat_map (Pcm.Struct.le_bytes 2) pcm)) ;;
  _ <-w print [PLit "[+] WAV file created: "; PLit output_file] ;;
  _ <-w print [PLit "[+] Duration: ";
               PFix 2 (inject_Z (Z.of_nat (List.length pcm)) / inject_Z SAMPLE_RATE);
               PLit " seconds"] ;;
  _ <-w print [PLit "[+] File size: "; PInt (2 * Z.of_nat (List.length pcm)); PLit " bytes"] ;;
  wret bytes.

(** ** Lemmas: the runs with prints compute the pure models *)

Lemma fixed_create_dtmf_wav_io_res m f td sd :
  res (fixed_create_dtmf_wav_io m f td sd) = Fixed.create_dtmf_wav m td sd.
Proof.
  unfold fixed_create_dtmf_wav_io. rewrite !wbind_unit. cbn [res].
  rewrite wbind_res. cbn [res lift]. destruct (Fixed.create_dtmf_wav m td sd); reflexivity.
Qed.

Lemma fixed_create_dtmf_wav_io_log m f td sd bytes :
  Fixed.create_dtmf_wav m td sd = Ok bytes ->
  exists kb, last (log (fixed_create_dtmf_wav_io m f td sd)) =
    Some [PLit "[+] File size: "; PInt (Z.of_nat (List.length bytes)); PLit " bytes (";
          PFix 1 kb; PLit " KB)"].
Proof.
  intros E. unfold fixed_create_dtmf_wav_io. rewrite !wbind_unit. cbn [log res].
  rewrite (wbind_Ok _ _ bytes) by exact E. cbn [log lift print wret wbind res app].
  rewrite !last_app. eexists. reflexivity.
Qed.

Lemma np_build_audio_io_res td sd ds i n acc :
  res (np_build_audio_io td sd ds i n acc) = Numpy.build_audio td sd ds acc.
Proof.
  revert i acc. induction ds as [|d ds IH]; intros i acc; [reflexivity|].
  cbn [np_build_audio_io Numpy.build_audio]. rewrite wbind_res.
  assert (Hp : res (if (i mod 10 =? 0)%Z then print (progress_line (i + 1) n) else wret tt)
               = Ok tt) by (destruct (_ =? _)%Z; reflexivity).
  rewrite Hp. cbn [pybind]. rewrite wbind_res. cbn [res lift].
  destruct (Numpy.digit_segment td sd d); cbn [pybind]; [apply IH|reflexivity].
Qed.

Lemma np_create_dtmf_wav_io_res m f td sd :
  res (np_create_dtmf_wav_io m f td sd) = Numpy.create_dtmf_wav m td sd.
Proof.
  unfold np_create_dtmf_wav_io, Numpy.create_dtmf_wav. rewrite wbind_unit. cbn [res].
  rewrite wbind_res, np_build_audio_io_res.
  destruct (Numpy.build_audio _ _ _ _); cbn [pybind]; [|reflexivity].
  rewrite wbind_res. cbn [res lift]. destruct (Tone.np_normalize _); cbn [pybind]; [|reflexivity].
  rewrite wbind_res. cbn [res lift]. destruct (Pcm.Wave.write _ _); reflexivity.
Qed.

Lemma np_create_dtmf_wav_io_log m f td sd bytes :
  res (np_create_dtmf_wav_io m f td sd) = Ok bytes ->
  last (log (np_create_dtmf_wav_io m f td sd)) =
    Some [PLit "[+] File size: "; PInt (Z.of_nat (List.length bytes) - 44); PLit " bytes"].
Proof.
  intros Hr. pose proof Hr as Hr'. rewrite np_create_dtmf_wav_io_res in Hr.
  unfold Numpy.create_dtmf_wav in Hr.
  destruct (Numpy.build_audio td sd (AsciiDigits.text_to_ascii_digits_np m) []) as [audio|e] eqn:E1;
    [|discriminate]. cbn [pybind] in Hr.
  destruct (Tone.np_normalize audio) as [nrm|e] eqn:E2; [|discriminate]. cbn [pybind] in Hr.
  unfold np_create_dtmf_wav_io. rewrite wbind_unit. cbn [log].
  rewrite (wbind_Ok _ _ audio) by (rewrite np_build_audio_io_res; exact E1). cbn [log].
  rewrite (wbind_Ok (lift _) _ nrm) by exact E2. cbn [log].
  rewrite (wbind_Ok (lift _) _ bytes) by exact Hr.
  cbn [log lift print wret wbind res app]. rewrite !last_app. cbn [last].
  apply Pcm.Wave.write_Ok_eq in Hr as [-> _].
  rewrite length_app, Pcm.Wave.length_header,
    (length_flat_map_const _ 2) by (intros; apply Pcm.Struct.le_bytes_length).
  do 5 f_equal. lia.
Qed.

(** ** [src/create_zip_challenge.py], [main] with its prints *)

Import ZipChallenge.

(** Line 78. *)
Definition created_line (i : Z) (part : list ascii) : line :=
  [PLit "[+] Created "; PLit (zip_name i); PLit " with content: '"; PText (text_of part); PLit "'"].

(** The loop of lines 61-78: a part, then its line. *)
Fixpoint make_parts_io (fs : files) (i : Z) (parts : list (list ascii)) : out files :=
  match parts with
  | [] => wret fs
  | p :: ps =>
      fs' <-w lift (make_part fs i p) ;;
      _ <-w print (created_line i p) ;;
      make_parts_io fs' (i + 1) ps
  end.

Fixpoint created_lines (i : Z) (parts : list (list ascii)) : list line :=
  match parts with
  | [] => []
  | p :: ps => created_line i p :: created_lines (i + 1) ps
  end.

Definition newline : string := String "010"%char EmptyString.

(** Lines 94-100. *)
Definition zip_instructions : list line :=
  [[PLit (newline +:+ "[*] Challenge files created successfully!")];
   [PLit "[*] To solve:"];
   [PLit "    1. Extract flag_parts.zip"];
   [PLit "    2. Each flag##.zip contains a small file (4 chars)"];
   [PLit "    3. Use CRC collision tools to extract content"];
   [PLit "    4. Concatenate all parts in order"];
   [PLit "    5. Submit: "; PText (text_of FLAG)]].

Section WithZipSize.
(** The size of an archive on disk, which depends on its compression. *)
Variable zip_size : fsentry -> Z.

(** [os.path.getsize(p)]. *)
Definition getsize (fs : files) (p : string) : pyresult Z :=
  match fs !! p with Some e => Ok (zip_size e) | None => Raise FileNotFoundError end.

(** [main], lines 49-100. *)
Definition zip_main_io (fs : files) : out files :=
  _ <-w print [PLit "[*] Creating Layer 2 ZIP Challenge Files"] ;;
  _ <-w print [PLit "[*] Flag: "; PText (text_of FLAG)] ;;
  fs0 <-w lift (makedirs fs PARTS_DIR) ;;
  parts <-w lift (split_flag FLAG 14) ;;
  _ <-w print [PLit "[*] Split into "; PInt (Z.of_nat (List.length parts)); PLit " parts"] ;;
  fs1 <-w make_parts_io fs0 0 parts ;;
  _ <-w print [PLit "[*] Creating master flag_parts.zip"] ;;
  fs2 <-w lift (make_master fs1) ;;
  _ <-w print [PLit "[+] Master ZIP created: challenges/flag_parts.zip"] ;;
  size <-w lift (getsize fs2 MASTER) ;;
  _ <-w print [PLit "[+] Total size: "; PInt size; PLit " bytes"] ;;
  _ <-w Out zip_instructions (Ok tt) ;;
  wret fs2.

End WithZipSize.

(** The part a [Created] line shows. *)
Definition printed_part (l : line) : option AsciiDigits.pystr :=
  match l with
  | [PLit s; _; _; PText t; _] => if bool_decide (s = "[+] Created ") then Some t else None
  | _ => None
  end.

(** The loop with its prints computes the loop of the model. *)
Lemma make_parts_io_res fs i ps : res (make_parts_io fs i ps) = make_parts fs i ps.
Proof.
  revert fs i. induction ps as [|p ps IH]; intros fs i; [reflexivity|].
  cbn [make_parts_io make_parts]. unfold lift, print. cbn [wbind res].
  destruct (make_part fs i p); cbn [wbind res pybind]; [apply IH|reflexivity].
Qed.

Lemma make_parts_io_eq fs i ps fs' :
  make_parts fs i ps = Ok fs' -> make_parts_io fs i ps = Out (created_lines i ps) (Ok fs').
Proof.
  revert fs i. induction ps as [|p ps IH]; intros fs i Hm;
    [cbn in Hm; apply Ok_inj in Hm; subst; reflexivity|].
  cbn [make_parts pybind] in Hm. destruct (make_part fs i p) as [fs1|] eqn:E; [|discriminate].
  cbn [make_parts_io created_lines].
  rewrite (wbind_Ok (lift _) _ fs1) by exact E. rewrite (IH _ _ Hm). reflexivity.
Qed.

Lemma zip_main_io_eq zip_size fs :
  main_pre fs = true ->
  zip_main_io zip_size fs =
  Out ([[PLit "[*] Creating Layer 2 ZIP Challenge Files"]; [PLit "[*] Flag: "; PText (text_of FLAG)];
        [PLit "[*] Split into "; PInt 14; PLit " parts"]] ++
       created_lines 0 FLAG_parts ++
       [[PLit "[*] Creating master flag_parts.zip"];
        [PLit "[+] Master ZIP created: challenges/flag_parts.zip"];
        [PLit "[+] Total size: "; PInt (zip_size master_entry); PLit " bytes"]] ++
       zip_instructions)
      (Ok (<[MASTER := master_entry]> (parts_effect (made_dirs fs) 0 FLAG_parts))).
Proof.
  intros Hpre. pose proof (main_pre_spec fs Hpre) as (H1 & H2 & _).
  unfold zip_main_io, print, wret, lift. rewrite makedirs_parts_dir by assumption.
  fold (made_dirs fs). rewrite split_FLAG. cbn [wbind res log].
  rewrite (make_parts_io_eq _ _ _ _ (make_parts_made_dirs fs Hpre)). cbn [wbind res log].
  rewrite (make_master_parts fs Hpre).
  cbn [wbind res log]. unfold getsize. rewrite lookup_insert_eq. cbn [wbind res log].
  rewrite ?app_nil_r. reflexivity.
Qed.

(** ** Theorems *)

(** C34: the two generators report different sizes for the same file:
    the fixed one prints the size of the file it wrote
    ([os.path.getsize]), the numpy one prints [len(audio_data.tobytes())]
    under the label "File size", 44 bytes less than the file, whose WAV
    header it leaves out. *)
Theorem reported_file_sizes (m : AsciiDigits.pystr) (f : string) (td sd : Q)
    (bytes1 bytes2 : list Z) :
  res (fixed_create_dtmf_wav_io m f td sd) = Ok bytes1 ->
  res (np_create_dtmf_wav_io m f td sd) = Ok bytes2 ->
  (exists kb, last (log (fixed_create_dtmf_wav_io m f td sd)) =
     Some [PLit "[+] File size: "; PInt (Z.of_nat (List.length bytes1)); PLit " bytes (";
           PFix 1 kb; PLit " KB)"]) /\
  last (log (np_create_dtmf_wav_io m f td sd)) =
    Some [PLit "[+] File size: "; PInt (Z.of_nat (List.length bytes2) - 44); PLit " bytes"].
Proof.
  intros H1 H2. split; [|exact (np_create_dtmf_wav_io_log _ _ _ _ _ H2)].
  apply (fixed_create_dtmf_wav_io_log m f td sd bytes1).
  rewrite <- (fixed_create_dtmf_wav_io_res m f td sd). exact H1.
Qed.

(** C35: [main] of the ZIP script computes the file system of the model
    [ZipChallenge.main] and prints, among its instructions, that each
    [flagNN.zip] holds a 4-character file, while the fourteen parts it
    prints as it creates them have 3, 2, ..., 2 characters. *)
Theorem zip_main_announces_wrong_size (zip_size : fsentry -> Z) (fs : files) :
  main_pre fs = true ->
  res (zip_main_io zip_size fs) = main fs /\
  In [PLit "    2. Each flag##.zip contains a small file (4 chars)"] (log (zip_main_io zip_size fs)) /\
  map List.length (omap printed_part (log (zip_main_io zip_size fs))) =
    [3; 2; 2; 2; 2; 2; 2; 2; 2; 2; 2; 2; 2; 2]%nat.
Proof.
  intros Hpre. rewrite zip_main_io_eq by exact Hpre. cbn [res log]. split; [|split].
  - rewrite main_eq by exact Hpre. reflexivity.
  - rewrite !in_app_iff. right; right; right. simpl. tauto.
  - vm_compute. reflexivity.
Qed.

Lemma zip_main_announces_wrong_size_witness :
  main_pre ∅ = true /\
  res (zip_main_io (fun _ => 0) ∅) = main ∅ /\
  In [PLit "    2. Each flag##.zip contains a small file (4 chars)"] (log (zip_main_io (fun _ => 0) ∅)) /\
  map List.length (omap printed_part (log (zip_main_io (fun _ => 0) ∅))) =
    [3; 2; 2; 2; 2; 2; 2; 2; 2; 2; 2; 2; 2; 2]%nat.
Proof.
  assert (Hp : main_pre ∅ = true) by (vm_compute; reflexivity).
  split; [exact Hp|]. exact (zip_main_announces_wrong_size _ _ Hp).
Defined.

End WithOscillator.

Lemma reported_file_sizes_witness :
  exists bytes1 bytes2,
  res (fixed_create_dtmf_wav_io [65%N] "a.wav" (1 # 1000) (1 # 1000)) = Ok bytes1 /\
  res (np_create_dtmf_wav_io [65%N] "a.wav" (1 # 1000) (1 # 1000)) = Ok bytes2 /\
  (exists kb, last (log (fixed_create_dtmf_wav_io [65%N] "a.wav" (1 # 1000) (1 # 1000))) =
     Some [PLit "[+] File size: "; PInt (Z.of_nat (List.length bytes1)); PLit " bytes (";
           PFix 1 kb; PLit " KB)"]) /\
  last (log (np_create_dtmf_wav_io [65%N] "a.wav" (1 # 1000) (1 # 1000))) =
    Some [PLit "[+] File size: "; PInt (Z.of_nat (List.length bytes2) - 44); PLit " bytes"].
Proof.
  do 2 eexists.
  assert (H1 : res (fixed_create_dtmf_wav_io [65%N] "a.wav" (1 # 1000) (1 # 1000)) = Ok _)
    by (vm_compute; reflexivity).
  assert (H2 : res (np_create_dtmf_wav_io [65%N] "a.wav" (1 # 1000) (1 # 1000)) = Ok _)
    by (vm_compute; reflexivity).
  split; [exact H1|]. split; [exact H2|]. exact (reported_file_sizes _ _ _ _ _ _ H1 H2).
Defined.

End Console.
