(* ===== verification/Challenge.v ===== *)
(** * End to end: the generated artifacts against the application's secrets

    The generators' [main] functions fix the messages they encode
    ([src/create_dtmf_wav_fixed.py] line 93, [src/create_dtmf_wav.py]
    line 86, [src/create_zip_challenge.py] line 12) and the paths they
    write; the application ([src/app.py]) serves those paths and checks
    the answers a solver recovers from them.  This file connects the
    components: what a solver recovers from each artifact, and whether the
    application accepts it.  It also checks the layer-1 secret against the
    points the application publishes (lines 11-17: [y1], [y2], [y3] at
    [x = 1, 2, 3], and the comment "a0 value").  The generators' [main]
    (fixed: lines 86-113, numpy: lines 82-102) are given with their prints
    ([Console]): the banner, the run of [create_dtmf_wav] with the default
    durations, and the instructions to the solver.  The deployment runs
    the ZIP script, the fixed generator (its directory and its WAV file,
    [generator_fs], which also gives the numpy generator's) and the
    application's start-up on one file system ([ZipChallenge]'s),
    so that the paths the download routes serve can be checked against
    what the generators wrote. *)

From stdpp Require Import base gmap strings list.
From Stdlib Require Import ZArith QArith Lqa Ascii DecimalString DecimalN Lia.
From S2P Require Import Prelude Tone Encoder AsciiDigits ZipChallenge Session Console.

Module Challenge.

(** A Python string of the generators (code points) from an ASCII string,
    and back. *)
Definition pystr_of_string (s : string) : AsciiDigits.pystr :=
  map N_of_ascii (Stdlib.Strings.String.list_ascii_of_string s).
Definition string_of_pystr (t : AsciiDigits.pystr) : string :=
  Stdlib.Strings.String.string_of_list_ascii (map ascii_of_N t).

(** The messages the two generators' [main] encode, and the file they
    write. *)
Definition MESSAGE_fixed : string := "CTF{CRYPTOGRAPHY}".
Definition MESSAGE_np : string := "CTFlean{CRYPTOGRAPHY}".
Definition WAV_OUTPUT : string := "challenges/khansaar_transmission.wav".

(** ["=" * n]. *)
Fixpoint str_repeat (n : nat) (s : string) : string :=
  match n with O => EmptyString | S n' => s +:+ str_repeat n' s end.

Definition rule60 : Console.line := [Console.PLit (str_repeat 60 "=")].

(** Lines 102-113 of the fixed generator; [print()] is the empty line. *)
Definition fixed_main_instructions (message : AsciiDigits.pystr) : list Console.line :=
  [[]; rule60; [Console.PLit "[+] Challenge file created successfully!"]; rule60; [];
   [Console.PLit "To solve this challenge:"];
   [Console.PLit "  1. Download khansaar_transmission.wav"];
   [Console.PLit "  2. Use DTMF decoder tool"];
   [Console.PLit "  3. Decode to get: ";
    Console.PText (Console.text_of (AsciiDigits.text_to_ascii_digits message))];
   [Console.PLit "  4. Convert ASCII codes to text"];
   [Console.PLit "  5. Submit: "; Console.PText message]; []].

(** Lines 96-102 of the numpy generator. *)
Definition np_main_instructions (message : AsciiDigits.pystr) : list Console.line :=
  [[Console.PLit (Console.newline +:+ "[*] Challenge file created successfully!")];
   [Console.PLit "[*] To solve:"];
   [Console.PLit "    1. Download khansaar_transmission.wav"];
   [Console.PLit "    2. Use DTMF decoder (online or tools like dtmf.py, multimon-ng)"];
   [Console.PLit "    3. Decode to get: ";
    Console.PText (Console.text_of (AsciiDigits.text_to_ascii_digits_np message))];
   [Console.PLit "    4. Convert ASCII codes to text"];
   [Console.PLit "    5. Submit: "; Console.PText message]].

(** The start-up of [src/app.py] (lines 144-146) before [app.run]: its
    two directories. *)
Definition app_startup (fs : ZipChallenge.files) : pyresult ZipChallenge.files :=
  pybind (ZipChallenge.makedirs fs "challenges") (fun fs1 =>
  ZipChallenge.makedirs fs1 "templates").

(** Where the deployment can run: [main_pre] of the ZIP script, the WAV
    path is not a directory, [templates] is a directory or absent. *)
Definition deploy_pre (fs : ZipChallenge.files) : bool :=
  ZipChallenge.main_pre fs && negb (ZipChallenge.is_dir (fs !! WAV_OUTPUT)) &&
  ZipChallenge.dir_or_absent (fs !! "templates").

(** The file-system effect of a generator's [main] whose run is [io]:
    [os.makedirs('challenges', exist_ok=True)], then
    [wave.open(output_file, 'w')] in [create_dtmf_wav] holding the bytes
    of the run. *)
Definition generator_fs (io : Console.out (list Z)) (fs : ZipChallenge.files)
    : pyresult ZipChallenge.files :=
  pybind (ZipChallenge.makedirs fs "challenges") (fun fs1 =>
  pybind (Console.res io) (fun bytes =>
  ZipChallenge.open_w fs1 WAV_OUTPUT (ZipChallenge.Binary bytes))).

Section Mains.
Context `{Oscillator}.

(** [main] of [src/create_dtmf_wav_fixed.py], lines 86-113, with the
    default durations 0.2 s and 0.05 s; the result is the file written. *)
Definition fixed_main_io : Console.out (list Z) :=
  Console.wbind (Console.Out [rule60; [Console.PLit "[*] Creating Layer 3 DTMF WAV Challenge"];
                               rule60; []] (Ok tt)) (fun _ =>
  Console.wbind (Console.fixed_create_dtmf_wav_io (pystr_of_string MESSAGE_fixed) WAV_OUTPUT
                   (1 # 5) (1 # 20)) (fun bytes =>
  Console.wbind (Console.Out (fixed_main_instructions (pystr_of_string MESSAGE_fixed)) (Ok tt))
    (fun _ => Console.wret bytes))).

(** The file-system effect of the fixed [main]: [os.makedirs] on line 96,
    then [wave.open(output_file, 'w')] (line 70 of [create_dtmf_wav],
    called on line 100). *)
Definition fixed_main_fs : ZipChallenge.files -> pyresult ZipChallenge.files :=
  generator_fs fixed_main_io.

(** The deployment: the ZIP script, the fixed WAV generator, then the
    application's start-up. *)
Definition deploy (fs : ZipChallenge.files) : pyresult ZipChallenge.files :=
  pybind (ZipChallenge.main fs) (fun fs1 =>
  pybind (fixed_main_fs fs1) app_startup).

(** [main] of [src/create_dtmf_wav.py], lines 82-102. *)
Definition np_main_io : Console.out (list Z) :=
  Console.wbind (Console.print [Console.PLit "[*] Creating Layer 3 DTMF WAV Challenge"]) (fun _ =>
  Console.wbind (Console.np_create_dtmf_wav_io (pystr_of_string MESSAGE_np) WAV_OUTPUT
                   (1 # 5) (1 # 20)) (fun bytes =>
  Console.wbind (Console.Out (np_main_instructions (pystr_of_string MESSAGE_np)) (Ok tt))
    (fun _ => Console.wret bytes))).

(** The file-system effect of the numpy [main]: [os.makedirs] on line 90,
    then [wave.open(output_file, 'w')] (line 72 of [create_dtmf_wav],
    called on line 94): the same path as the fixed generator's. *)
Definition np_main_fs : ZipChallenge.files -> pyresult ZipChallenge.files :=
  generator_fs np_main_io.

End Mains.

(** What a solver recovers from the digit stream of a message: the greedy
    regrouping of the symbols, as a string. *)
Definition solver_reads (message : string) : option string :=
  match AsciiDigits.greedy_regroup
          (AsciiDigits.text_to_ascii_digits (pystr_of_string message)) with
  | Some t => Some (string_of_pystr t)
  | None => None
  end.

(** What a solver recovers from the master ZIP archive: the texts of the
    part archives, extracted in order and concatenated. *)
Definition solver_reads_zip (e : ZipChallenge.fsentry) : option string :=
  option_map Stdlib.Strings.String.string_of_list_ascii (ZipChallenge.extract_master e).

(** [int(s)] of a decimal string of digits. *)
Definition z_of_decimal (s : string) : option Z :=
  match NilEmpty.uint_of_string s with
  | Some u => Some (Z.of_N (N.of_uint u))
  | None => None
  end.

(** The published points of layer 1: [x_values = [1, 2, 3]] paired in
    order with the decimal values of [LAYER_1_Y_VALUES]. *)
Definition layer1_points : list (Z * option Z) :=
  zip [1; 2; 3]%Z (map (fun '(_, v) => z_of_decimal v) Session.LAYER_1_Y_VALUES).

(** A quadratic [a0 + a1 x + a2 x^2] through every published point. *)
Definition through_points (a0 a1 a2 : Q) : Prop :=
  forall x y, In (x, Some y) layer1_points ->
    (a0 + a1 * inject_Z x + a2 * inject_Z x * inject_Z x == inject_Z y)%Q.

(** ** Lemmas *)

Section MainRuns.
Context `{Oscillator}.

Lemma fixed_main_Ok :
  exists bytes, Fixed.create_dtmf_wav (pystr_of_string MESSAGE_fixed) (1 # 5) (1 # 20) = Ok bytes.
Proof.
  eexists. apply Fixed.create_dtmf_wav_eq.
  rewrite Fixed.length_all_samples, Nat2Z.inj_mul, Nat2Z.inj_add, !Z2Nat.id
    by (vm_compute; discriminate).
  vm_compute. reflexivity.
Qed.

(** The fixed [main] writes its file and prints its instructions. *)
Lemma fixed_main_io_run :
  exists bytes, Console.res fixed_main_io = Ok bytes /\
  forall l, In l (fixed_main_instructions (pystr_of_string MESSAGE_fixed)) ->
            In l (Console.log fixed_main_io).
Proof.
  destruct fixed_main_Ok as [bytes E]. exists bytes.
  unfold fixed_main_io. rewrite Console.wbind_unit.
  rewrite (Console.wbind_Ok _ _ bytes) by (rewrite Console.fixed_create_dtmf_wav_io_res; exact E).
  rewrite Console.wbind_unit. cbn [Console.log Console.res]. split; [reflexivity|].
  intros l Hl. rewrite !in_app_iff. right; right; left. exact Hl.
Qed.

End MainRuns.

(** A generator's [main] on a file system where [challenges] can be made
    and the WAV path is not a directory: the directory, then the file
    holding the bytes of the run, whatever was there before. *)
Lemma generator_fs_eq io fs :
  ZipChallenge.dir_or_absent (fs !! "challenges") = true ->
  ZipChallenge.is_dir (fs !! WAV_OUTPUT) = false ->
  generator_fs io fs = pybind (Console.res io) (fun bytes =>
    Ok (<[WAV_OUTPUT := ZipChallenge.Binary bytes]> (<["challenges" := ZipChallenge.Dir]> fs))).
Proof.
  intros Hc Hw. unfold generator_fs. rewrite ZipChallenge.makedirs_top by (reflexivity || exact Hc).
  cbn [pybind]. destruct (Console.res io) as [bytes|e]; cbn [pybind]; [|reflexivity].
  apply ZipChallenge.open_w_Ok.
  - apply (ZipChallenge.check_parent_Ok _ _ "challenges"); [reflexivity | discriminate |].
    apply lookup_insert_eq.
  - rewrite lookup_insert_ne by discriminate. exact Hw.
Qed.

(** ** Theorems *)

(** C33: the layer-1 secret is not the constant term the comment claims:
    the quadratic through the three published points [(1, 3728197)],
    [(2, 3728224)], [(3, 3728269)] is [3728188 + 9 x^2], whose [a0] is
    3728188, while the application accepts 3728192. *)
Theorem layer1_secret_is_not_a0 (a0 a1 a2 : Q) :
  through_points a0 a1 a2 ->
  (a0 == 3728188 /\ a1 == 0 /\ a2 == 9)%Q /\
  z_of_decimal Session.LAYER_1_SECRET = Some 3728192%Z.
Proof.
  intros H. split; [|reflexivity].
  pose proof (H 1%Z 3728197%Z ltac:(vm_compute; tauto)) as H1.
  pose proof (H 2%Z 3728224%Z ltac:(vm_compute; tauto)) as H2.
  pose proof (H 3%Z 3728269%Z ltac:(vm_compute; tauto)) as H3.
  unfold inject_Z in H1, H2, H3. lra.
Qed.

Lemma layer1_secret_is_not_a0_witness :
  through_points 3728188 0 9 /\
  ((3728188 == 3728188 /\ 0 == 0 /\ 9 == 9)%Q /\
   z_of_decimal Session.LAYER_1_SECRET = Some 3728192%Z).
Proof.
  assert (H : through_points 3728188 0 9).
  { intros x y Hin. vm_compute in Hin.
    destruct Hin as [E|[E|[E|[]]]]; injection E as <- <-; vm_compute; reflexivity. }
  split; [exact H|]. exact (layer1_secret_is_not_a0 _ _ _ H).
Defined.

(** C32: layer 2 end to end: on a file system where
    [create_zip_challenge.py] can run, the master archive its [main]
    writes is the file [download_zip] serves, a solver that extracts it
    reads an answer, and a session holding [layer_2_unlocked] that submits
    this answer gains [layer_3_unlocked]. *)
Theorem zip_flag_accepted md5_hex (fs : ZipChallenge.files) (s : Session.session)
    (req : Session.request) :
  ZipChallenge.main_pre fs = true -> Session.unlocked s 2 = true ->
  exists fs' answer,
    ZipChallenge.main fs = Ok fs' /\
    (fs' !! ZipChallenge.MASTER ≫= solver_reads_zip) = Some answer /\
    Session.unlocked
      (fst (Session.handle md5_hex Session.SubmitLayer2 (Session.answer_req answer) s)) 3 = true /\
    Session.handle md5_hex Session.DownloadZip req s =
      (s, Session.SendFile ZipChallenge.MASTER "flag_parts.zip" "application/zip").
Proof.
  intros Hpre H2. rewrite ZipChallenge.main_eq by exact Hpre.
  eexists _, _. split; [reflexivity|]. split.
  { rewrite lookup_insert_eq. vm_compute. reflexivity. }
  simpl. unfold Session.submit_layer2, Session.download_zip, Session.check_layer.
  rewrite H2. split; [|reflexivity]. simpl.
  rewrite Session.unlocked_insert. reflexivity.
Qed.

Lemma zip_flag_accepted_witness :
  ZipChallenge.main_pre ∅ = true /\ Session.unlocked {[Session.layer_key 2 := true]} 2 = true /\
  exists fs' answer,
    ZipChallenge.main ∅ = Ok fs' /\
    (fs' !! ZipChallenge.MASTER ≫= solver_reads_zip) = Some answer /\
    Session.unlocked
      (fst (Session.handle (fun x => x) Session.SubmitLayer2 (Session.answer_req answer)
              {[Session.layer_key 2 := true]})) 3 = true /\
    Session.handle (fun x => x) Session.DownloadZip (Session.mk_request None)
      {[Session.layer_key 2 := true]} =
      ({[Session.layer_key 2 := true]},
       Session.SendFile ZipChallenge.MASTER "flag_parts.zip" "application/zip").
Proof.
  assert (Hp : ZipChallenge.main_pre ∅ = true) by (vm_compute; reflexivity).
  assert (H2 : Session.unlocked {[Session.layer_key 2 := true]} 2 = true) by reflexivity.
  split; [exact Hp|]. split; [exact H2|]. exact (zip_flag_accepted _ _ _ _ Hp H2).
Defined.

Section EndToEnd.
Context `{Oscillator}.

(** C2: layer 3 end to end with the fixed generator: its [main] writes
    the WAV file and tells the solver to submit [CTF{CRYPTOGRAPHY}]; a
    solver who regroups the digit stream of the message recovers exactly
    that; [submit_layer3] accepts it with the final flag; and the file
    [main] writes is the one [download_wav] serves. *)
Theorem fixed_message_accepted md5_hex (s : Session.session) (req : Session.request) :
  Session.unlocked s 3 = true ->
  (exists bytes, Console.res fixed_main_io = Ok bytes) /\
  In [Console.PLit "  5. Submit: "; Console.PText (pystr_of_string MESSAGE_fixed)]
     (Console.log fixed_main_io) /\
  solver_reads MESSAGE_fixed = Some MESSAGE_fixed /\
  snd (Session.handle md5_hex Session.SubmitLayer3 (Session.answer_req MESSAGE_fixed) s) =
    Session.Json 200 [("success", Session.JBool true);
      ("message", Session.JStr "Khansaar is yours! The throne of Devaratha acknowledges you!");
      ("final_flag", Session.JStr Session.LAYER_3_FLAG)] /\
  Session.handle md5_hex Session.DownloadWav req s =
    (s, Session.SendFile WAV_OUTPUT "khansaar_transmission.wav" "audio/wav").
Proof.
  intros H3. destruct fixed_main_io_run as [bytes [Hres Hlog]].
  split; [eauto|]. split; [apply Hlog; simpl; tauto|]. split; [vm_compute; reflexivity|].
  simpl. unfold Session.submit_layer3, Session.download_wav, Session.check_layer.
  rewrite H3. split; reflexivity.
Qed.

(** C20: composition of the generators and the application: on a file
    system where they can run, the deployment (the ZIP script, the fixed
    WAV generator, the application's start-up) succeeds, and every file a
    download route serves exists afterwards and holds its artifact: the
    ZIP route's file extracts to the layer-2 answer, the WAV route's file
    holds the bytes the fixed generator wrote. *)
Theorem deployment_serves_artifacts md5_hex (fs : ZipChallenge.files) :
  deploy_pre fs = true ->
  exists fs' bytes,
    deploy fs = Ok fs' /\ Console.res fixed_main_io = Ok bytes /\
    (forall s req, Session.unlocked s 2 = true ->
       exists p n m, Session.handle md5_hex Session.DownloadZip req s = (s, Session.SendFile p n m) /\
       (fs' !! p ≫= solver_reads_zip) =
         Some (Stdlib.Strings.String.string_of_list_ascii ZipChallenge.FLAG)) /\
    (forall s req, Session.unlocked s 3 = true ->
       exists p n m, Session.handle md5_hex Session.DownloadWav req s = (s, Session.SendFile p n m) /\
       fs' !! p = Some (ZipChallenge.Binary bytes)).
Proof.
  unfold deploy_pre. intros Hpre. apply andb_prop in Hpre as [Hpre Ht].
  apply andb_prop in Hpre as [Hm Hw]. apply negb_true_iff in Hw.
  destruct fixed_main_io_run as [bytes [Hres _]].
  assert (Hother : forall k, k <> ZipChallenge.MASTER -> k <> ZipChallenge.PARTS_DIR ->
            k <> "challenges" -> (forall j, k <> ZipChallenge.zip_name j /\ k <> ZipChallenge.part_path j) ->
            (<[ZipChallenge.MASTER := ZipChallenge.master_entry]>
               (ZipChallenge.parts_effect (ZipChallenge.made_dirs fs) 0 ZipChallenge.FLAG_parts)) !! k
            = fs !! k) by (intros; apply ZipChallenge.main_effect_other; assumption).
  unfold deploy, fixed_main_fs, app_startup. rewrite ZipChallenge.main_eq by exact Hm.
  cbn [pybind]. rewrite generator_fs_eq.
  2: { rewrite ZipChallenge.main_effect_challenges. reflexivity. }
  2: { rewrite Hother by (discriminate || intros j; split; discriminate). exact Hw. }
  rewrite Hres. cbn [pybind]. rewrite ZipChallenge.makedirs_top;
    [|reflexivity | rewrite lookup_insert_ne, lookup_insert_eq by discriminate; reflexivity].
  cbn [pybind]. rewrite ZipChallenge.makedirs_top; [|reflexivity|].
  2: { rewrite !lookup_insert_ne by discriminate.
       rewrite ZipChallenge.parts_effect_other by (intros j _; split; discriminate).
       rewrite ZipChallenge.made_dirs_other by discriminate. exact Ht. }
  eexists _, bytes. split; [reflexivity|]. split; [reflexivity|]. split.
  - intros s req H2. do 3 eexists. cbn [Session.handle]. unfold Session.download_zip, Session.check_layer.
    rewrite H2. split; [reflexivity|].
    change "challenges/flag_parts.zip" with ZipChallenge.MASTER.
    rewrite (lookup_insert_ne _ "templates"), (lookup_insert_ne _ "challenges"),
      (lookup_insert_ne _ WAV_OUTPUT), (lookup_insert_ne _ "challenges") by discriminate.
    rewrite lookup_insert_eq. vm_compute. reflexivity.
  - intros s req H3. do 3 eexists. cbn [Session.handle]. unfold Session.download_wav, Session.check_layer.
    rewrite H3. split; [reflexivity|].
    rewrite !lookup_insert_ne by discriminate. apply lookup_insert_eq.
Qed.

End EndToEnd.

Lemma deployment_serves_artifacts_witness :
  deploy_pre ∅ = true /\
  exists fs' bytes,
    deploy ∅ = Ok fs' /\ Console.res fixed_main_io = Ok bytes /\
    (forall s req, Session.unlocked s 2 = true ->
       exists p n m, Session.handle (fun x => x) Session.DownloadZip req s =
                     (s, Session.SendFile p n m) /\
       (fs' !! p ≫= solver_reads_zip) =
         Some (Stdlib.Strings.String.string_of_list_ascii ZipChallenge.FLAG)) /\
    (forall s req, Session.unlocked s 3 = true ->
       exists p n m, Session.handle (fun x => x) Session.DownloadWav req s =
                     (s, Session.SendFile p n m) /\
       fs' !! p = Some (ZipChallenge.Binary bytes)).
Proof.
  assert (Hp : deploy_pre ∅ = true) by (vm_compute; reflexivity).
  split; [exact Hp|]. exact (deployment_serves_artifacts (fun x => x) ∅ Hp).
Defined.

Lemma fixed_message_accepted_witness :
  Session.unlocked {[Session.layer_key 3 := true]} 3 = true /\
  ((exists bytes, Console.res fixed_main_io = Ok bytes) /\
  In [Console.PLit "  5. Submit: "; Console.PText (pystr_of_string MESSAGE_fixed)]
     (Console.log fixed_main_io) /\
  solver_reads MESSAGE_fixed = Some MESSAGE_fixed /\
  snd (Session.handle (fun x => x) Session.SubmitLayer3 (Session.answer_req MESSAGE_fixed)
         {[Session.layer_key 3 := true]}) =
    Session.Json 200 [("success", Session.JBool true);
      ("message", Session.JStr "Khansaar is yours! The throne of Devaratha acknowledges you!");
      ("final_flag", Session.JStr Session.LAYER_3_FLAG)] /\
  Session.handle (fun x => x) Session.DownloadWav (Session.mk_request None)
    {[Session.layer_key 3 := true]} =
    ({[Session.layer_key 3 := true]},
     Session.SendFile WAV_OUTPUT "khansaar_transmission.wav" "audio/wav")).
Proof.
  assert (H : Session.unlocked {[Session.layer_key 3 := true]} 3 = true) by reflexivity.
  split; [exact H|]. exact (fixed_message_accepted _ _ _ H).
Defined.

(** C19: layer 3 with the numpy generator: its message
    [CTFlean{CRYPTOGRAPHY}] decodes exactly, but [submit_layer3] rejects
    it; an artifact produced by [create_dtmf_wav.py] cannot solve the
    layer. *)
Theorem np_message_rejected md5_hex (s : Session.session) :
  Session.unlocked s 3 = true ->
  solver_reads MESSAGE_np = Some MESSAGE_np /\
  Session.handle md5_hex Session.SubmitLayer3 (Session.answer_req MESSAGE_np) s =
    (s, Session.Json 200 [("success", Session.JBool false);
      ("message", Session.JStr "The final transmission is not decoded. Listen carefully.")]).
Proof.
  intros H3. split; [vm_compute; reflexivity|].
  simpl. unfold Session.submit_layer3. rewrite H3. reflexivity.
Qed.

Lemma np_message_rejected_witness :
  Session.unlocked {[Session.layer_key 3 := true]} 3 = true /\
  solver_reads MESSAGE_np = Some MESSAGE_np /\
  Session.handle (fun x => x) Session.SubmitLayer3 (Session.answer_req MESSAGE_np)
    {[Session.layer_key 3 := true]} =
    ({[Session.layer_key 3 := true]}, Session.Json 200 [("success", Session.JBool false);
      ("message", Session.JStr "The final transmission is not decoded. Listen carefully.")]).
Proof.
  assert (H : Session.unlocked {[Session.layer_key 3 := true]} 3 = true) by reflexivity.
  split; [exact H|]. exact (np_message_rejected _ _ H).
Defined.

End Challenge.
